(** * XeriaCO backend: pipeline runs, validation, marketing content and social posting

    A shallow embedding of the job orchestration engine of the XeriaCO
    backend (routes/pipeline.js, cron/index.js, the pipeline webhook of
    index.js, services/TrendScout.js, services/SocialPoster.js and
    services/MarketingOrchestrator.js) together with the properties the
    specification states about it.

    Conventions of the embedding.
    - JavaScript numbers that hold money, percentages and scores are
      rationals ([Q]); counters, lengths and millisecond clocks are
      integers ([Z]).  NaN and the infinities are outside the model.
    - Strings are [string], holding the UTF-8 encoding of the JavaScript
      string; [length] counts UTF-16 code units, as JavaScript does;
      [toLowerCase] is exact on every letter whose lower case holds an
      ASCII character.
    - [toFixed] first takes the number to the nearest binary64 value, and
      rounds that value to the digits asked for.
    - An [async] function is a function of the state-and-exception monad
      [M]: the state is threaded explicitly, a rejected promise is
      [Throw e], and the state reached when the exception is raised is
      kept, as a JavaScript object keeps its mutations.
    - Every call that leaves the process (a database operation, a provider
      or network call) takes its answer from an environment indexed by the
      number of such calls made so far ([tick]), so that the theorems
      quantify over every behaviour of the collaborators.  [Date.now()] is
      read off the same environment. *)

From Stdlib Require Import ZArith QArith Qabs Qround Lqa String Ascii List Lia Bool.
From stdpp Require Import base option list gmap strings pretty.

Open Scope string_scope.
Open Scope Z_scope.

(** ** JavaScript values shared by all modules *)

Module JS.

(** [err.message], and [err.response?.data?.error?.message] for the
    errors raised by the HTTP client. *)
Record Error := mkError {
  message : string;
  responseMessage : option string
}.

Definition Err (m : string) : Error := mkError m None.

Inductive Outcome (A : Type) : Type :=
| Ok (a : A)
| Throw (e : Error).
Arguments Ok {A} a.
Arguments Throw {A} e.

(** [s || d] on strings: the empty string is falsy. *)
Definition orStr (s d : string) : string :=
  if String.eqb s "" then d else s.

(** [x || d] on numbers: zero is falsy. *)
Definition orNum (x d : Q) : Q :=
  if Qeq_bool x 0 then d else x.

Definition orZ (x d : Z) : Z :=
  if Z.eqb x 0 then d else x.

Definition truthyStr (s : string) : bool := negb (String.eqb s "").

Definition lowerAscii (c : ascii) : ascii :=
  let n := nat_of_ascii c in
  if (Nat.leb 65 n && Nat.leb n 90)%bool then ascii_of_nat (n + 32) else c.

(** [s.toLowerCase()], where ASCII letters are concerned: A to Z, the
    Kelvin sign (U+212A, bytes E2 84 AA), whose lower case is [k], and the
    dotted capital I (U+0130, bytes C4 B0), whose lower case is [i]
    followed by U+0307 (bytes CC 87).  The lower case of any other letter
    holds no ASCII character; such letters are left as they are, which
    makes no difference to a search for an ASCII keyword, the only use the
    code makes of the result. *)
Fixpoint toLowerCase (s : string) : string :=
  match s with
  | EmptyString => EmptyString
  | String c s' =>
      let plain := String (lowerAscii c) (toLowerCase s') in
      if Nat.eqb (nat_of_ascii c) 226 then
        match s' with
        | String c2 (String c3 s3) =>
            if (Nat.eqb (nat_of_ascii c2) 132 && Nat.eqb (nat_of_ascii c3) 170)%bool
            then String "k" (toLowerCase s3)
            else plain
        | _ => plain
        end
      else if Nat.eqb (nat_of_ascii c) 196 then
        match s' with
        | String c2 s2 =>
            if Nat.eqb (nat_of_ascii c2) 176
            then String "i" (String (ascii_of_nat 204)
                               (String (ascii_of_nat 135) (toLowerCase s2)))
            else plain
        | _ => plain
        end
      else plain
  end.

(** [s.includes(sub)] *)
Fixpoint includes (s sub : string) : bool :=
  String.prefix sub s ||
  match s with
  | EmptyString => false
  | String _ s' => includes s' sub
  end.

Definition Qltb (x y : Q) : bool := negb (Qle_bool y x).

(** [s.length]: one UTF-16 code unit for each code point of the basic
    plane, two for the others (the four-byte sequences of UTF-8);
    continuation bytes count for nothing. *)
Definition codeUnits (c : ascii) : nat :=
  let n := nat_of_ascii c in
  if Nat.ltb n 128 then 1%nat
  else if Nat.ltb n 192 then 0%nat
  else if Nat.ltb n 240 then 1%nat
  else 2%nat.

Fixpoint jsLength (s : string) : nat :=
  match s with
  | EmptyString => 0%nat
  | String c s' => (codeUnits c + jsLength s')%nat
  end.

(** [a / b], for [a >= 0] and [b > 0], rounded to the nearest integer,
    ties to the even one. *)
Definition roundHalfEven (a b : Z) : Z :=
  let f := a / b in
  let r := a mod b in
  match 2 * r ?= b with
  | Lt => f
  | Gt => f + 1
  | Eq => if Z.even f then f else f + 1
  end.

(** The binary64 number nearest to [n / d], for [n, d > 0]: a significand
    of 53 bits times a power of two, the exponent not below -1074.
    Numbers too large for binary64 are outside the model. *)
Definition nearestDouble (n d : Z) : Q :=
  let scaled e := if 0 <=? e then (n, d * 2 ^ e) else (n * 2 ^ (- e), d) in
  let e0 := Z.log2 n - Z.log2 d - 52 in
  let below := fst (scaled e0) / snd (scaled e0) <? 2 ^ 52 in
  let e := Z.max (if below then e0 - 1 else e0) (-1074) in
  let m := roundHalfEven (fst (scaled e)) (snd (scaled e)) in
  if 0 <=? e then inject_Z (m * 2 ^ e) else Qmake m (Z.to_pos (2 ^ (- e))).

(** The value a JavaScript number holds for the rational [x]. *)
Definition toDouble (x : Q) : Q :=
  match Qnum x with
  | Z0 => 0
  | Zpos n => nearestDouble (Zpos n) (Zpos (Qden x))
  | Zneg n => - nearestDouble (Zpos n) (Zpos (Qden x))
  end.

(** The double-quote character, for messages that quote a title. *)
Definition dquote : string := String (ascii_of_nat 34) EmptyString.

(** [x.toFixed(1)]: the number with one decimal nearest to the binary64
    value of [x], the larger one at a tie, with the sign kept in front.
    Numbers of 10^21 and more, which print with an exponent, are outside
    the model. *)
Definition toFixed1 (x : Q) : string :=
  let y := toDouble x in
  let n := Qfloor (Qabs y * 10 + (1 # 2)) in
  ((if Qltb y 0 then "-" else "") ++
   pretty (n / 10) ++ "." ++ pretty (n mod 10))%string.

(** [Math.round]: nearest integer, ties towards plus infinity. *)
Definition round (x : Q) : Z := Qfloor (x + (1 # 2)).

End JS.
Export JS.

(** ** The state-and-exception monad of asynchronous code *)

Definition M (S A : Type) : Type := S -> Outcome A * S.

Section Monad.
Context {S : Type}.

Definition ret {A} (a : A) : M S A := fun s => (Ok a, s).

Definition bind {A B} (m : M S A) (k : A -> M S B) : M S B :=
  fun s =>
    match m s with
    | (Ok a, s') => k a s'
    | (Throw e, s') => (Throw e, s')
    end.

Definition throw {A} (e : Error) : M S A := fun s => (Throw e, s).

(** [try { m } catch (err) { h err }] *)
Definition tryCatch {A} (m : M S A) (h : Error -> M S A) : M S A :=
  fun s =>
    match m s with
    | (Ok a, s') => (Ok a, s')
    | (Throw e, s') => h e s'
    end.

Definition gets {A} (f : S -> A) : M S A := fun s => (Ok (f s), s).

Definition modify (f : S -> S) : M S unit := fun s => (Ok tt, f s).

(** [for (const x of l) { body x }] *)
Fixpoint forEach {A} (l : list A) (body : A -> M S unit) : M S unit :=
  match l with
  | [] => ret tt
  | x :: l' => bind (body x) (fun _ => forEach l' body)
  end.

(** A loop that carries local counters. *)
Fixpoint foldM {A B} (body : B -> A -> M S B) (b : B) (l : list A) : M S B :=
  match l with
  | [] => ret b
  | x :: l' => bind (body b x) (fun b' => foldM body b' l')
  end.

(** A mutable local object [l] next to the shared state: the document a
    function holds in a variable and assigns to before saving it. *)
Definition lift {L A} (m : M S A) : M (L * S) A :=
  fun ls => let r := m (snd ls) in (fst r, (fst ls, snd r)).

Definition getLocal {L} : M (L * S) L := fun ls => (Ok (fst ls), ls).

Definition setLocal {L} (l : L) : M (L * S) unit :=
  fun ls => (Ok tt, (l, snd ls)).

Definition withLocal {L A} (l : L) (m : M (L * S) A) : M S A :=
  fun s => let r := m (l, s) in (fst r, snd (snd r)).

End Monad.

Declare Scope monad_scope.
Delimit Scope monad_scope with monad.
Notation "'let*' x ':=' m 'in' k" := (bind m (fun x => k))
  (at level 10, x name, m at level 100, k at level 200) : monad_scope.
Notation "m ;; k" := (bind m (fun _ => k))
  (at level 100, k at level 200, right associativity) : monad_scope.
Open Scope monad_scope.

(** ** services/TrendScout.js: the scoring engine *)

Module TrendScout.

(** The objects built by [fetchCJProducts] and [scrapeAliDropTrends]. *)
Record ScannedProduct := mkScanned {
  name : string;
  source : string;
  externalId : string;
  image : string;
  costUsd : Q;
  costAud : Q;
  orders : Z;
  category : string;
  supplierUrl : string;
  trendScore : option Z
}.

Definition highDemandCategories : list string :=
  ["electronics"; "home"; "beauty"; "fashion"; "sports"; "toys";
   "kitchen"; "garden"; "pet"].

Definition salesBonus (o : Z) : Z :=
  if 10000 <? o then 25
  else if 5000 <? o then 20
  else if 1000 <? o then 15
  else if 500 <? o then 10
  else if 100 <? o then 5
  else 0.

Definition costBonus (cost : Q) : Z :=
  if (Qle_bool 5 cost && Qle_bool cost 50)%bool then 20
  else if (Qltb 50 cost && Qle_bool cost 100)%bool then 15
  else if (Qltb 100 cost && Qle_bool cost 200)%bool then 10
  else if (Qltb 0 cost && Qltb cost 5)%bool then 5
  else 0.

Definition categoryBonus (category : string) : Z :=
  let catLower := toLowerCase (orStr category "") in
  if existsb (fun c => includes catLower c) highDemandCategories then 10 else 0.

Definition imageBonus (image : string) : Z :=
  if truthyStr image then 5 else 0.

Definition nameBonus (name : string) : Z :=
  if (truthyStr name && (10 <? Z.of_nat (jsLength name)))%bool then 5 else 0.

(** The local variable [score] at the end of [scoreProduct]. *)
Definition score (p : ScannedProduct) : Z :=
  15
  + salesBonus (orders p)
  + costBonus (orNum (costAud p) (orNum (costUsd p) 0))
  + categoryBonus (category p)
  + imageBonus (image p)
  + nameBonus (name p).

Definition setTrendScore (v : Z) (p : ScannedProduct) : ScannedProduct :=
  mkScanned (name p) (source p) (externalId p) (image p) (costUsd p)
            (costAud p) (orders p) (category p) (supplierUrl p) (Some v).

(** Products are JavaScript objects: [scoreProduct] receives a reference,
    writes the [trendScore] field of the object behind it and returns the
    same reference. *)
Abbreviation Heap := (gmap nat ScannedProduct).

Definition scoreProduct (h : Heap) (product : nat) : Heap * nat :=
  match h !! product with
  | Some p => (<[product := setTrendScore (Z.min (score p) 100) p]> h, product)
  | None => (h, product)
  end.

(** Two products that agree on every field the caller supplies. *)
Definition sameInput (p q : ScannedProduct) : Prop :=
  name p = name q /\ source p = source q /\ externalId p = externalId q /\
  image p = image q /\ costUsd p = costUsd q /\ costAud p = costAud q /\
  orders p = orders q /\ category p = category q /\
  supplierUrl p = supplierUrl q.

End TrendScout.

(** ** services/SocialPoster.js and services/MarketingOrchestrator.js *)

Module Marketing.

(** *** Data *)

Inductive ContentStatus :=
| Generating | PendingApproval | Approved | Rejected | Posted | Failed.

Definition statusString (s : ContentStatus) : string :=
  match s with
  | Generating => "generating"
  | PendingApproval => "pending_approval"
  | Approved => "approved"
  | Rejected => "rejected"
  | Posted => "posted"
  | Failed => "failed"
  end.

Definition isPendingApproval (s : ContentStatus) : bool :=
  match s with PendingApproval => true | _ => false end.

(** The result object of one channel: [{ success, reason, platform,
    postId }]; absent fields are [None]. *)
Record PostResult := mkPostResult {
  success : bool;
  reason : option string;
  platform : option string;
  postId : option string
}.

Definition failure (r : string) : PostResult :=
  mkPostResult false (Some r) None None.
Definition bareFailure : PostResult := mkPostResult false None None None.

Record PostResults := mkPostResults {
  instagram : PostResult;
  facebook : PostResult;
  pinterest : PostResult
}.

(** [Object.values(results).filter(r => r?.success).length] *)
Definition successCount (r : PostResults) : Z :=
  Z.of_nat (List.length (filter (fun x => success x = true)
                                [instagram r; facebook r; pinterest r])).

(** An entry of [product.images]: a URL, or an object [{ url, alt }]. *)
Inductive Image :=
| ImageUrl (url : string)
| ImageObject (url alt : string).

Record Product := mkProduct {
  p_id : nat;
  title : string;
  featuredImage : string;
  images : list Image;
  sellingPriceAud : Q;
  price : Q;
  category : string
}.

(** Truthiness of [product.featuredImage || product.images?.[0]]. *)
Definition hasImage (p : Product) : bool :=
  truthyStr (featuredImage p) ||
  match images p with
  | ImageUrl u :: _ => truthyStr u
  | ImageObject _ _ :: _ => true
  | [] => false
  end.

(** [product.featuredImage || product.images?.[0]?.url] *)
Definition firstImageUrl (p : Product) : string :=
  orStr (featuredImage p)
        match images p with
        | ImageObject u _ :: _ => u
        | _ => ""
        end.

Record Caption := mkCaption {
  c_instagram : string;
  c_facebook : string;
  c_pinterest : string;
  hashtags : list string
}.

Record ContentImage := mkContentImage {
  url : string;
  imageStatus : string;
  imageError : string
}.

(** What [contentGenerator.generateForProduct] resolves to. *)
Record GeneratedContent := mkGenerated {
  g_caption : Caption;
  g_image : ContentImage;
  g_generationCost : Q
}.

(** A document of the MarketingContent collection. *)
Record MarketingContent := mkContent {
  c_id : nat;
  productId : nat;
  productTitle : string;
  productImage : string;
  productPrice : Q;
  productCategory : string;
  caption : option Caption;
  image : ContentImage;
  status : ContentStatus;
  approvedAt : option Z;
  rejectedAt : option Z;
  rejectionReason : option string;
  postedAt : option Z;
  postResults : option PostResults;
  generationCost : Q;
  regenerationCount : Z;
  regeneratedFrom : option nat
}.

(** The argument [approveContent] hands to [postContentToAll]. *)
Record ApprovedPost := mkApprovedPost {
  a_title : string;
  a_image : string;
  a_caption : option Caption
}.

(** The fields of the SocialPoster singleton. *)
Record SocialPoster := mkSocialPoster {
  metaToken : string;
  metaPageId : string;
  igUserId : string;
  metaEnabled : bool;
  igEnabled : bool;
  pinterestToken : string;
  pinterestBoardId : string;
  pinterestEnabled : bool;
  storeDomain : string;
  sp_aiGenerator : bool;
  sp_logger : bool;
  sp_clawdbotBridge : bool;
  lastPostTime : gmap string Z;
  minPostIntervalMs : Z
}.

(** [new SocialPoster()] for the given environment variables. *)
Definition newSocialPoster (token pageId igUser pinToken pinBoard domain : string)
  : SocialPoster :=
  mkSocialPoster token pageId igUser
    (truthyStr token && truthyStr pageId)
    (truthyStr token && truthyStr igUser)
    pinToken pinBoard
    (truthyStr pinToken && truthyStr pinBoard)
    (orStr domain "xeria-378.myshopify.com")
    false false false
    ∅ (2 * 60 * 60 * 1000).

Record Stats := mkStats {
  socialPostsSent : Z;
  emailEventsSent : Z;
  productsMarketed : Z;
  newsletterSignups : Z;
  ordersTracked : Z;
  contentGenerated : Z;
  contentApproved : Z;
  contentRejected : Z
}.

Record Activity := mkActivity {
  a_type : string;
  a_message : string;
  a_timestamp : Z
}.

(** The fields of the MarketingOrchestrator singleton. *)
Record Orchestrator := mkOrchestrator {
  stats : Stats;
  pendingProducts : list Product;
  isProcessing : bool;
  o_logger : bool;
  o_clawdbotBridge : bool;
  recentActivity : list Activity
}.

(** Everything that leaves the process. *)
Inductive Event :=
| EvHttpPost (url : string)
| EvAiGenerate (platform : string)
| EvSendCommand (type : string)
| EvGenerateForProduct (product : nat)
| EvLog (level message : string)
| EvDbFind (collection : string) (id : nat)
| EvDbSave (collection : string) (id : nat) (status : string)
| EvSleep (ms : Z).

Definition isNetwork (e : Event) : bool :=
  match e with
  | EvHttpPost _ | EvAiGenerate _ | EvSendCommand _ | EvGenerateForProduct _ => true
  | _ => false
  end.

Record World := mkWorld {
  tick : nat;
  trace : list Event;
  contents : list MarketingContent;
  products : list Product;
  nextId : nat;
  socialPoster : SocialPoster;
  orchestrator : Orchestrator
}.

(** The collaborators: the clock, the database driver, the HTTP client,
    the AI copy generator, the alerting bridge and the content
    generator.  Each answer may depend on how many calls were made
    before. *)
Record Env := mkEnv {
  now : nat -> Z;
  dbError : nat -> option Error;
  httpPost : nat -> string -> Outcome (option string);
  aiGenerate : nat -> Outcome string;
  sendCommand : nat -> Outcome unit;
  generateForProduct : nat -> Product -> Outcome GeneratedContent
}.

(** *** State updates *)

Definition setTick (n : nat) (w : World) : World :=
  mkWorld n (trace w) (contents w) (products w) (nextId w)
          (socialPoster w) (orchestrator w).
Definition setTrace (t : list Event) (w : World) : World :=
  mkWorld (tick w) t (contents w) (products w) (nextId w)
          (socialPoster w) (orchestrator w).
Definition setContents (c : list MarketingContent) (w : World) : World :=
  mkWorld (tick w) (trace w) c (products w) (nextId w)
          (socialPoster w) (orchestrator w).
Definition setNextId (n : nat) (w : World) : World :=
  mkWorld (tick w) (trace w) (contents w) (products w) n
          (socialPoster w) (orchestrator w).
Definition setSocialPoster (sp : SocialPoster) (w : World) : World :=
  mkWorld (tick w) (trace w) (contents w) (products w) (nextId w)
          sp (orchestrator w).
Definition setOrchestrator (o : Orchestrator) (w : World) : World :=
  mkWorld (tick w) (trace w) (contents w) (products w) (nextId w)
          (socialPoster w) o.

Definition setLastPostTime (m : gmap string Z) (sp : SocialPoster) : SocialPoster :=
  mkSocialPoster (metaToken sp) (metaPageId sp) (igUserId sp) (metaEnabled sp)
    (igEnabled sp) (pinterestToken sp) (pinterestBoardId sp)
    (pinterestEnabled sp) (storeDomain sp) (sp_aiGenerator sp) (sp_logger sp)
    (sp_clawdbotBridge sp) m (minPostIntervalMs sp).

Definition setStats (st : Stats) (o : Orchestrator) : Orchestrator :=
  mkOrchestrator st (pendingProducts o) (isProcessing o) (o_logger o)
                 (o_clawdbotBridge o) (recentActivity o).
Definition setRecentActivity (a : list Activity) (o : Orchestrator) : Orchestrator :=
  mkOrchestrator (stats o) (pendingProducts o) (isProcessing o) (o_logger o)
                 (o_clawdbotBridge o) a.

Definition addSocialPostsSent (n : Z) (st : Stats) : Stats :=
  mkStats (socialPostsSent st + n) (emailEventsSent st) (productsMarketed st)
          (newsletterSignups st) (ordersTracked st) (contentGenerated st)
          (contentApproved st) (contentRejected st).
Definition incContentGenerated (st : Stats) : Stats :=
  mkStats (socialPostsSent st) (emailEventsSent st) (productsMarketed st)
          (newsletterSignups st) (ordersTracked st) (contentGenerated st + 1)
          (contentApproved st) (contentRejected st).
Definition incContentApproved (st : Stats) : Stats :=
  mkStats (socialPostsSent st) (emailEventsSent st) (productsMarketed st)
          (newsletterSignups st) (ordersTracked st) (contentGenerated st)
          (contentApproved st + 1) (contentRejected st).
Definition incContentRejected (st : Stats) : Stats :=
  mkStats (socialPostsSent st) (emailEventsSent st) (productsMarketed st)
          (newsletterSignups st) (ordersTracked st) (contentGenerated st)
          (contentApproved st) (contentRejected st + 1).

(** The assignments the orchestrator makes to a content document. *)
Definition setApproved (t : Z) (c : MarketingContent) : MarketingContent :=
  mkContent (c_id c) (productId c) (productTitle c) (productImage c)
    (productPrice c) (productCategory c) (caption c) (image c)
    Approved (Some t) (rejectedAt c) (rejectionReason c) (postedAt c)
    (postResults c) (generationCost c) (regenerationCount c) (regeneratedFrom c).
Definition setPosted (t : Z) (r : PostResults) (c : MarketingContent)
  : MarketingContent :=
  mkContent (c_id c) (productId c) (productTitle c) (productImage c)
    (productPrice c) (productCategory c) (caption c) (image c)
    Posted (approvedAt c) (rejectedAt c) (rejectionReason c) (Some t)
    (Some r) (generationCost c) (regenerationCount c) (regeneratedFrom c).
Definition setRejected (t : Z) (why : string) (c : MarketingContent)
  : MarketingContent :=
  mkContent (c_id c) (productId c) (productTitle c) (productImage c)
    (productPrice c) (productCategory c) (caption c) (image c)
    Rejected (approvedAt c) (Some t) (Some why) (postedAt c)
    (postResults c) (generationCost c) (regenerationCount c) (regeneratedFrom c).
Definition setRegenerated (c : MarketingContent) : MarketingContent :=
  mkContent (c_id c) (productId c) (productTitle c) (productImage c)
    (productPrice c) (productCategory c) (caption c) (image c)
    Rejected (approvedAt c) (rejectedAt c) (Some "Regenerated") (postedAt c)
    (postResults c) (generationCost c) (regenerationCount c) (regeneratedFrom c).
Definition setGenerated (g : GeneratedContent) (c : MarketingContent)
  : MarketingContent :=
  mkContent (c_id c) (productId c) (productTitle c) (productImage c)
    (productPrice c) (productCategory c) (Some (g_caption g)) (g_image g)
    PendingApproval (approvedAt c) (rejectedAt c) (rejectionReason c)
    (postedAt c) (postResults c) (g_generationCost g) (regenerationCount c)
    (regeneratedFrom c).
Definition setFailed (msg : string) (c : MarketingContent) : MarketingContent :=
  mkContent (c_id c) (productId c) (productTitle c) (productImage c)
    (productPrice c) (productCategory c) (caption c)
    (mkContentImage "" "failed" msg)
    Failed (approvedAt c) (rejectedAt c) (rejectionReason c)
    (postedAt c) (postResults c) (generationCost c) (regenerationCount c)
    (regeneratedFrom c).

(** [doc.save()] on a document that is already stored replaces the
    record with its [_id]. *)
Definition updateById (c : MarketingContent) (l : list MarketingContent)
  : list MarketingContent :=
  map (fun x => if Nat.eqb (c_id x) (c_id c) then c else x) l.

(** [init(logger, clawdbotBridge, aiGenerator)]: [this.logger = logger ||
    console] is never null afterwards; the bridge and the generator are
    kept as given. *)
Definition initSocialPoster (bridge ai : bool) (sp : SocialPoster) : SocialPoster :=
  mkSocialPoster (metaToken sp) (metaPageId sp) (igUserId sp) (metaEnabled sp)
    (igEnabled sp) (pinterestToken sp) (pinterestBoardId sp)
    (pinterestEnabled sp) (storeDomain sp) ai true bridge
    (lastPostTime sp) (minPostIntervalMs sp).

Definition initOrchestrator (bridge : bool) (o : Orchestrator) : Orchestrator :=
  mkOrchestrator (stats o) (pendingProducts o) (isProcessing o) true bridge
                 (recentActivity o).

(** [new MarketingOrchestrator()] *)
Definition newOrchestrator : Orchestrator :=
  mkOrchestrator (mkStats 0 0 0 0 0 0 0 0) [] false false false [].

Section Operations.
Variable env : Env.

(** *** Primitive steps *)

Definition emit (e : Event) : M World unit :=
  modify (fun w => setTrace (trace w ++ [e]) w).

(** One exchange with the outside world: returns its index. *)
Definition step : M World nat :=
  fun w => (Ok (tick w), setTick (S (tick w)) w).

(** [Date.now()] *)
Definition dateNow : M World Z := gets (fun w => now env (tick w)).

Definition dbOp : M World unit :=
  let* n := step in
  match dbError env n with
  | Some e => throw e
  | None => ret tt
  end.

(** [MarketingContent.findById(id)] *)
Definition findById (id : nat) : M World (option MarketingContent) :=
  dbOp ;;
  emit (EvDbFind "MarketingContent" id) ;;
  gets (fun w => find (fun c => Nat.eqb (c_id c) id) (contents w)).

(** [Product.findById(id).lean()] *)
Definition findProductById (id : nat) : M World (option Product) :=
  dbOp ;;
  emit (EvDbFind "Product" id) ;;
  gets (fun w => find (fun q => Nat.eqb (p_id q) id) (products w)).

(** [content.save()] on a stored document. *)
Definition save (c : MarketingContent) : M World unit :=
  dbOp ;;
  modify (fun w => setContents (updateById c (contents w)) w) ;;
  emit (EvDbSave "MarketingContent" (c_id c) (statusString (status c))).

(** [contentDoc.save()] on a document just built with [new]. *)
Definition insert (c : MarketingContent) : M World unit :=
  dbOp ;;
  modify (fun w => setContents (contents w ++ [c]) w) ;;
  emit (EvDbSave "MarketingContent" (c_id c) (statusString (status c))).

(** The [_id] a new document receives. *)
Definition freshId : M World nat :=
  fun w => (Ok (nextId w), setNextId (S (nextId w)) w).

(** [axios.post(url, ...)], returning [res.data?.id]. *)
Definition axiosPost (u : string) : M World (option string) :=
  emit (EvHttpPost u) ;;
  let* n := step in
  match httpPost env n u with
  | Ok r => ret r
  | Throw e => throw e
  end.

(** [await new Promise(r => setTimeout(r, ms))] *)
Definition sleep (ms : Z) : M World unit :=
  emit (EvSleep ms) ;; let* _ := step in ret tt.

Definition nullLogger (method : string) : Error :=
  Err ("Cannot read properties of null (reading '" ++ method ++ "')")%string.

(** [this.logger.<level>(msg)] of the SocialPoster; the field is [null]
    until [init] has run. *)
Definition spLog (level msg : string) : M World unit :=
  let* sp := gets socialPoster in
  if sp_logger sp then emit (EvLog level msg) else throw (nullLogger level).

(** [this.logger.<level>(msg)] of the MarketingOrchestrator. *)
Definition oLog (level msg : string) : M World unit :=
  let* o := gets orchestrator in
  if o_logger o then emit (EvLog level msg) else throw (nullLogger level).

(** *** SocialPoster *)

(** The text of a post is kept symbolic: it is either what the AI
    generator returned or the fallback template. *)
Inductive Copy := AiCopy (text : string) | FallbackCopy.

Definition generateSocialCopy (product : Product) (platform : string)
  : M World Copy :=
  let* sp := gets socialPoster in
  if negb (sp_aiGenerator sp) then ret FallbackCopy
  else
    tryCatch
      (emit (EvAiGenerate platform) ;;
       let* n := step in
       match aiGenerate env n with
       | Ok copy => ret (if truthyStr copy then AiCopy copy else FallbackCopy)
       | Throw e => throw e
       end)
      (fun err =>
         spLog "warn" ("SocialPoster: AI copy failed: " ++ message err)%string ;;
         ret FallbackCopy).

Definition canPost (platform : string) : M World bool :=
  let* sp := gets socialPoster in
  let last := match lastPostTime sp !! platform with
              | Some t => orZ t 0
              | None => 0
              end in
  let* t := dateNow in
  ret (minPostIntervalMs sp <=? t - last).

Definition markPosted (platform : string) : M World unit :=
  let* t := dateNow in
  modify (fun w =>
    setSocialPoster
      (setLastPostTime (<[platform := t]> (lastPostTime (socialPoster w)))
                       (socialPoster w)) w).

(** [err.response?.data?.error?.message || err.message] *)
Definition apiMessage (err : Error) : string :=
  match responseMessage err with
  | Some m => orStr m (message err)
  | None => message err
  end.

Definition graph (id path : string) : string :=
  ("https://graph.facebook.com/v22.0/" ++ id ++ path)%string.

Definition postToInstagram (product : Product) : M World PostResult :=
  let* sp := gets socialPoster in
  if negb (igEnabled sp) then ret (failure "not_configured")
  else
    let* ok := canPost "instagram" in
    if negb ok then ret (failure "rate_limited")
    else
      tryCatch
        (let* caption := generateSocialCopy product "instagram" in
         if negb (hasImage product) then ret (failure "no_image")
         else
           let* containerId := axiosPost (graph (igUserId sp) "/media") in
           match containerId with
           | None => throw (Err "No container ID")
           | Some _ =>
               sleep 5000 ;;
               let* published := axiosPost (graph (igUserId sp) "/media_publish") in
               markPosted "instagram" ;;
               spLog "info" ("SocialPoster: IG posted — " ++ title product)%string ;;
               ret (mkPostResult true None (Some "instagram") published)
           end)
        (fun err =>
           let msg := apiMessage err in
           spLog "error" ("SocialPoster: IG failed: " ++ msg)%string ;;
           ret (failure msg)).

Definition postToFacebook (product : Product) : M World PostResult :=
  let* sp := gets socialPoster in
  if negb (metaEnabled sp) then ret (failure "not_configured")
  else
    let* ok := canPost "facebook" in
    if negb ok then ret (failure "rate_limited")
    else
      tryCatch
        (let* message := generateSocialCopy product "facebook" in
         let* res :=
           (if hasImage product
            then axiosPost (graph (metaPageId sp) "/photos")
            else axiosPost (graph (metaPageId sp) "/feed")) in
         markPosted "facebook" ;;
         spLog "info" ("SocialPoster: FB posted — " ++ title product)%string ;;
         ret (mkPostResult true None (Some "facebook") res))
        (fun err =>
           let msg := apiMessage err in
           spLog "error" ("SocialPoster: FB failed: " ++ msg)%string ;;
           ret (failure msg)).

(** The pin identifier ([pinId]) is kept in the [postId] field. *)
Definition postToPinterest (product : Product) : M World PostResult :=
  let* sp := gets socialPoster in
  if negb (pinterestEnabled sp) then ret (failure "not_configured")
  else
    let* ok := canPost "pinterest" in
    if negb ok then ret (failure "rate_limited")
    else
      tryCatch
        (let* description := generateSocialCopy product "pinterest" in
         if negb (hasImage product) then ret (failure "no_image")
         else
           let* res := axiosPost "https://api.pinterest.com/v5/pins" in
           markPosted "pinterest" ;;
           spLog "info" ("SocialPoster: Pinterest pinned — " ++ title product)%string ;;
           ret (mkPostResult true None (Some "pinterest") res))
        (fun err =>
           spLog "error" ("SocialPoster: Pinterest failed: " ++ message err)%string ;;
           ret (failure (message err))).

(** One entry of [Promise.allSettled]: [results[i]?.value || { success:
    false }]. *)
Definition settled (m : M World PostResult) : M World PostResult :=
  tryCatch m (fun _ => ret bareFailure).

(** [clawdbotBridge.sendCommand(type, ...)] *)
Definition bridgeSend (type : string) : M World unit :=
  emit (EvSendCommand type) ;;
  let* n := step in
  match sendCommand env n with
  | Ok _ => ret tt
  | Throw e => throw e
  end.

(** [Promise.allSettled] starts the three posts together; they read and
    write different keys of [lastPostTime], and are run here one after
    the other. *)
Definition postProductToAll (product : Product) : M World PostResults :=
  spLog "info" ("SocialPoster: Broadcasting " ++ dquote ++ title product
                ++ dquote ++ "...")%string ;;
  let* r0 := settled (postToInstagram product) in
  let* r1 := settled (postToFacebook product) in
  let* r2 := settled (postToPinterest product) in
  let summary := mkPostResults r0 r1 r2 in
  let* sp := gets socialPoster in
  (if sp_clawdbotBridge sp
   then tryCatch (bridgeSend "marketing_social_report")
          (fun err =>
             spLog "warn" ("SocialPoster: OpenClaw report failed: " ++ message err)%string)
   else ret tt) ;;
  ret summary.

(** [postContentToAll(content)]: the approval path.  No channel consults
    [canPost]; each one that is enabled is attempted and marked. *)
Definition postContentToAll (content : ApprovedPost) : M World PostResults :=
  spLog "info" ("SocialPoster: Posting approved content for " ++ dquote
                ++ a_title content ++ dquote ++ "...")%string ;;
  let imageUrl := a_image content in
  let* sp := gets socialPoster in
  let* ig :=
    (if igEnabled sp then
       tryCatch
         (let* containerId := axiosPost (graph (igUserId sp) "/media") in
          match containerId with
          | Some _ =>
              sleep 5000 ;;
              let* published := axiosPost (graph (igUserId sp) "/media_publish") in
              markPosted "instagram" ;;
              ret (mkPostResult true None None published)
          | None => ret (failure "No container ID")
          end)
         (fun err => ret (failure (apiMessage err)))
     else ret (failure "not_configured")) in
  let* fb :=
    (if metaEnabled sp then
       tryCatch
         (let* res :=
            (if truthyStr imageUrl
             then axiosPost (graph (metaPageId sp) "/photos")
             else axiosPost (graph (metaPageId sp) "/feed")) in
          markPosted "facebook" ;;
          ret (mkPostResult true None None res))
         (fun err => ret (failure (apiMessage err)))
     else ret (failure "not_configured")) in
  let* pin :=
    (if pinterestEnabled sp then
       tryCatch
         (if negb (truthyStr imageUrl) then throw (Err "No image")
          else
            let* res := axiosPost "https://api.pinterest.com/v5/pins" in
            markPosted "pinterest" ;;
            ret (mkPostResult true None None res))
         (fun err => ret (failure (message err)))
     else ret (failure "not_configured")) in
  let results := mkPostResults ig fb pin in
  (if sp_clawdbotBridge sp
   then tryCatch (bridgeSend "marketing_content_posted") (fun _ => ret tt)
   else ret tt) ;;
  ret results.

(** *** MarketingOrchestrator *)

Definition modifyStats (f : Stats -> Stats) : M World unit :=
  modify (fun w => setOrchestrator (setStats (f (stats (orchestrator w)))
                                             (orchestrator w)) w).

(** [_addActivity]: newest first, at most 200 entries. *)
Definition addActivity (type msg : string) : M World unit :=
  let* t := dateNow in
  modify (fun w =>
    let l := mkActivity type msg t :: recentActivity (orchestrator w) in
    let l := if (200 <? Z.of_nat (List.length l)) then removelast l else l in
    setOrchestrator (setRecentActivity l (orchestrator w)) w).

(** [forcePostProduct]: resets every cooldown, then broadcasts. *)
Definition forcePostProduct (product : Product) : M World PostResults :=
  modify (fun w => setSocialPoster (setLastPostTime ∅ (socialPoster w)) w) ;;
  let* results := postProductToAll product in
  modifyStats (addSocialPostsSent (successCount results)) ;;
  ret results.

(** What [approveContent] resolves to. *)
Record ApproveResult := mkApproveResult {
  r_success : bool;
  r_posted : option Z;
  r_results : option PostResults;
  r_error : option string
}.

(** The argument of [postContentToAll] built from a content document. *)
Definition approvedPost (content : MarketingContent) : ApprovedPost :=
  mkApprovedPost (productTitle content)
                 (orStr (url (image content)) (productImage content))
                 (caption content).

(** [approveContent], first half: the guards, the move to [approved] and
    its save; resolves to the document as saved. *)
Definition approveAndSave (contentId : nat) : M World MarketingContent :=
  let* found := findById contentId in
  match found with
  | None => throw (Err "Content not found")
  | Some content =>
      if negb (isPendingApproval (status content))
      then throw (Err ("Cannot approve content with status: "
                       ++ statusString (status content))%string)
      else
        let* t := dateNow in
        let content := setApproved t content in
        save content ;;
        modifyStats incContentApproved ;;
        ret content
  end.

(** [approveContent], second half: the [try] around the auto-post and its
    [catch]. *)
Definition autoPost (content : MarketingContent) : M World ApproveResult :=
  tryCatch
    (let* postResults := postContentToAll (approvedPost content) in
     let n := successCount postResults in
     let* t' := dateNow in
     let content := setPosted t' postResults content in
     save content ;;
     modifyStats (addSocialPostsSent n) ;;
     addActivity "content_posted"
       ("Posted " ++ dquote ++ productTitle content ++ dquote ++ " to "
        ++ pretty n ++ " channels")%string ;;
     ret (mkApproveResult true (Some n) (Some postResults) None))
    (fun err =>
       oLog "error" ("Auto-post failed for " ++ dquote ++ productTitle content
                     ++ dquote ++ ": " ++ message err)%string ;;
       ret (mkApproveResult false None None (Some (message err)))).

Definition approveContent (contentId : nat) : M World ApproveResult :=
  let* content := approveAndSave contentId in
  autoPost content.

Definition rejectContent (contentId : nat) (why : string) : M World bool :=
  let* found := findById contentId in
  match found with
  | None => throw (Err "Content not found")
  | Some content =>
      let* t := dateNow in
      let content := setRejected t why content in
      save content ;;
      modifyStats incContentRejected ;;
      addActivity "content_rejected"
        ("Rejected content for " ++ dquote ++ productTitle content ++ dquote
         ++ (if truthyStr why then ": " ++ why else ""))%string ;;
      ret true
  end.

(** [contentGenerator.generateForProduct(product)] *)
Definition generate (product : Product) : M World GeneratedContent :=
  emit (EvGenerateForProduct (p_id product)) ;;
  let* n := step in
  match generateForProduct env n product with
  | Ok g => ret g
  | Throw e => throw e
  end.

Definition emptyImage : ContentImage := mkContentImage "" "pending" "".

(** [new MarketingContent({ ..., status: 'generating', regenerationCount:
    (old.regenerationCount || 0) + 1, regeneratedFrom: old._id })] *)
Definition newRegenerated (id : nat) (product : Product) (old : MarketingContent)
  : MarketingContent :=
  mkContent id (p_id product) (title product) (firstImageUrl product)
    (orNum (sellingPriceAud product) (price product)) (category product)
    None emptyImage Generating None None None None None 0
    (orZ (regenerationCount old) 0 + 1) (Some (c_id old)).

Definition regenerateContent (contentId : nat) : M World MarketingContent :=
  let* found := findById contentId in
  match found with
  | None => throw (Err "Content not found")
  | Some old =>
      let old := setRegenerated old in
      save old ;;
      let* found := findProductById (productId old) in
      match found with
      | None => throw (Err "Product not found")
      | Some product =>
          let* id := freshId in
          let contentDoc := newRegenerated id product old in
          insert contentDoc ;;
          withLocal contentDoc
            (tryCatch
               (let* content := lift (generate product) in
                let* doc := getLocal in
                setLocal (setGenerated content doc) ;;
                let* doc := getLocal in
                lift (save doc) ;;
                lift (modifyStats incContentGenerated) ;;
                lift (addActivity "content_regenerated"
                        ("Regenerated content for " ++ dquote ++ title product
                         ++ dquote)%string) ;;
                getLocal)
               (fun err =>
                  let* doc := getLocal in
                  setLocal (setFailed (message err) doc) ;;
                  let* doc := getLocal in
                  lift (save doc) ;;
                  throw err))
      end
  end.

(** The three rate-limited publishers, indexed by channel. *)
Inductive Channel := Instagram | Facebook | Pinterest.

Definition channelKey (c : Channel) : string :=
  match c with
  | Instagram => "instagram"
  | Facebook => "facebook"
  | Pinterest => "pinterest"
  end.

Definition channelEnabled (c : Channel) (sp : SocialPoster) : bool :=
  match c with
  | Instagram => igEnabled sp
  | Facebook => metaEnabled sp
  | Pinterest => pinterestEnabled sp
  end.

Definition postTo (c : Channel) : Product -> M World PostResult :=
  match c with
  | Instagram => postToInstagram
  | Facebook => postToFacebook
  | Pinterest => postToPinterest
  end.

Definition channelResult (c : Channel) (r : PostResults) : PostResult :=
  match c with
  | Instagram => instagram r
  | Facebook => facebook r
  | Pinterest => pinterest r
  end.


End Operations.

(** The fields of the SocialPoster other than the cooldown map. *)
Definition sameConfig (w w' : World) : Prop :=
  setLastPostTime ∅ (socialPoster w') = setLastPostTime ∅ (socialPoster w).


(** What a regeneration adds to the trace when nothing fails before the
    generator is called: the prior item is saved as rejected, the new one is
    saved as generating, the generator runs, and the new item is saved once
    more with its final status. *)
Definition regenerationTrace (id : nat) (old : MarketingContent) (w : World)
  (final : string) : list Event :=
  [EvDbFind "MarketingContent" id;
   EvDbSave "MarketingContent" id "rejected";
   EvDbFind "Product" (productId old);
   EvDbSave "MarketingContent" (nextId w) "generating";
   EvGenerateForProduct (productId old);
   EvDbSave "MarketingContent" (nextId w) final].

(** The lookup of a stored content document. *)
Definition lookupContent (id : nat) (w : World) : option MarketingContent :=
  find (fun c => Nat.eqb (c_id c) id) (contents w).

(** What the posting step never touches. *)
Definition queueState (w : World) :=
  (contents w, orchestrator w, products w, nextId w).

End Marketing.

(** ** routes/pipeline.js, cron/index.js and the pipeline webhook *)

Module Pipeline.

(** *** Data *)

Inductive RunStatus := Queued | Running | Completed | FailedRun.

Definition isActiveStatus (s : RunStatus) : bool :=
  match s with Queued | Running => true | _ => false end.

Record LogEntry := mkLog {
  level : string;
  l_message : string;
  l_timestamp : Z
}.

Record ErrorEntry := mkErrorEntry {
  stage : string;
  e_message : string;
  e_timestamp : Z
}.

Record Results := mkResults {
  productsDiscovered : Z;
  productsValidated : Z;
  productsRejected : Z;
  productsListed : Z;
  productsAutoListed : Z;
  errors : list ErrorEntry
}.

(** A document of the PipelineRun collection.  [maxProducts] is
    [run.config?.maxProducts]. *)
Record PipelineRun := mkRun {
  r_id : nat;
  runId : string;
  type : string;
  status : RunStatus;
  triggeredBy : string;
  startedAt : option Z;
  completedAt : option Z;
  durationMs : Z;
  maxProducts : option Z;
  logs : list LogEntry;
  results : Results
}.

(** [new PipelineRun({ runId, type, status, startedAt, triggeredBy, config })] *)
Definition newRun (id : nat) (uuid type : string) (st : RunStatus)
  (started : option Z) (by_ : string) (maxp : option Z) : PipelineRun :=
  mkRun id uuid type st by_ started None 0 maxp [] (mkResults 0 0 0 0 0 []).

(** A field that may be missing from the stored document, be [null], or
    hold a value: the three cases [$exists] tells apart. *)
Inductive Field (A : Type) := Missing | Null | Value (a : A).
Arguments Missing {A}.
Arguments Null {A}.
Arguments Value {A} a.

(** A document of the Product collection, with the fields the pipeline
    reads and writes; [researchScore], [approved], [approvedAt],
    [rejectionReason] and [p_runId] are the [pipeline] sub-record. *)
Record Product := mkProduct {
  p_id : nat;
  title : string;
  costUsd : Q;
  costAud : Q;
  supplierUrl : string;
  category : string;
  isActive : bool;
  sellingPriceAud : Q;
  comparePriceAud : Q;
  profitMarginPercent : Q;
  woocommerceProductId : Field string;
  researchScore : Q;
  approved : bool;
  approvedAt : option Z;
  rejectionReason : string;
  p_runId : string;
  p_status : Field string;
  shopifyStatus : string
}.

(** What [wooCommerceService.createProduct] resolves to. *)
Record WooProduct := mkWoo {
  woo_id : string;
  woo_slug : string
}.

(** A call to a collaborator, with the message of the exception when it
    threw, and a line written to the process logger. *)
Inductive Event :=
| EvCall (provider subject : string) (failure : option string)
| EvLog (lvl msg : string).

Record World := mkWorld {
  tick : nat;
  trace : list Event;
  runs : list PipelineRun;
  products : list Product;
  nextId : nat
}.

(** The collaborators of the pipeline.  Sourcing and enrichment work on the
    catalogue: they return it as they leave it, whether they succeed or
    throw. *)
Record Env := mkEnv {
  now : nat -> Z;
  dbError : nat -> option Error;
  uuidv4 : nat -> string;
  scan : nat -> Outcome (list TrendScout.ScannedProduct);
  autoSourceProducts : nat -> Z -> list Product -> Outcome Z * list Product;
  bulkEnrich : nat -> Z -> list Product -> Outcome Z * list Product;
  createProduct : nat -> Product -> Outcome WooProduct;
  bulkSyncProducts : nat -> Z -> Outcome unit;
  notify : nat -> Outcome unit;
  onProductLive : nat -> Product -> Outcome unit
}.

(** *** Assignments *)

Definition setTick (n : nat) (w : World) : World :=
  mkWorld n (trace w) (runs w) (products w) (nextId w).
Definition setTrace (t : list Event) (w : World) : World :=
  mkWorld (tick w) t (runs w) (products w) (nextId w).
Definition setRuns (r : list PipelineRun) (w : World) : World :=
  mkWorld (tick w) (trace w) r (products w) (nextId w).
Definition setProducts (p : list Product) (w : World) : World :=
  mkWorld (tick w) (trace w) (runs w) p (nextId w).
Definition setNextId (n : nat) (w : World) : World :=
  mkWorld (tick w) (trace w) (runs w) (products w) n.

Definition setStatus (st : RunStatus) (r : PipelineRun) : PipelineRun :=
  mkRun (r_id r) (runId r) (type r) st (triggeredBy r) (startedAt r)
        (completedAt r) (durationMs r) (maxProducts r) (logs r) (results r).
Definition setStartedAt (t : Z) (r : PipelineRun) : PipelineRun :=
  mkRun (r_id r) (runId r) (type r) (status r) (triggeredBy r) (Some t)
        (completedAt r) (durationMs r) (maxProducts r) (logs r) (results r).
Definition setCompletedAt (t : Z) (r : PipelineRun) : PipelineRun :=
  mkRun (r_id r) (runId r) (type r) (status r) (triggeredBy r) (startedAt r)
        (Some t) (durationMs r) (maxProducts r) (logs r) (results r).
Definition setDurationMs (d : Z) (r : PipelineRun) : PipelineRun :=
  mkRun (r_id r) (runId r) (type r) (status r) (triggeredBy r) (startedAt r)
        (completedAt r) d (maxProducts r) (logs r) (results r).
Definition addLog (l : LogEntry) (r : PipelineRun) : PipelineRun :=
  mkRun (r_id r) (runId r) (type r) (status r) (triggeredBy r) (startedAt r)
        (completedAt r) (durationMs r) (maxProducts r) (logs r ++ [l]) (results r).
Definition setResults (res : Results) (r : PipelineRun) : PipelineRun :=
  mkRun (r_id r) (runId r) (type r) (status r) (triggeredBy r) (startedAt r)
        (completedAt r) (durationMs r) (maxProducts r) (logs r) res.

Definition setDiscovered (n : Z) (x : Results) : Results :=
  mkResults n (productsValidated x) (productsRejected x) (productsListed x)
            (productsAutoListed x) (errors x).
Definition setValidated (n : Z) (x : Results) : Results :=
  mkResults (productsDiscovered x) n (productsRejected x) (productsListed x)
            (productsAutoListed x) (errors x).
Definition setRejected (n : Z) (x : Results) : Results :=
  mkResults (productsDiscovered x) (productsValidated x) n (productsListed x)
            (productsAutoListed x) (errors x).
Definition setListed (n : Z) (x : Results) : Results :=
  mkResults (productsDiscovered x) (productsValidated x) (productsRejected x) n
            (productsAutoListed x) (errors x).
Definition setAutoListed (n : Z) (x : Results) : Results :=
  mkResults (productsDiscovered x) (productsValidated x) (productsRejected x)
            (productsListed x) n (errors x).
Definition addError (e : ErrorEntry) (x : Results) : Results :=
  mkResults (productsDiscovered x) (productsValidated x) (productsRejected x)
            (productsListed x) (productsAutoListed x) (errors x ++ [e]).

(** [product.pipeline.rejectionReason = why] *)
Definition setRejectionReason (why : string) (p : Product) : Product :=
  mkProduct (p_id p) (title p) (costUsd p) (costAud p) (supplierUrl p)
    (category p) (isActive p) (sellingPriceAud p) (comparePriceAud p)
    (profitMarginPercent p) (woocommerceProductId p) (researchScore p)
    (approved p) (approvedAt p) why (p_runId p) (p_status p) (shopifyStatus p).

(** [approved = true; approvedAt = new Date(); runId = run.runId] *)
Definition setApproved (t : Z) (rid : string) (p : Product) : Product :=
  mkProduct (p_id p) (title p) (costUsd p) (costAud p) (supplierUrl p)
    (category p) (isActive p) (sellingPriceAud p) (comparePriceAud p)
    (profitMarginPercent p) (woocommerceProductId p) (researchScore p)
    true (Some t) (rejectionReason p) rid (p_status p) (shopifyStatus p).

(** [woocommerceProductId = String(wooProduct.id)] *)
Definition setWooListing (woo : WooProduct) (p : Product) : Product :=
  mkProduct (p_id p) (title p) (costUsd p) (costAud p) (supplierUrl p)
    (category p) (isActive p) (sellingPriceAud p) (comparePriceAud p)
    (profitMarginPercent p) (Value (woo_id woo)) (researchScore p)
    (approved p) (approvedAt p) (rejectionReason p) (p_runId p) (p_status p)
    (shopifyStatus p).

(** The assignments of the auto-list sweep to the document it holds:
    [status = 'listed'], [shopifyStatus = 'active'], and a compare price
    of 1.35 times the selling price when there is none. *)
Definition setAutoListedProduct (p : Product) : Product :=
  mkProduct (p_id p) (title p) (costUsd p) (costAud p) (supplierUrl p)
    (category p) (isActive p) (sellingPriceAud p)
    (if (Qeq_bool (comparePriceAud p) 0
         && negb (Qeq_bool (sellingPriceAud p) 0))%bool
     then inject_Z (round (sellingPriceAud p * (135 # 100)))
     else comparePriceAud p)
    (profitMarginPercent p) (woocommerceProductId p) (researchScore p)
    (approved p) (approvedAt p) (rejectionReason p) (p_runId p)
    (Value "listed") "active".

(** What [doc.save()] writes for a document read as [stored]: the paths of
    the schema.  [status] and [shopifyStatus] are not among them
    (models/Product.js), so what was assigned to them stays on the object
    in memory and the stored document keeps what it had. *)
Definition storedPaths (stored doc : Product) : Product :=
  mkProduct (p_id doc) (title doc) (costUsd doc) (costAud doc) (supplierUrl doc)
    (category doc) (isActive doc) (sellingPriceAud doc) (comparePriceAud doc)
    (profitMarginPercent doc) (woocommerceProductId doc) (researchScore doc)
    (approved doc) (approvedAt doc) (rejectionReason doc) (p_runId doc)
    (p_status stored) (shopifyStatus stored).

(** [new Product({ title: product.name, ... })] in stage 1. *)
Definition discoveredProduct (id : nat) (d : TrendScout.ScannedProduct) : Product :=
  mkProduct id (TrendScout.name d) (TrendScout.costUsd d)
    (orNum (TrendScout.costAud d) (TrendScout.costUsd d))
    (TrendScout.supplierUrl d) (TrendScout.category d) true
    0 0 0 Null
    (inject_Z (orZ (default 0 (TrendScout.trendScore d)) 0))
    false None "" "" Missing "".

Definition saveRunIn (r : PipelineRun) (l : list PipelineRun) : list PipelineRun :=
  map (fun x => if Nat.eqb (r_id x) (r_id r) then r else x) l.

Definition saveProductIn (p : Product) (l : list Product) : list Product :=
  map (fun x => if Nat.eqb (p_id x) (p_id p) then p else x) l.

(** *** Validation and scoring (stage 4) *)

(** The filter of the candidate query. *)
Definition isCandidate (p : Product) : bool :=
  negb (approved p) && String.eqb (rejectionReason p) "" && isActive p
  && Qltb 0 (costUsd p).

Inductive Verdict :=
| RejectWith (why : string)
| Approve
| Decline.

(** The chain of tests the validation loop applies to one candidate. *)
Definition verdict (p : Product) : Verdict :=
  if Qle_bool (costUsd p) 0 then RejectWith "No cost data"
  else if Qltb (profitMarginPercent p) 20
  then RejectWith ("Low margin: " ++ toFixed1 (profitMarginPercent p) ++ "%")%string
  else if negb (truthyStr (supplierUrl p)) then RejectWith "No supplier found"
  else if (Qle_bool 30 (researchScore p) || Qle_bool 35 (profitMarginPercent p))%bool
  then Approve
  else Decline.

(** The product as the loop leaves it. *)
Definition validated (t : Z) (rid : string) (p : Product) : Product :=
  match verdict p with
  | RejectWith why => setRejectionReason why p
  | Approve => setApproved t rid p
  | Decline => p
  end.

(** The filter of the listing query of stage 5. *)
Definition isUnlistedApproved (p : Product) : bool :=
  approved p && isActive p &&
  match woocommerceProductId p with Missing => true | _ => false end.

(** The filter of the auto-list sweep. *)
Definition isUnlisted (p : Product) : bool :=
  isActive p && Qltb 0 (sellingPriceAud p) &&
  match p_status p with
  | Missing | Null => true
  | Value s => existsb (String.eqb s) [""; "draft"; "discovered"; "analyzed"]
  end.

(** [n || d] for [run.config?.maxProducts]. *)
Definition limitOr (r : PipelineRun) (d : Z) : Z :=
  match maxProducts r with
  | Some n => orZ n d
  | None => d
  end.

(** The run document held in the variable [run], next to the shared
    state. *)
Abbreviation Exec := (PipelineRun * World)%type.

Section Operations.
Variable env : Env.

(** *** Primitive steps *)

Definition emit (e : Event) : M World unit :=
  modify (fun w => setTrace (trace w ++ [e]) w).

Definition step : M World nat :=
  fun w => (Ok (tick w), setTick (S (tick w)) w).

(** [Date.now()] and [new Date()] *)
Definition dateNow : M World Z := gets (fun w => now env (tick w)).

Definition dbOp : M World unit :=
  let* n := step in
  match dbError env n with
  | Some e => throw e
  | None => ret tt
  end.

Definition freshId : M World nat :=
  fun w => (Ok (nextId w), setNextId (S (nextId w)) w).

(** [logger.<level>(msg)] of utils/logger. *)
Definition log (lvl msg : string) : M World unit := emit (EvLog lvl msg).

(** [PipelineRun.findOne({ status: { $in: ['queued', 'running'] } })] *)
Definition findActiveRun : M World (option PipelineRun) :=
  dbOp ;;
  gets (fun w => find (fun r => isActiveStatus (status r)) (runs w)).

(** [run.save()] on a run just built with [new]. *)
Definition insertRun (r : PipelineRun) : M World unit :=
  dbOp ;; modify (fun w => setRuns (runs w ++ [r]) w).

(** [run.save()] on a stored run. *)
Definition saveRun (r : PipelineRun) : M World unit :=
  dbOp ;; modify (fun w => setRuns (saveRunIn r (runs w)) w).

(** [Product.find(filter).limit(n)] *)
Definition findProducts (filter : Product -> bool) (n : option Z)
  : M World (list Product) :=
  dbOp ;;
  gets (fun w =>
    let l := List.filter filter (products w) in
    match n with
    | Some n => take (Z.to_nat n) l
    | None => l
    end).

(** [product.save()] on a stored product. *)
Definition saveProduct (p : Product) : M World unit :=
  dbOp ;; modify (fun w => setProducts (saveProductIn p (products w)) w).

(** [newProduct.save()] in stage 1. *)
Definition insertProduct (p : Product) : M World unit :=
  dbOp ;; modify (fun w => setProducts (products w ++ [p]) w).

(** A call to a collaborator that does not touch the catalogue. *)
Definition call {A} (provider subject : string) (answer : nat -> Outcome A)
  : M World A :=
  let* n := step in
  match answer n with
  | Ok a => emit (EvCall provider subject None) ;; ret a
  | Throw e => emit (EvCall provider subject (Some (message e))) ;; throw e
  end.

(** A call to a collaborator that works on the catalogue. *)
Definition callOnCatalogue (provider : string)
  (answer : nat -> list Product -> Outcome Z * list Product) : M World Z :=
  let* n := step in
  let* ps := gets products in
  let r := answer n ps in
  modify (setProducts (snd r)) ;;
  match fst r with
  | Ok a => emit (EvCall provider "" None) ;; ret a
  | Throw e => emit (EvCall provider "" (Some (message e))) ;; throw e
  end.

(** *** executePipeline *)

Definition onRun (f : PipelineRun -> PipelineRun) : M Exec unit :=
  let* r := getLocal in setLocal (f r).

(** [run.logs.push({ level, message, timestamp: new Date() })] *)
Definition pushLog (lvl msg : string) : M Exec unit :=
  let* t := lift dateNow in
  onRun (addLog (mkLog lvl msg t)).

(** [run.results.errors.push({ stage, message, timestamp: new Date() })] *)
Definition pushError (stage msg : string) : M Exec unit :=
  let* t := lift dateNow in
  onRun (fun r => setResults (addError (mkErrorEntry stage msg t) (results r)) r).

Definition onResults (f : Results -> Results) : M Exec unit :=
  onRun (fun r => setResults (f (results r)) r).

(** [await run.save()] *)
Definition runSave : M Exec unit :=
  let* r := getLocal in lift (saveRun r).

Definition start : M Exec unit :=
  onRun (setStatus Running) ;;
  let* t := lift dateNow in
  onRun (setStartedAt t) ;;
  pushLog "info" "Pipeline started" ;;
  runSave.

(** Stage 1: trend discovery, then the discovered products are stored. *)
Definition stage1 : M Exec unit :=
  pushLog "info" "Stage 1: TrendScout - discovering products" ;;
  runSave ;;
  let* discoveredProducts :=
    tryCatch (lift (call "trendScout.scan" "" (scan env)))
      (fun err => pushError "trend_discovery" (message err) ;; ret []) in
  let n := Z.of_nat (List.length discoveredProducts) in
  onResults (setDiscovered n) ;;
  pushLog "info" ("Stage 1 complete: " ++ pretty n ++ " products discovered")%string ;;
  runSave ;;
  forEach discoveredProducts (fun product =>
    tryCatch
      (let* id := lift freshId in
       lift (insertProduct (discoveredProduct id product)))
      (fun err =>
         lift (log "warn" ("Failed to save product " ++ TrendScout.name product
                           ++ ": " ++ message err)%string))).

(** Stage 2: supplier sourcing. *)
Definition stage2 : M Exec unit :=
  pushLog "info" "Stage 2: Supplier sourcing" ;;
  runSave ;;
  let* r := getLocal in
  let* sourced :=
    tryCatch
      (lift (callOnCatalogue "supplierSourcer.autoSourceProducts"
               (fun n => autoSourceProducts env n (limitOr r 20))))
      (fun err => pushError "supplier_sourcing" (message err) ;; ret 0) in
  pushLog "info" ("Stage 2 complete: " ++ pretty sourced ++ " products sourced")%string ;;
  runSave.

(** Stage 3: AI content generation. *)
Definition stage3 : M Exec unit :=
  pushLog "info" "Stage 3: AI content generation" ;;
  runSave ;;
  let* r := getLocal in
  let* enriched :=
    tryCatch
      (lift (callOnCatalogue "aiContent.bulkEnrich"
               (fun n => bulkEnrich env n (limitOr r 15))))
      (fun err => pushError "ai_content" (message err) ;; ret 0) in
  pushLog "info" ("Stage 3 complete: " ++ pretty enriched
                  ++ " products enriched with AI content")%string ;;
  runSave.

(** The body of the validation loop; the pair counts the approved and the
    rejected candidates. *)
Definition validateOne (counts : Z * Z) (product : Product) : M Exec (Z * Z) :=
  let '(nValidated, nRejected) := counts in
  match verdict product with
  | RejectWith why =>
      lift (saveProduct (setRejectionReason why product)) ;;
      ret (nValidated, nRejected + 1)
  | Approve =>
      let* t := lift dateNow in
      let* r := getLocal in
      lift (saveProduct (setApproved t (runId r) product)) ;;
      ret (nValidated + 1, nRejected)
  | Decline => ret (nValidated, nRejected + 1)
  end.

(** Stage 4: validation and scoring.  Nothing here is inside a [try]. *)
Definition stage4 : M Exec unit :=
  pushLog "info" "Stage 4: Validation & auto-approval" ;;
  runSave ;;
  let* r := getLocal in
  let* candidates := lift (findProducts isCandidate (Some (limitOr r 50))) in
  let* counts := foldM validateOne (0, 0) candidates in
  onResults (setValidated (fst counts)) ;;
  onResults (setRejected (snd counts)) ;;
  pushLog "info" ("Stage 4 complete: " ++ pretty (fst counts) ++ " approved, "
                  ++ pretty (snd counts) ++ " rejected")%string ;;
  runSave.

(** The body of the listing loop. *)
Definition listOne (listed : Z) (product : Product) : M Exec Z :=
  tryCatch
    (let* woo := lift (call "wooCommerceService.createProduct" (title product)
                         (fun n => createProduct env n product)) in
     lift (saveProduct (setWooListing woo product)) ;;
     ret (listed + 1))
    (fun err =>
       pushError "woocommerce_listing" (title product ++ ": " ++ message err)%string ;;
       ret listed).

(** Stage 5: listing on the storefront channel. *)
Definition stage5 : M Exec unit :=
  pushLog "info" "Stage 5: WooCommerce listing" ;;
  runSave ;;
  let* r := getLocal in
  let* approvedProducts :=
    lift (findProducts isUnlistedApproved (Some (limitOr r 20))) in
  let* listed := foldM listOne 0 approvedProducts in
  onResults (setListed listed) ;;
  pushLog "info" ("Stage 5 complete: " ++ pretty listed
                  ++ " products listed on WooCommerce")%string ;;
  runSave.

(** Stage 6: sync to the bookkeeping store. *)
Definition stage6 : M Exec unit :=
  pushLog "info" "Stage 6: Syncing to Airtable" ;;
  runSave ;;
  tryCatch
    (lift (call "airtableSync.bulkSyncProducts" "" (fun n => bulkSyncProducts env n 50)))
    (fun err => pushError "airtable_sync" (message err)).

(** [Math.round(run.durationMs / 1000)] followed by [s]. *)
Definition seconds (ms : Z) : string :=
  (pretty (round (inject_Z ms / 1000)) ++ "s")%string.

Definition complete (startTime : Z) : M Exec unit :=
  onRun (setStatus Completed) ;;
  let* t := lift dateNow in
  onRun (setCompletedAt t) ;;
  let* t' := lift dateNow in
  onRun (setDurationMs (t' - startTime)) ;;
  let* r := getLocal in
  pushLog "info" ("Pipeline completed in " ++ seconds (durationMs r))%string ;;
  runSave.

(** The auto-list sweep at the end of a run. *)
Definition autoList : M Exec unit :=
  tryCatch
    (let* unlisted := lift (findProducts isUnlisted None) in
     let* autoListed :=
       foldM (fun n p =>
                lift (saveProduct (storedPaths p (setAutoListedProduct p))) ;;
                ret (n + 1))
             0 unlisted in
     onResults (setAutoListed autoListed) ;;
     runSave ;;
     lift (log "info" ("Auto-listed " ++ pretty autoListed
                       ++ " products for storefront")%string))
    (fun autoErr => lift (log "warn" "Auto-list failed")).

(** The summary sent to the alerting bridge. *)
Definition notifyChannels : M Exec unit :=
  tryCatch
    (lift (call "clawdbotBridge.notify" "pipeline_complete" (notify env)))
    (fun err => lift (log "warn" "Pipeline notification failed")).

(** The body of the outer [try]. *)
Definition pipelineBody (startTime : Z) : M Exec unit :=
  start ;;
  stage1 ;;
  stage2 ;;
  stage3 ;;
  stage4 ;;
  stage5 ;;
  stage6 ;;
  complete startTime ;;
  autoList ;;
  notifyChannels ;;
  lift (log "info" "Pipeline completed").

(** The outer [catch]. *)
Definition onFailure (startTime : Z) (err : Error) : M Exec unit :=
  onRun (setStatus FailedRun) ;;
  let* t := lift dateNow in
  onRun (setCompletedAt t) ;;
  let* t' := lift dateNow in
  onRun (setDurationMs (t' - startTime)) ;;
  pushLog "error" ("Pipeline failed: " ++ message err)%string ;;
  runSave ;;
  throw err.

(** [executePipeline(run)]: the outcome, together with the run document
    as the caller's variable now sees it. *)
Definition executePipeline (run : PipelineRun) (w : World)
  : Outcome unit * PipelineRun * World :=
  let startTime := now env (tick w) in
  let r := tryCatch (pipelineBody startTime) (onFailure startTime) (run, w) in
  (fst r, fst (snd r), snd (snd r)).

(** *** The triggers *)

Inductive Response :=
| Started (runId : string)
| Conflict (runId : string)
| ServerError (msg : string)
| NoResponse.

(** [executePipeline(run).catch(err => logger.error(...))] *)
Definition inBackground (run : PipelineRun) : M World unit :=
  fun w =>
    let r := executePipeline run w in
    match fst (fst r) with
    | Ok _ => (Ok tt, snd r)
    | Throw e => log "error" ("Pipeline run failed: " ++ message e)%string (snd r)
    end.

(** The admission check and the creation of the run, shared by the route
    and the webhook. *)
Definition admission (type by_ : string) (maxp : option Z) : M World Response :=
  tryCatch
    (let* active := findActiveRun in
     match active with
     | Some a => ret (Conflict (runId a))
     | None =>
         let* id := freshId in
         let* t := dateNow in
         let run := newRun id (uuidv4 env id) type Running (Some t) by_ maxp in
         insertRun run ;;
         ret (Started (runId run))
     end)
    (fun err => ret (ServerError (message err))).

(** [POST /api/pipeline/run] up to its response; the pipeline itself goes
    on in the background.  [type] is [req.body.type], with its default. *)
Definition postRun (type : option string) : M World Response :=
  admission (default "full" type) "manual" None.

(** [POST /api/webhooks/pipeline/trigger], once the secret is accepted. *)
Definition webhookTrigger (type : option string) (maxProductsArg : Z)
  : M World Response :=
  let* r := admission (default "full" type) "webhook" (Some (orZ maxProductsArg 50)) in
  match r with
  | Started rid => log "info" ("Pipeline triggered via webhook: " ++ rid)%string ;; ret r
  | _ => ret r
  end.

(** The [run_pipeline] action of the agent command route: the run is
    created as [running] with no admission check. *)
Definition agentRunPipeline (type : option string) : M World Response :=
  let* id := freshId in
  let* t := dateNow in
  let run := newRun id (uuidv4 env id) (default "full" type) Running (Some t)
                    "openclaw" None in
  insertRun run ;;
  ret (Started (runId run)).

(** The scheduled run of cron/index.js: it creates the run as [queued] and
    awaits the pipeline; an active run makes it return at once. *)
Definition cronRun : M World Response :=
  log "info" "Cron: Scheduled pipeline run" ;;
  tryCatch
    (let* active := findActiveRun in
     match active with
     | Some _ =>
         log "info" "Cron: Pipeline already running, skipping" ;;
         ret NoResponse
     | None =>
         let* id := freshId in
         let run := newRun id (uuidv4 env id) "full" Queued None "cron" None in
         insertRun run ;;
         (fun w =>
            let r := executePipeline run w in
            match fst (fst r) with
            | Ok _ => (Ok NoResponse, snd r)
            | Throw e => (Throw e, snd r)
            end)
     end)
    (fun err =>
       log "error" "Cron: Scheduled pipeline failed" ;;
       ret NoResponse).

(** The pipeline of the active run, started in the background by the route
    or the webhook, runs to its end. *)
Definition backgroundPipeline : M World Response :=
  fun w =>
    match find (fun r => isActiveStatus (status r)) (runs w) with
    | Some run => (Ok NoResponse, snd (inBackground run w))
    | None => (Ok NoResponse, w)
    end.

(** [POST /api/webhooks/auto-list]: the same sweep as [autoList], followed
    for each product by the marketing hook. *)
Definition autoListWebhook : M World Z :=
  let* unlisted := findProducts isUnlisted None in
  foldM (fun listed p =>
           let doc := setAutoListedProduct p in
           saveProduct (storedPaths p doc) ;;
           tryCatch
             (call "marketing.onProductLive" (title doc)
                   (fun n => onProductLive env n doc))
             (fun mktErr =>
                log "warn" ("Marketing hook failed for " ++ title doc ++ ": "
                            ++ message mktErr)%string) ;;
           ret (listed + 1))
        0 unlisted.

(** One event of a serialized execution. *)
Inductive Trigger :=
| PostRun (type : option string)
| Webhook (type : option string) (maxProductsArg : Z)
| Cron
| Background.

Definition fire (t : Trigger) : M World Response :=
  match t with
  | PostRun type => postRun type
  | Webhook type n => webhookTrigger type n
  | Cron => cronRun
  | Background => backgroundPipeline
  end.

(** The state after each trigger of a sequence, oldest first. *)
Fixpoint history (ts : list Trigger) (w : World) : list World :=
  match ts with
  | [] => []
  | t :: ts' => let w' := snd (fire t w) in w' :: history ts' w'
  end.

End Operations.

(** How many runs are queued or running. *)
Definition activeRuns (w : World) : nat :=
  List.length (List.filter (fun r => isActiveStatus (status r)) (runs w)).

(** *** Notions used to state the properties *)

Definition isActiveRun (r : PipelineRun) : bool := isActiveStatus (status r).

(** A store of runs as the triggers build it: identifiers are distinct and
    below the next one to be handed out, and at most one run is active. *)
Definition wellFormed (w : World) : Prop :=
  NoDup (map r_id (runs w)) /\
  Forall (fun r => (r_id r < nextId w)%nat) (runs w) /\
  (activeRuns w <= 1)%nat.

(** An event that is not a call to the marketing hook. *)
Definition notHook (e : Event) : Prop :=
  match e with
  | EvCall provider _ _ => provider <> "marketing.onProductLive"
  | EvLog _ _ => True
  end.

(** What an execution of the pipeline may do to the store of runs and to
    the outside: it rewrites no run but its own, and calls no marketing
    hook. *)
Definition frame (s s' : Exec) : Prop :=
  r_id (fst s') = r_id (fst s) /\
  Forall2 (fun x y => r_id y = r_id x /\ (r_id x <> r_id (fst s) -> y = x))
          (runs (snd s)) (runs (snd s')) /\
  (nextId (snd s) <= nextId (snd s'))%nat /\
  exists evs, trace (snd s') = (trace (snd s) ++ evs)%list /\ Forall notHook evs.

(** Operations on the world that leave the runs alone and call no hook. *)
Definition quiet {A} (m : M World A) : Prop :=
  forall w, runs (snd (m w)) = runs w /\ (nextId w <= nextId (snd (m w)))%nat /\
            exists evs, trace (snd (m w)) = (trace w ++ evs)%list /\ Forall notHook evs.

Definition runStatus (s : Exec) : RunStatus := status (fst s).

(** The stage under which the failure of a provider is recorded. *)
Definition stageOf (provider : string) : option string :=
  if String.eqb provider "trendScout.scan" then Some "trend_discovery"
  else if String.eqb provider "supplierSourcer.autoSourceProducts"
  then Some "supplier_sourcing"
  else if String.eqb provider "aiContent.bulkEnrich" then Some "ai_content"
  else if String.eqb provider "wooCommerceService.createProduct"
  then Some "woocommerce_listing"
  else if String.eqb provider "airtableSync.bulkSyncProducts" then Some "airtable_sync"
  else None.

(** The stage and message a failed call of a stage provider stands for;
    the listing stage prefixes the message with the product's title. *)
Definition failedStageCall (e : Event) : option (string * string) :=
  match e with
  | EvCall provider subject (Some m) =>
      match stageOf provider with
      | Some st =>
          Some (st, if String.eqb provider "wooCommerceService.createProduct"
                    then (subject ++ ": " ++ m)%string else m)
      | None => None
      end
  | _ => None
  end.

(** The providers called once per run, one per stage that has one. *)
Definition stageProviders : list string :=
  ["trendScout.scan"; "supplierSourcer.autoSourceProducts"; "aiContent.bulkEnrich";
   "airtableSync.bulkSyncProducts"].

Definition stageCall (e : Event) : option string :=
  match e with
  | EvCall provider _ _ =>
      if existsb (String.eqb provider) stageProviders then Some provider else None
  | _ => None
  end.


Definition entry (e : ErrorEntry) : string * string := (stage e, e_message e).

(** The calls made to a given collaborator, oldest first. *)
Definition callsTo (provider : string) (evs : list Event) : list Event :=
  List.filter (fun e => match e with
                        | EvCall p _ _ => String.eqb p provider
                        | EvLog _ _ => false
                        end) evs.

(** [m] returns; the stage providers it called are [calls]; every entry it
    added to [results.errors] stands for a failed provider call and
    conversely; its log lines include [banners], in this order. *)
Definition piece {A} (m : M Exec A) (calls banners : list string) : Prop :=
  forall s, exists a s' evs msgs,
    m s = (Ok a, s') /\
    trace (snd s') = (trace (snd s) ++ evs)%list /\
    omap stageCall evs = calls /\
    map entry (errors (results (fst s')))
    = (map entry (errors (results (fst s))) ++ omap failedStageCall evs)%list /\
    map l_message (logs (fst s')) = (map l_message (logs (fst s)) ++ msgs)%list /\
    sublist banners msgs.

End Pipeline.

(** ** services/TrendScout.js: discovery *)

Module Scan.
Import TrendScout.

(** *** Categories of the search trends *)

(** The table of [inferCategory], in the order [Object.entries] walks
    it. *)
Definition categoryKeywords : list (string * list string) :=
  [("electronics", ["phone"; "charger"; "cable"; "bluetooth"; "wireless";
                    "speaker"; "headphone"; "earbuds"; "tech"; "led"; "usb"]);
   ("home", ["home"; "kitchen"; "organizer"; "storage"; "lamp"; "pillow";
             "blanket"; "decor"]);
   ("beauty", ["beauty"; "skincare"; "makeup"; "hair"; "brush"; "serum"; "cream"]);
   ("fashion", ["fashion"; "watch"; "jewelry"; "bag"; "wallet"; "sunglasses";
                "ring"; "necklace"]);
   ("fitness", ["fitness"; "yoga"; "gym"; "exercise"; "resistance"; "workout";
                "sports"]);
   ("pet", ["pet"; "dog"; "cat"; "collar"; "leash"])].

Definition inferCategory (name description : string) : string :=
  let text := toLowerCase (name ++ " " ++ description) in
  match find (fun entry => existsb (fun k => includes text k) (snd entry))
             categoryKeywords with
  | Some entry => fst entry
  | None => "general"
  end.

(** *** Identifiers of the search trends *)

(** The base64 alphabet. *)
Definition sextet (n : N) : ascii :=
  if (n <? 26)%N then ascii_of_N (65 + n)
  else if (n <? 52)%N then ascii_of_N (97 + (n - 26))
  else if (n <? 62)%N then ascii_of_N (48 + (n - 52))
  else if (n =? 62)%N then "+"%char
  else "/"%char.

Definition pad : ascii := "="%char.

(** [Buffer.from(s).toString('base64')], on the bytes of [s]. *)
Fixpoint base64 (s : string) : string :=
  match s with
  | EmptyString => EmptyString
  | String a EmptyString =>
      let x := N_of_ascii a in
      String (sextet (x / 4))
        (String (sextet ((x mod 4) * 16)) (String pad (String pad EmptyString)))
  | String a (String b EmptyString) =>
      let x := N_of_ascii a in
      let y := N_of_ascii b in
      String (sextet (x / 4))
        (String (sextet ((x mod 4) * 16 + y / 16))
           (String (sextet ((y mod 16) * 4)) (String pad EmptyString)))
  | String a (String b (String c rest)) =>
      let x := N_of_ascii a in
      let y := N_of_ascii b in
      let z := N_of_ascii c in
      String (sextet (x / 4))
        (String (sextet ((x mod 4) * 16 + y / 16))
           (String (sextet ((y mod 16) * 4 + z / 64))
              (String (sextet (z mod 64)) (base64 rest))))
  end.

(** [`brave_${Buffer.from(name).toString('base64').substring(0, 20)}`] *)
Definition braveId (name : string) : string :=
  ("brave_" ++ String.substring 0 20 (base64 name))%string.

(** The object [scrapeAliDropTrends] pushes for the search result at
    index [idx]; [name] is the result's title, cut at the first separator
    and trimmed.  Titles of five code units or less are dropped. *)
Definition braveProduct (idx : Z) (name description : string)
  : option ScannedProduct :=
  if (truthyStr name && (5 <? Z.of_nat (jsLength name)))%bool
  then Some (mkScanned name "brave_search" (braveId name) "" 0 0 0
                       (inferCategory name description) ""
                       (Some (Z.max 30 (60 - idx * 3))))
  else None.

(** *** Ranking *)

(** [scoreProduct] as a function on the fields of the object. *)
Definition scored (p : ScannedProduct) : ScannedProduct :=
  setTrendScore (Z.min (score p) 100) p.

(** The [filter] over a [Set] of the identifiers already seen. *)
Fixpoint dedupeFrom (seen : gset string) (l : list ScannedProduct)
  : list ScannedProduct :=
  match l with
  | [] => []
  | p :: l' =>
      if decide (externalId p ∈ seen) then dedupeFrom seen l'
      else p :: dedupeFrom ({[externalId p]} ∪ seen) l'
  end.

Definition dedupe (l : list ScannedProduct) : list ScannedProduct :=
  dedupeFrom ∅ l.

(** [p.trendScore] read as a number; a missing score compares false with
    everything. *)
Definition scoreOf (p : ScannedProduct) : Z := default 0 (trendScore p).

Definition qualifies (minScore : Z) (p : ScannedProduct) : bool :=
  match trendScore p with
  | Some v => minScore <=? v
  | None => false
  end.

(** [sort((a, b) => b.trendScore - a.trendScore)]: descending, and stable
    as [Array.prototype.sort] is. *)
Fixpoint insertByScore (x : ScannedProduct) (l : list ScannedProduct)
  : list ScannedProduct :=
  match l with
  | [] => [x]
  | y :: l' =>
      if scoreOf y <=? scoreOf x then x :: y :: l'
      else y :: insertByScore x l'
  end.

Definition sortByScore (l : list ScannedProduct) : list ScannedProduct :=
  foldr insertByScore [] l.

(** Highest score first. *)
Fixpoint descending (l : list ScannedProduct) : Prop :=
  match l with
  | [] => True
  | x :: l' => Forall (fun y => scoreOf y <= scoreOf x) l' /\ descending l'
  end.

(** [l.slice(0, n)] *)
Definition slice0 {A} (n : Z) (l : list A) : list A :=
  if n <? 0 then take (Z.to_nat (Z.of_nat (List.length l) + n)) l
  else take (Z.to_nat n) l.

Record Config := mkConfig {
  enabled : bool;
  maxProducts : Z;
  minScore : Z;
  categories : list string
}.

(** What [scan] does to everything it fetched before it asks the
    database: deduplicate, score, keep the qualified, sort, cut. *)
Definition qualified (cfg : Config) (allProducts : list ScannedProduct)
  : list ScannedProduct :=
  List.filter (qualifies (minScore cfg)) (map scored (dedupe allProducts)).

Definition rank (cfg : Config) (allProducts : list ScannedProduct)
  : list ScannedProduct :=
  slice0 (maxProducts cfg) (sortByScore (qualified cfg allProducts)).

(** *** The scan *)

Inductive Event :=
| EvFetchCJ (productFlag : option Z) (keyword : option string) (size : Z)
| EvScrape
| EvIsDuplicate (externalId : string)
| EvSleep (ms : Z)
| EvLog (lvl msg : string).

Record World := mkWorld {
  tick : nat;
  trace : list Event
}.

(** The calls that leave the class: the catalogue API, the web search and
    the lookup of [isDuplicate], which answers [false] when the database
    fails. *)
Record Env := mkEnv {
  fetchCJProducts : nat -> option Z -> option string -> Outcome (list ScannedProduct);
  scrapeAliDropTrends : nat -> Outcome (list ScannedProduct);
  isDuplicate : nat -> ScannedProduct -> bool
}.

(** The local variable [allProducts] next to the world. *)
Abbreviation Exec := (list ScannedProduct * World)%type.

Section Operations.
Variable env : Env.

Definition emit (e : Event) : M World unit :=
  modify (fun w => mkWorld (tick w) (trace w ++ [e])).

Definition step : M World nat :=
  fun w => (Ok (tick w), mkWorld (S (tick w)) (trace w)).

Definition log (lvl msg : string) : M World unit := emit (EvLog lvl msg).

Definition sleep (ms : Z) : M World unit := emit (EvSleep ms).

Definition fetch (productFlag : option Z) (keyword : option string) (size : Z)
  : M World (list ScannedProduct) :=
  emit (EvFetchCJ productFlag keyword size) ;;
  let* n := step in
  match fetchCJProducts env n productFlag keyword with
  | Ok l => ret l
  | Throw e => throw e
  end.

Definition scrape : M World (list ScannedProduct) :=
  emit EvScrape ;;
  let* n := step in
  match scrapeAliDropTrends env n with
  | Ok l => ret l
  | Throw e => throw e
  end.

Definition askDuplicate (p : ScannedProduct) : M World bool :=
  emit (EvIsDuplicate (externalId p)) ;;
  let* n := step in
  ret (isDuplicate env n p).

(** [allProducts = allProducts.concat(l)] *)
Definition concat (l : list ScannedProduct) : M Exec unit :=
  let* all := getLocal in setLocal (all ++ l)%list.

Definition found (l : list ScannedProduct) (what : string) : M Exec unit :=
  lift (log "info" ("Found " ++ pretty (Z.of_nat (List.length l)) ++ what)%string).

(** The first [try] of [scan]: the three kinds of catalogue fetch. *)
Definition scanCJ (cfg : Config) : M Exec unit :=
  tryCatch
    (let* trending := lift (fetch (Some 0) None 20) in
     concat trending ;;
     found trending " trending CJ products" ;;
     lift (sleep 1100) ;;
     let* newProducts := lift (fetch (Some 1) None 20) in
     concat newProducts ;;
     found newProducts " new CJ products" ;;
     forEach (take 3 (categories cfg))
       (fun category =>
          lift (sleep 1100) ;;
          let* catProducts := lift (fetch None (Some category) 10) in
          concat catProducts ;;
          found catProducts (" CJ products for category: " ++ category)%string))
    (fun err => lift (log "error" "TrendScout CJ scan error")).

(** The second [try]: the search trends. *)
Definition scanBrave : M Exec unit :=
  tryCatch
    (let* braveTrends := lift scrape in
     concat braveTrends ;;
     found braveTrends " products from Brave Search trends")
    (fun err => lift (log "error" "TrendScout Brave Search scan error")).

(** The last loop: products already in the database are dropped. *)
Definition keepFresh (fresh : list ScannedProduct) (product : ScannedProduct)
  : M World (list ScannedProduct) :=
  let* isDup := askDuplicate product in
  if negb isDup then ret (fresh ++ [product])%list
  else log "info" ("Skipping duplicate: " ++ name product)%string ;; ret fresh.

Definition scan (cfg : Config) : M World (list ScannedProduct) :=
  if negb (enabled cfg)
  then log "warn" "TrendScout is disabled" ;; ret []
  else
    log "info" "TrendScout scan starting (CJ Dropshipping API)..." ;;
    withLocal []
      (scanCJ cfg ;;
       scanBrave ;;
       let* allProducts := getLocal in
       let all := map scored (dedupe allProducts) in
       let limited := rank cfg allProducts in
       let* fresh := lift (foldM keepFresh [] limited) in
       lift (log "info"
               ("TrendScout scan complete: " ++ pretty (Z.of_nat (List.length all))
                ++ " found, "
                ++ pretty (Z.of_nat (List.length (qualified cfg allProducts)))
                ++ " qualified, " ++ pretty (Z.of_nat (List.length fresh))
                ++ " new products")%string) ;;
       ret fresh).

End Operations.

(** *** Notions used to state the properties *)

Definition isScrape (e : Event) : bool :=
  match e with EvScrape => true | _ => false end.

(** The identifiers [isDuplicate] was asked about, oldest first. *)
Definition lookedUp (evs : list Event) : list string :=
  omap (fun e => match e with EvIsDuplicate id => Some id | _ => None end) evs.

(** What a part of the scan may do that reaches neither the search nor
    the database: add products to [allProducts], and events. *)
Definition fetchesOnly (s s' : Exec) : Prop :=
  exists extra evs,
    fst s' = (fst s ++ extra)%list /\
    trace (snd s') = (trace (snd s) ++ evs)%list /\
    List.filter isScrape evs = [] /\ lookedUp evs = [].

End Scan.

(** ** routes/pipeline.js and index.js: the other entry points *)

Module Routes.
Import Pipeline.

(** *** The secret of the pipeline webhook *)

Inductive WebhookResponse :=
| Unauthorized
| Served (r : Response).

(** [if (secret && secret !== expectedSecret) return res.status(401)];
    [secret] is [req.body.secret], absent when the body has none. *)
Definition secretRefused (secret : option string) (expectedSecret : string) : bool :=
  match secret with
  | Some s => truthyStr s && negb (String.eqb s expectedSecret)
  | None => false
  end.

(** [POST /api/webhooks/pipeline/trigger], from the top. *)
Definition webhookRoute (env : Env) (expectedSecret : string)
  (secret : option string) (type : option string) (maxProductsArg : Z)
  : M World WebhookResponse :=
  if secretRefused secret expectedSecret then ret Unauthorized
  else let* r := webhookTrigger env type maxProductsArg in ret (Served r).

(** *** POST /api/pipeline/price-update *)

(** What [pricingEngine.calculatePrice] returns. *)
Record Pricing := mkPricing {
  pr_sellingPriceAud : Q;
  pr_comparePriceAud : Q;
  pr_profitMarginPercent : Q
}.

(** [{ ...product.pricing, ...pricing }]: every key of [pricing] wins. *)
Definition spread (old : option Pricing) (pricing : Pricing) : Pricing :=
  mkPricing (pr_sellingPriceAud pricing) (pr_comparePriceAud pricing)
            (pr_profitMarginPercent pricing).

Definition setPrices (pricing : Pricing) (p : Product) : Product :=
  mkProduct (p_id p) (title p) (costUsd p) (costAud p) (supplierUrl p)
    (category p) (isActive p) (pr_sellingPriceAud pricing)
    (pr_comparePriceAud pricing) (pr_profitMarginPercent pricing)
    (woocommerceProductId p) (researchScore p) (approved p) (approvedAt p)
    (rejectionReason p) (p_runId p) (p_status p) (shopifyStatus p).

(** Truthiness of [product.woocommerceProductId]. *)
Definition hasWooId (p : Product) : bool :=
  match woocommerceProductId p with
  | Value s => truthyStr s
  | _ => false
  end.

Record PriceEnv := mkPriceEnv {
  calculatePrice : nat -> Product -> Outcome Pricing;
  updateProduct : nat -> string -> Pricing -> Outcome unit
}.

(** The body of the loop, inside its [try]; [oldPricing] is
    [product.pricing] as the document came from the database. *)
Definition repriceOne (env : Env) (penv : PriceEnv) (oldPricing : option Pricing)
  (product : Product) : M World unit :=
  let* pricing := call "pricingEngine.calculatePrice" (title product)
                       (fun n => calculatePrice penv n product) in
  let merged := spread oldPricing pricing in
  let product := setPrices pricing product in
  (if (hasWooId product
       && Qltb (1 # 100) (Qabs (pr_sellingPriceAud merged - pr_sellingPriceAud pricing)))%bool
   then
     tryCatch
       (call "wooCommerceService.updateProduct" (title product)
             (fun n => updateProduct penv n
                         (match woocommerceProductId product with
                          | Value s => s
                          | _ => ""
                          end) pricing))
       (fun err =>
          log "warn" ("Failed to update WooCommerce price for " ++ title product
                      ++ ": " ++ message err)%string)
   else ret tt) ;;
  saveProduct env product.

(** What the route answers. *)
Inductive PriceResponse :=
| Updated (updated total : Z)
| PriceError (msg : string).

Definition priceUpdate (env : Env) (penv : PriceEnv)
  (oldPricing : Product -> option Pricing) : M World PriceResponse :=
  tryCatch
    (let* products := findProducts env isActive None in
     let* updated :=
       foldM (fun updated product =>
                tryCatch
                  (repriceOne env penv (oldPricing product) product ;;
                   ret (updated + 1))
                  (fun err =>
                     log "warn" ("Price update failed for " ++ title product
                                 ++ ": " ++ message err)%string ;;
                     ret updated))
             0 products in
     ret (Updated updated (Z.of_nat (List.length products))))
    (fun err => ret (PriceError (message err))).

(** *** Notions used to state the properties *)

(** The counters stage 4 writes. *)
Definition validationCounters (r : PipelineRun) : Z * Z :=
  (productsValidated (results r), productsRejected (results r)).

Definition listedCounter (r : PipelineRun) : Z := productsListed (results r).

(** A step that pushes no price to the storefront channel. *)
Definition noStoreUpdate (w w' : World) : Prop :=
  exists evs, trace w' = (trace w ++ evs)%list /\
              callsTo "wooCommerceService.updateProduct" evs = [].

End Routes.

(** ** services/MarketingOrchestrator.js: queue statistics, the social queue and content generation *)

Module Orchestration.
Import Marketing.

(** *** getContentQueueStats *)

Definition statusEqb (a b : ContentStatus) : bool :=
  match a, b with
  | Generating, Generating | PendingApproval, PendingApproval
  | Approved, Approved | Rejected, Rejected | Posted, Posted | Failed, Failed => true
  | _, _ => false
  end.

Definition withStatus (st : ContentStatus) (l : list MarketingContent)
  : list MarketingContent :=
  List.filter (fun c => statusEqb (status c) st) l.

(** [MarketingContent.countDocuments({ status })] *)
Definition countDocuments (env : Env) (st : ContentStatus) : M World Z :=
  dbOp env ;;
  gets (fun w => Z.of_nat (List.length (withStatus st (contents w)))).

(** [aggregate([{ $group: { _id: null, total: { $sum: '$generationCost' } } }])],
    read through [totalCost[0]?.total || 0]. *)
Definition totalGenerationCost (env : Env) : M World Q :=
  dbOp env ;;
  gets (fun w => orNum (fold_right Qplus 0%Q (map generationCost (contents w))) 0%Q).

Record QueueStats := mkQueueStats {
  qs_pending : Z;
  qs_approved : Z;
  qs_rejected : Z;
  qs_posted : Z;
  qs_generating : Z;
  qs_failed : Z;
  qs_totalCost : Q
}.

(** [Promise.all] starts the six counts together; they only read, and are
    run here one after the other, the first failure being the one
    thrown. *)
Definition getContentQueueStats (env : Env) : M World QueueStats :=
  let* pending := countDocuments env PendingApproval in
  let* approved := countDocuments env Approved in
  let* rejected := countDocuments env Rejected in
  let* posted := countDocuments env Posted in
  let* generating := countDocuments env Generating in
  let* failed := countDocuments env Failed in
  let* totalCost := totalGenerationCost env in
  ret (mkQueueStats pending approved rejected posted generating failed totalCost).

(** *** The social queue *)

(** An entry of [socialHistory]; [error] is [result?.error || null], and
    the results of the publishers carry no [error] field. *)
Record HistoryEntry := mkHistory {
  h_platform : string;
  h_productTitle : string;
  h_productId : nat;
  h_status : string;
  h_error : option string;
  h_timestamp : Z
}.

(** The [socialHistory] array next to the world. *)
Abbreviation QState := (list HistoryEntry * World)%type.

Definition setPendingProducts (l : list Product) (o : Orchestrator) : Orchestrator :=
  mkOrchestrator (stats o) l (isProcessing o) (o_logger o) (o_clawdbotBridge o)
                 (recentActivity o).
Definition setIsProcessing (b : bool) (o : Orchestrator) : Orchestrator :=
  mkOrchestrator (stats o) (pendingProducts o) b (o_logger o) (o_clawdbotBridge o)
                 (recentActivity o).

Definition modifyOrchestrator (f : Orchestrator -> Orchestrator) : M World unit :=
  modify (fun w => setOrchestrator (f (orchestrator w)) w).

(** [this.postDelayMs]: thirty minutes. *)
Definition postDelayMs : Z := 30 * 60 * 1000.

(** [_addSocialHistory]: newest first, at most 100 entries. *)
Definition addSocialHistory (env : Env) (platform : string) (product : Product)
  (result : PostResult) : M QState unit :=
  let* t := lift (dateNow env) in
  let* h := getLocal in
  let h := mkHistory platform (title product) (p_id product)
                     (if success result then "success" else "failed") None t :: h in
  setLocal (if 100 <? Z.of_nat (List.length h) then removelast h else h).

(** The body of the [while] of [processSocialQueue], after the [shift]. *)
Definition postQueued (env : Env) (product : Product) : M QState unit :=
  tryCatch
    (let* results := lift (postProductToAll env product) in
     let n := successCount results in
     lift (modifyStats (addSocialPostsSent n)) ;;
     addSocialHistory env "instagram" product (instagram results) ;;
     addSocialHistory env "facebook" product (facebook results) ;;
     addSocialHistory env "pinterest" product (pinterest results) ;;
     lift (addActivity env "social"
             ("Posted " ++ title product ++ " to " ++ pretty n ++ " channels")%string))
    (fun err =>
       lift (oLog "error" ("Marketing: Social post failed: " ++ message err)%string) ;;
       lift (addActivity env "social"
               ("Social post failed: " ++ message err)%string)) ;;
  let* o := lift (gets orchestrator) in
  if (0 <? Z.of_nat (List.length (pendingProducts o)))
  then lift (sleep postDelayMs)
  else ret tt.

(** [while (this.pendingProducts.length > 0) { ... }], for at most
    [fuel] turns. *)
Fixpoint whileQueued (env : Env) (fuel : nat) : M QState unit :=
  match fuel with
  | O => ret tt
  | S fuel' =>
      let* o := lift (gets orchestrator) in
      match pendingProducts o with
      | [] => ret tt
      | product :: rest =>
          lift (modifyOrchestrator (setPendingProducts rest)) ;;
          postQueued env product ;;
          whileQueued env fuel'
      end
  end.

(** [processSocialQueue], awaited, nobody queueing in the meantime: the
    loop then needs as many turns as there are products waiting. *)
Definition processSocialQueue (env : Env) : M QState unit :=
  let* o := lift (gets orchestrator) in
  if (isProcessing o || (Z.of_nat (List.length (pendingProducts o)) =? 0))%bool
  then ret tt
  else
    lift (modifyOrchestrator (setIsProcessing true)) ;;
    whileQueued env (List.length (pendingProducts o)) ;;
    lift (modifyOrchestrator (setIsProcessing false)).

(** *** runContentPipeline *)

(** [x.toFixed(2)]: the number with two decimals nearest to the binary64
    value of [x], the larger one at a tie (below 10^21). *)
Definition toFixed2 (x : Q) : string :=
  let y := toDouble x in
  let n := Qfloor (Qabs y * 100 + (1 # 2)) in
  let cents := n mod 100 in
  ((if Qltb y 0 then "-" else "") ++
   pretty (n / 100) ++ "." ++ (if (cents <? 10)%Z then "0" else "") ++ pretty cents)%string.

Definition isActiveContent (s : ContentStatus) : bool :=
  match s with
  | Generating | PendingApproval | Approved => true
  | _ => false
  end.

(** [MarketingContent.findOne({ productId, status: { $in: ['generating',
    'pending_approval', 'approved'] } })] *)
Definition findActiveContent (env : Env) (pid : nat)
  : M World (option MarketingContent) :=
  dbOp env ;;
  gets (fun w => find (fun c => Nat.eqb (productId c) pid && isActiveContent (status c))
                      (contents w)).

(** [new MarketingContent({ ..., status: 'generating', pipelineRunId })] *)
Definition newContent (id : nat) (product : Product) : MarketingContent :=
  mkContent id (p_id product) (title product) (firstImageUrl product)
    (orNum (sellingPriceAud product) (price product)) (category product)
    None emptyImage Generating None None None None None 0 0 None.

(** The update of [updateOne({ productId, status: 'generating' },
    { status: 'failed', 'image.error': msg })] on the document it picks. *)
Definition markFailed (msg : string) (c : MarketingContent) : MarketingContent :=
  mkContent (c_id c) (productId c) (productTitle c) (productImage c)
    (productPrice c) (productCategory c) (caption c)
    (mkContentImage (url (image c)) (imageStatus (image c)) msg)
    Failed (approvedAt c) (rejectedAt c) (rejectionReason c)
    (postedAt c) (postResults c) (generationCost c) (regenerationCount c)
    (regeneratedFrom c).

Fixpoint updateFirst (pick : MarketingContent -> bool)
  (f : MarketingContent -> MarketingContent) (l : list MarketingContent)
  : list MarketingContent :=
  match l with
  | [] => []
  | c :: l' => if pick c then f c :: l' else c :: updateFirst pick f l'
  end.

Definition updateOneGenerating (env : Env) (pid : nat) (msg : string) : M World unit :=
  dbOp env ;;
  modify (fun w =>
    setContents
      (updateFirst (fun c => Nat.eqb (productId c) pid && statusEqb (status c) Generating)
                   (markFailed msg) (contents w)) w).

(** [_alertOpenClaw(type, data)] *)
Definition alertOpenClaw (env : Env) (type : string) : M World unit :=
  let* o := gets orchestrator in
  if negb (o_clawdbotBridge o) then ret tt
  else
    tryCatch (bridgeSend env type)
      (fun err => oLog "warn" ("Marketing: OpenClaw alert failed: " ++ message err)%string).

(** The products handed to [runContentPipeline] are objects: each comes
    with its reference, which is what [indexOf] compares. *)
Fixpoint indexOf (ref : nat) (l : list (nat * Product)) : Z :=
  match l with
  | [] => -1
  | x :: l' =>
      if Nat.eqb (fst x) ref then 0
      else let i := indexOf ref l' in if i <? 0 then -1 else i + 1
  end.

(** The local counters [generated] and [failed] next to the world. *)
Abbreviation GState := ((Z * Z) * World)%type.

Definition countGenerated : M GState unit :=
  let* c := getLocal in setLocal (fst c + 1, snd c).
Definition countFailed : M GState unit :=
  let* c := getLocal in setLocal (fst c, snd c + 1).

(** One turn of the loop of [runContentPipeline]. *)
Definition generateOne (env : Env) (products : list (nat * Product))
  (entry : nat * Product) : M GState unit :=
  let product := snd entry in
  tryCatch
    (let* existing := lift (findActiveContent env (p_id product)) in
     match existing with
     | Some _ =>
         lift (oLog "info" ("Content already exists for " ++ dquote ++ title product
                            ++ dquote ++ " — skipping")%string)
     | None =>
         let* id := lift freshId in
         let contentDoc := newContent id product in
         lift (insert env contentDoc) ;;
         lift (oLog "info" ("Generating content for " ++ dquote ++ title product
                            ++ dquote ++ "...")%string) ;;
         let* content := lift (generate env product) in
         let contentDoc := setGenerated content contentDoc in
         lift (save env contentDoc) ;;
         countGenerated ;;
         lift (modifyStats incContentGenerated) ;;
         lift (addActivity env "content_generated"
                 ("Content generated for " ++ dquote ++ title product ++ dquote
                  ++ " ($" ++ toFixed2 (g_generationCost content) ++ ")")%string) ;;
         lift (alertOpenClaw env "marketing_content_generated") ;;
         if indexOf (fst entry) products <? Z.of_nat (List.length products) - 1
         then lift (sleep 2000)
         else ret tt
     end)
    (fun err =>
       countFailed ;;
       lift (oLog "error" ("Content generation failed for " ++ dquote ++ title product
                           ++ dquote ++ ": " ++ message err)%string) ;;
       tryCatch (lift (updateOneGenerating env (p_id product) (message err)))
                (fun _ => ret tt)).

Inductive ContentPipelineResult :=
| GeneratorDisabled (generated skipped : Z)
| Generated (generated failed total : Z).

Definition runContentPipeline (env : Env) (isEnabled : bool)
  (products : list (nat * Product)) : M World ContentPipelineResult :=
  let total := Z.of_nat (List.length products) in
  if negb isEnabled
  then
    oLog "warn" "ContentGenerator not enabled — skipping content pipeline" ;;
    ret (GeneratorDisabled 0 total)
  else
    withLocal (0, 0)
      (forEach products (generateOne env products) ;;
       let* c := getLocal in
       lift (oLog "info"
               ("Content pipeline: " ++ pretty (fst c) ++ " generated, "
                ++ pretty (snd c) ++ " failed, "
                ++ pretty (total - fst c - snd c) ++ " skipped")%string) ;;
       ret (Generated (fst c) (snd c) total)).

(** *** Notions used to state the properties *)

(** What an operation on the document [id] may do to the store: no
    document is added or removed, none but [id] is written, and the
    catalogue is left alone. *)
Definition onlyDocument (id : nat) (w w' : World) : Prop :=
  products w' = products w /\ nextId w' = nextId w /\
  Forall2 (fun x y => c_id y = c_id x /\ (c_id x <> id -> y = x))
          (contents w) (contents w').

(** The pauses of the social queue in a trace. *)
Definition isQueueDelay (e : Event) : bool :=
  match e with
  | EvSleep ms => ms =? postDelayMs
  | _ => false
  end.

Definition queueDelays (w : World) : nat :=
  List.length (List.filter isQueueDelay (trace w)).

(** No placeholder is waiting for its content. *)
Definition noneGenerating (w : World) : Prop :=
  Forall (fun c => status c <> Generating) (contents w).

(** What the accounting of a content run reads: the local counters,
    whether the logger is set, [stats.contentGenerated] and the size of
    the collection. *)
Definition runObs (w : World) : bool * Z * nat :=
  (o_logger (orchestrator w), contentGenerated (stats (orchestrator w)),
   List.length (contents w)).

Definition runView (s : GState) : (Z * Z) * (bool * Z * nat) :=
  (fst s, runObs (snd s)).

(** The state of the accounting: counters [c], logger set,
    [contentGenerated] at [n], [k] documents. *)
Definition runAt (c : Z * Z) (n : Z) (k : nat) (s : GState) : Prop :=
  runView s = (c, (true, n, k)).

(** Where one turn of the loop may leave the accounting: the product was
    skipped, its content was generated, or it failed before or after its
    placeholder was stored. *)
Definition runTurn (c : Z * Z) (n : Z) (k : nat) (s : GState) : Prop :=
  runAt c n k s
  \/ runAt (fst c + 1, snd c) (n + 1) (Datatypes.S k) s
  \/ runAt (fst c, snd c + 1) n k s
  \/ runAt (fst c, snd c + 1) n (Datatypes.S k) s.

(** The collection ends with the placeholder [c], the only document in
    status [generating]. *)
Definition placeholderLast (c : MarketingContent) (w : World) : Prop :=
  status c = Generating /\
  exists l, contents w = (l ++ [c])%list /\
            Forall (fun x => status x <> Generating) l.

(** A content run between two products, and between the two saves of a
    placeholder. *)
Definition runClean (s : GState) : Prop :=
  o_logger (orchestrator (snd s)) = true /\ noneGenerating (snd s).

Definition runPending (c : MarketingContent) (s : GState) : Prop :=
  o_logger (orchestrator (snd s)) = true /\ placeholderLast c (snd s).

(** Only the count of exchanges with the outside has moved. *)
Definition onlyTicked (w w' : World) : Prop := w' = setTick (tick w') w.

End Orchestration.

(** ** routes/marketing.js: the guard of the admin routes *)

Module MarketingRoutes.

(** The credentials of a request: [req.headers['x-admin-password']],
    [req.query.password] and [req.headers['x-api-key']], each absent or a
    string. *)
Record Request := mkRequest {
  xAdminPassword : option string;
  queryPassword : option string;
  xApiKey : option string
}.

(** [config.admin.password] and [config.clawdbot.apiKey] for the given
    environment variables; an unset variable reads as the empty string. *)
Definition adminPassword (envPassword : string) : string :=
  orStr envPassword "xeriaco2026".
Definition clawdbotApiKey (envKey : string) : string := orStr envKey "".

(** [a || b] on values that may be [undefined]. *)
Definition orUndefined (a b : option string) : option string :=
  match a with
  | Some s => if truthyStr s then a else b
  | None => b
  end.

(** [a === s] for a string [s]. *)
Definition strictEq (a : option string) (s : string) : bool :=
  match a with
  | Some x => String.eqb x s
  | None => false
  end.

(** [clawdbotAuth]: [true] for [next()], [false] for the 401 answer. *)
Definition clawdbotAuth (envPassword envKey : string) (req : Request) : bool :=
  let adminPass := orUndefined (xAdminPassword req) (queryPassword req) in
  let apiKey := xApiKey req in
  strictEq adminPass (adminPassword envPassword)
  || strictEq apiKey (clawdbotApiKey envKey).

End MarketingRoutes.

(** ** Frame conditions *)

Section Preserves.
Context {S B : Type} (f : S -> B).

(** [m] leaves the observation [f] of the state as it found it, whether it
    returns or throws. *)
Definition preserves {A} (m : M S A) : Prop := forall s, f (snd (m s)) = f s.

End Preserves.

Section Respects.
Context {S : Type} (R : S -> S -> Prop).

(** Every run of [m] takes a state to one related to it by [R]. *)
Definition respects {A} (m : M S A) : Prop := forall s, R s (snd (m s)).

End Respects.

Section Returns.
Context {S : Type}.

(** [m] never throws, and [post] relates the state it starts from, its
    result and the state it leaves. *)
Definition returns {A} (m : M S A) (post : S -> A -> S -> Prop) : Prop :=
  forall s, exists a s', m s = (Ok a, s') /\ post s a s'.

End Returns.

Section Ensures.
Context {S : Type}.

(** Started where [pre] holds, [m] returns [a] in a state where [ok a]
    holds, or throws in a state where [ko] holds. *)
Definition ensures {A} (pre : S -> Prop) (m : M S A) (ok : A -> S -> Prop)
  (ko : S -> Prop) : Prop :=
  forall s, pre s ->
    match m s with
    | (Ok a, s') => ok a s'
    | (Throw _, s') => ko s'
    end.

End Ensures.

(** ** Sample data *)

Module Samples.
Import Marketing.

Definition scanned : TrendScout.ScannedProduct :=
  TrendScout.mkScanned "Wireless Bluetooth Earbuds" "cj_dropshipping" "pid-1"
    "https://img.example/1.jpg" 0 (25 # 2) 1200 "Consumer Electronics"
    "https://cjdropshipping.com/product/pid-1" None.

Definition heap : TrendScout.Heap := {[ 0%nat := scanned ]}.

Definition generated : GeneratedContent :=
  mkGenerated (mkCaption "ig text" "fb text" "pin text" ["xeriaco"])
              (mkContentImage "https://fal.example/img.png" "ready" "")
              (4 # 100).

(** A clock that starts in November 2023 and advances one second per
    exchange; collaborators that always answer. *)
Definition env : Env :=
  mkEnv (fun n => 1700000000000 + 1000 * Z.of_nat n)
        (fun _ => None)
        (fun _ _ => Ok (Some "post-1"))
        (fun _ => Ok "Fresh drop at XeriaCO")
        (fun _ => Ok tt)
        (fun _ _ => Ok generated).

(** The same, with a content generator that is down. *)
Definition envGeneratorDown : Env :=
  mkEnv (now env) (dbError env) (httpPost env) (aiGenerate env) (sendCommand env)
        (fun _ _ => Throw (Err "fal.ai timeout")).

Definition product : Product :=
  mkProduct 7 "Wireless Bluetooth Earbuds" "https://img.example/1.jpg" []
            (3995 # 100) 0 "electronics".

Definition content (id pid : nat) (st : ContentStatus) : MarketingContent :=
  mkContent id pid "Wireless Bluetooth Earbuds" "https://img.example/1.jpg"
    (3995 # 100) "electronics"
    (Some (g_caption generated)) (g_image generated) st
    None None None None None (4 # 100) 0 None.

Definition poster : SocialPoster :=
  newSocialPoster "token" "page-1" "ig-1" "pin-token" "board-1" "".

(** After [marketing.init(logger, bridge, aiGenerator)]: one item awaiting
    approval, one already posted, and one whose product has since been
    deleted from the catalogue. *)
Definition world : World :=
  mkWorld 0 []
    [content 1 7 PendingApproval; content 2 7 Posted; content 3 99 PendingApproval]
    [product] 4
    (initSocialPoster true true poster)
    (initOrchestrator true newOrchestrator).

(** Instagram was posted to one second before the clock's first reading. *)
Definition worldJustPosted : World :=
  setSocialPoster
    (setLastPostTime {[ "instagram" := 1699999999000 ]} (socialPoster world)) world.



(** The pipeline's collaborators: a scan that finds nothing new, and
    providers that always answer. *)
Definition pipelineEnv : Pipeline.Env :=
  Pipeline.mkEnv (fun n => 1700000000000 + 1000 * Z.of_nat n)
    (fun _ => None)
    (fun n => ("run-" ++ pretty n)%string)
    (fun _ => Ok [])
    (fun _ _ ps => (Ok 0, ps))
    (fun _ _ ps => (Ok 0, ps))
    (fun _ _ => Ok (Pipeline.mkWoo "101" "earbuds"))
    (fun _ _ => Ok tt)
    (fun _ => Ok tt)
    (fun _ _ => Ok tt).

(** The same, with a trend source that times out. *)
Definition pipelineEnvScanDown : Pipeline.Env :=
  Pipeline.mkEnv (Pipeline.now pipelineEnv) (Pipeline.dbError pipelineEnv)
    (Pipeline.uuidv4 pipelineEnv)
    (fun _ => Throw (Err "timeout"))
    (Pipeline.autoSourceProducts pipelineEnv) (Pipeline.bulkEnrich pipelineEnv)
    (Pipeline.createProduct pipelineEnv) (Pipeline.bulkSyncProducts pipelineEnv)
    (Pipeline.notify pipelineEnv) (Pipeline.onProductLive pipelineEnv).

(** The same, with an alerting bridge that is down. *)
Definition pipelineEnvNotifyDown : Pipeline.Env :=
  Pipeline.mkEnv (Pipeline.now pipelineEnv) (Pipeline.dbError pipelineEnv)
    (Pipeline.uuidv4 pipelineEnv) (Pipeline.scan pipelineEnv)
    (Pipeline.autoSourceProducts pipelineEnv) (Pipeline.bulkEnrich pipelineEnv)
    (Pipeline.createProduct pipelineEnv) (Pipeline.bulkSyncProducts pipelineEnv)
    (fun _ => Throw (Err "bridge unreachable")) (Pipeline.onProductLive pipelineEnv).

(** The same, with a database whose first operation fails. *)
Definition pipelineEnvDbDown : Pipeline.Env :=
  Pipeline.mkEnv (Pipeline.now pipelineEnv)
    (fun n => if Nat.eqb n 0 then Some (Err "db down") else None)
    (Pipeline.uuidv4 pipelineEnv) (Pipeline.scan pipelineEnv)
    (Pipeline.autoSourceProducts pipelineEnv) (Pipeline.bulkEnrich pipelineEnv)
    (Pipeline.createProduct pipelineEnv) (Pipeline.bulkSyncProducts pipelineEnv)
    (Pipeline.notify pipelineEnv) (Pipeline.onProductLive pipelineEnv).

(** Cost 0, margin 50%, score 90, supplier known: never approved, never
    rejected. *)
Definition zeroCost : Pipeline.Product :=
  Pipeline.mkProduct 1 "Mystery Gadget" 0 0 "https://supplier.example/1" "home"
    true 0 0 50 Pipeline.Null 90 false None "" "" Pipeline.Missing "".

(** Cost $8, margin 40%, score 10, supplier known; not yet on the
    storefront channel. *)
Definition marginOnly : Pipeline.Product :=
  Pipeline.mkProduct 2 "Bamboo Organizer" 8 8 "https://supplier.example/2" "home"
    true 0 0 40 Pipeline.Missing 10 false None "" "" Pipeline.Missing "".

(** Approved and on the storefront channel, priced, with no listing
    status yet: what the auto-list sweep picks up. *)
Definition priced : Pipeline.Product :=
  Pipeline.mkProduct 3 "Wireless Bluetooth Earbuds" 12 12
    "https://supplier.example/3" "electronics"
    true (2995 # 100) 0 45 (Pipeline.Value "55") 70 true (Some 1690000000000)
    "" "run-0" Pipeline.Missing "".

(** A run as [POST /api/pipeline/run] creates it. *)
Definition run : Pipeline.PipelineRun :=
  Pipeline.newRun 10 "run-10" "full" Pipeline.Running (Some 1700000000000)
                  "manual" None.

Definition pipelineWorld : Pipeline.World :=
  Pipeline.mkWorld 0 [] [run] [zeroCost; marginOnly; priced] 11.

(** Before any run was ever started. *)
Definition emptyWorld : Pipeline.World :=
  Pipeline.mkWorld 0 [] [] [zeroCost; marginOnly; priced] 0.

End Samples.

(** ** More sample data *)

Module Cases.

(** A catalogue API that answers twice, the second time with a product
    already seen, and then fails; a search that finds one trend; a
    database that knows none of them. *)
Definition earbuds : TrendScout.ScannedProduct :=
  TrendScout.mkScanned "Wireless Bluetooth Earbuds" "cj_dropshipping" "CJ-1"
    "https://img.example/1.jpg" 12 12 12000 "Consumer Electronics"
    "https://cjdropshipping.com/product/CJ-1" None.

Definition earbudsAgain : TrendScout.ScannedProduct :=
  TrendScout.mkScanned "Wireless Earbuds (new)" "cj_dropshipping" "CJ-1"
    "" 12 12 50 "Consumer Electronics"
    "https://cjdropshipping.com/product/CJ-1" None.

Definition sticker : TrendScout.ScannedProduct :=
  TrendScout.mkScanned "Sticker" "cj_dropshipping" "CJ-2" "" 0 0 0 "Misc"
    "https://cjdropshipping.com/product/CJ-2" None.

Definition scanEnv : Scan.Env :=
  Scan.mkEnv
    (fun n flag kw =>
       match n with
       | O => Ok [earbuds; sticker]
       | S O => Ok [earbudsAgain]
       | _ => Throw (Err "socket hang up")
       end)
    (fun _ => Ok (omap (fun x => x)
                    [Scan.braveProduct 0 "Portable Blender Bottle" "kitchen gadget"]))
    (fun _ _ => false).

Definition scanConfig : Scan.Config :=
  Scan.mkConfig true 20 20 ["tech"; "home"; "lifestyle"; "fashion"; "fitness"].

Definition scanWorld : Scan.World := Scan.mkWorld 0 [].

(** A pricing engine that prices everything at 29.95, and a storefront
    client that would accept any update. *)
Definition priceEnv : Routes.PriceEnv :=
  Routes.mkPriceEnv
    (fun _ _ => Ok (Routes.mkPricing (2995 # 100) 40 45))
    (fun _ _ _ => Ok tt).

End Cases.

(* ================================================================== *)
(** * Properties *)
(* ================================================================== *)

(** ** Trend scoring *)

Section TrendScoutFacts.
Import TrendScout.

Lemma salesBonus_range o : 0 <= salesBonus o <= 25.
Proof. unfold salesBonus. repeat case_match; lia. Qed.

Lemma costBonus_range c : 0 <= costBonus c <= 20.
Proof. unfold costBonus. repeat case_match; lia. Qed.

Lemma categoryBonus_range c : 0 <= categoryBonus c <= 10.
Proof. unfold categoryBonus. cbv zeta. case_match; lia. Qed.

Lemma imageBonus_range i : 0 <= imageBonus i <= 5.
Proof. unfold imageBonus. case_match; lia. Qed.

Lemma nameBonus_range n : 0 <= nameBonus n <= 5.
Proof. unfold nameBonus. case_match; lia. Qed.

Lemma score_range p : 15 <= score p <= 80.
Proof.
  unfold score.
  pose proof (salesBonus_range (orders p)).
  pose proof (costBonus_range (orNum (costAud p) (orNum (costUsd p) 0))).
  pose proof (categoryBonus_range (category p)).
  pose proof (imageBonus_range (image p)).
  pose proof (nameBonus_range (name p)).
  lia.
Qed.

Lemma score_sameInput p q : sameInput p q -> score p = score q.
Proof.
  intros (Hn & _ & _ & Hi & Hu & Ha & Ho & Hc & _).
  unfold score. by rewrite Hn, Hi, Hu, Ha, Ho, Hc.
Qed.

End TrendScoutFacts.

(** [scoreProduct] writes the capped score into the object it was given
    and touches nothing else. *)
Lemma scoreProduct_eq (h : TrendScout.Heap) (l : nat) (p : TrendScout.ScannedProduct) :
  h !! l = Some p ->
  TrendScout.scoreProduct h l =
    (<[l := TrendScout.setTrendScore (Z.min (TrendScout.score p) 100) p]> h, l).
Proof. intros H. unfold TrendScout.scoreProduct. by rewrite H. Qed.

(** C8, as stated, fails: [scoreProduct] is not free of side effects.  The
    object it is given carried no score; after the call the same object
    carries 70, so the heap is no longer the one the call started from. *)
Lemma C8_counterexample_writes_its_argument :
  (TrendScout.trendScore <$> Samples.heap !! 0%nat) = Some None /\
  (TrendScout.trendScore <$> fst (TrendScout.scoreProduct Samples.heap 0%nat) !! 0%nat)
  = Some (Some 70) /\
  fst (TrendScout.scoreProduct Samples.heap 0%nat) <> Samples.heap.
Proof.
  split; [vm_compute; reflexivity|]. split; [vm_compute; reflexivity|].
  intros E.
  apply (f_equal (fun h : TrendScout.Heap => TrendScout.trendScore <$> h !! 0%nat)) in E.
  vm_compute in E. discriminate E.
Qed.

(** C8, amended.  The trend score is a function of the product's fields
    alone: for every product object, [scoreProduct] returns the object it
    was given with [trendScore] set to a value in [0, 100] (the sum of the
    base 15 and the five tier bonuses, capped at 100); two objects with
    identical input fields receive identical scores, whatever the heap
    they live in and whatever score they carried before.  The call has one
    side effect, the write of [trendScore] on its argument: it changes no
    other field and no other object. *)
Theorem C8_scoreProduct_deterministic_in_range
  (h : TrendScout.Heap) (l : nat) (p : TrendScout.ScannedProduct) :
  h !! l = Some p ->
  let h' := fst (TrendScout.scoreProduct h l) in
  snd (TrendScout.scoreProduct h l) = l /\
  (exists v, h' !! l = Some (TrendScout.setTrendScore v p) /\
             v = Z.min (TrendScout.score p) 100 /\ 0 <= v <= 100) /\
  (forall l', l' <> l -> h' !! l' = h !! l') /\
  (forall (h2 : TrendScout.Heap) l2 q,
      h2 !! l2 = Some q -> TrendScout.sameInput p q ->
      (TrendScout.trendScore <$> fst (TrendScout.scoreProduct h2 l2) !! l2)
      = (TrendScout.trendScore <$> h' !! l)).
Proof.
  intros H h'. subst h'. rewrite (scoreProduct_eq h l p H). cbn [fst snd].
  split; [done|]. split; [|split].
  - eexists. split; [apply lookup_insert_eq|]. split; [done|].
    pose proof (score_range p). lia.
  - intros l' Hne. by rewrite lookup_insert_ne.
  - intros h2 l2 q Hq Hsame.
    rewrite (scoreProduct_eq h2 l2 q Hq). cbn [fst].
    rewrite !lookup_insert_eq. cbn.
    by rewrite (score_sameInput p q Hsame).
Qed.

Lemma C8_scoreProduct_witness :
  Samples.heap !! 0%nat = Some Samples.scanned /\
  TrendScout.trendScore <$> (fst (TrendScout.scoreProduct Samples.heap 0%nat) !! 0%nat)
  = Some (Some 70).
Proof.
  assert (H : Samples.heap !! 0%nat = Some Samples.scanned) by (vm_compute; reflexivity).
  split; [exact H|].
  destruct (C8_scoreProduct_deterministic_in_range Samples.heap 0%nat Samples.scanned H)
    as (_ & (v & Hv & Hval & _) & _).
  rewrite Hv. cbn. rewrite Hval. reflexivity.
Defined.

(** ** Reasoning about monadic code *)

Section MonadFacts.
Context {S : Type}.

Lemma bind_Ok_inv {A B} (m : M S A) (k : A -> M S B) s b s' :
  bind m k s = (Ok b, s') ->
  exists a s1, m s = (Ok a, s1) /\ k a s1 = (Ok b, s').
Proof.
  unfold bind. destruct (m s) as [[a|e] s1]; [eauto | discriminate].
Qed.

Lemma bind_Throw_inv {A B} (m : M S A) (k : A -> M S B) s e s' :
  bind m k s = (Throw e, s') ->
  m s = (Throw e, s') \/
  exists a s1, m s = (Ok a, s1) /\ k a s1 = (Throw e, s').
Proof.
  unfold bind. destruct (m s) as [[a|e0] s1]; [eauto | left; congruence].
Qed.

Lemma bind_Ok {A B} (m : M S A) (k : A -> M S B) s a s1 :
  m s = (Ok a, s1) -> bind m k s = k a s1.
Proof. unfold bind. by intros ->. Qed.


Lemma tryCatch_Ok {A} (m : M S A) h s a s1 :
  m s = (Ok a, s1) -> tryCatch m h s = (Ok a, s1).
Proof. unfold tryCatch. by intros ->. Qed.


End MonadFacts.

Lemma orZ_0 t : orZ t 0 = t.
Proof. unfold orZ. destruct (Z.eqb_spec t 0); congruence. Qed.

Ltac munfold :=
  unfold bind, tryCatch, ret, throw, gets, modify in *.


Ltac case_step_in H :=
  match type of H with
  | context [match ?x with _ => _ end] =>
      lazymatch x with
      | context [match _ with _ => _ end] => fail
      | _ => destruct x eqn:?
      end
  end.

Ltac bind_inv H :=
  let a := fresh "a" in
  let s := fresh "s" in
  let E := fresh "E" in
  apply bind_Ok_inv in H as (a & s & E & H).

Section PreservesFacts.
Context {S B : Type} (f : S -> B).

Lemma preserves_ret {A} (a : A) : preserves f (ret a).
Proof. by intros s. Qed.

Lemma preserves_throw {A} e : preserves f (@throw S A e).
Proof. by intros s. Qed.

Lemma preserves_gets {A} (g : S -> A) : preserves f (gets g).
Proof. by intros s. Qed.

Lemma preserves_modify (g : S -> S) :
  (forall s, f (g s) = f s) -> preserves f (modify g).
Proof. intros H s. apply H. Qed.

Lemma preserves_bind {A C} (m : M S A) (k : A -> M S C) :
  preserves f m -> (forall a, preserves f (k a)) -> preserves f (bind m k).
Proof.
  intros Hm Hk s. unfold bind. specialize (Hm s).
  destruct (m s) as [[a|e] s1]; cbn in *; [|done].
  by rewrite Hk.
Qed.

Lemma preserves_tryCatch {A} (m : M S A) h :
  preserves f m -> (forall e, preserves f (h e)) -> preserves f (tryCatch m h).
Proof.
  intros Hm Hh s. unfold tryCatch. specialize (Hm s).
  destruct (m s) as [[a|e] s1]; cbn in *; [done|].
  by rewrite Hh.
Qed.

Lemma preserves_forEach {A} (l : list A) (body : A -> M S unit) :
  (forall x, preserves f (body x)) -> preserves f (forEach l body).
Proof.
  intros H. induction l as [|x l IH]; cbn.
  - apply preserves_ret.
  - apply preserves_bind; auto.
Qed.

Lemma preserves_foldM {A C} (body : C -> A -> M S C) (l : list A) :
  (forall c x, preserves f (body c x)) -> forall c, preserves f (foldM body c l).
Proof.
  intros H. induction l as [|x l IH]; intros c; cbn.
  - apply preserves_ret.
  - apply preserves_bind; auto.
Qed.

End PreservesFacts.

Ltac preserves_step :=
  first
    [ apply preserves_ret
    | apply preserves_throw
    | apply preserves_gets
    | apply preserves_modify; intros ?; reflexivity
    | apply preserves_bind; [|intros ?]
    | apply preserves_tryCatch; [|intros ?]
    | match goal with
      | |- preserves _ (if ?b then _ else _) => destruct b
      | |- preserves _ (match ?x with _ => _ end) => destruct x
      end ].

Ltac preserves_tac := repeat preserves_step.

(** ** Social posting: the cooldown gate *)

Section SocialPosterFacts.
Import Marketing.

Ltac poster_unfold :=
  unfold postTo, postToInstagram, postToFacebook, postToPinterest, settled,
    canPost, dateNow, generateSocialCopy, axiosPost, sleep, markPosted, spLog,
    emit, step in *;
  munfold.

Lemma postTo_rate_limited env c p w t :
  channelEnabled c (socialPoster w) = true ->
  lastPostTime (socialPoster w) !! channelKey c = Some t ->
  now env (tick w) - t < minPostIntervalMs (socialPoster w) ->
  postTo env c p w = (Ok (failure "rate_limited"), w).
Proof.
  intros He Hl Hlt.
  assert (Hc : (minPostIntervalMs (socialPoster w)
                <=? now env (tick w) - orZ t 0) = false).
  { rewrite orZ_0. apply Z.leb_gt. lia. }
  destruct c; cbn in He, Hl; poster_unfold; cbn; rewrite He; cbn;
    rewrite Hl, Hc; reflexivity.
Qed.






End SocialPosterFacts.



(** ** The content approval queue *)

Section ContentQueueFacts.
Import Marketing.

Lemma postContentToAll_queueState env post :
  preserves queueState (postContentToAll env post).
Proof.
  unfold postContentToAll, spLog, axiosPost, sleep, markPosted, bridgeSend,
    emit, step, dateNow.
  preserves_tac.
  all: try (intros s; reflexivity).
Qed.

Lemma find_updateById c l :
  (exists c0, find (fun x => Nat.eqb (c_id x) (c_id c)) l = Some c0) ->
  find (fun x => Nat.eqb (c_id x) (c_id c)) (updateById c l) = Some c.
Proof.
  intros [c0 H]. induction l as [|x l IH]; [discriminate|].
  cbn in *. destruct (Nat.eqb (c_id x) (c_id c)) eqn:E.
  - by rewrite Nat.eqb_refl.
  - rewrite E. auto.
Qed.

Lemma find_c_id id l c :
  find (fun x => Nat.eqb (c_id x) id) l = Some c -> c_id c = id.
Proof. intros H. apply find_some in H as [_ H]. by apply Nat.eqb_eq. Qed.

Lemma updateById_fresh c l :
  Forall (fun x => c_id x <> c_id c) l -> updateById c l = l.
Proof.
  induction 1 as [|x l Hx _ IH]; [done|]. unfold updateById in *. cbn.
  destruct (Nat.eqb_spec (c_id x) (c_id c)); [done|]. by rewrite IH.
Qed.

Lemma updateById_app c l l' :
  updateById c (l ++ l') = (updateById c l ++ updateById c l')%list.
Proof. apply map_app. Qed.

Lemma Forall_updateById (P : MarketingContent -> Prop) c l :
  Forall P l -> P c -> Forall P (updateById c l).
Proof.
  intros H Hc. induction H; cbn; constructor; auto. case_match; auto.
Qed.

Lemma find_app_l {A} (f : A -> bool) l l' x :
  find f l = Some x -> find f (l ++ l') = Some x.
Proof. induction l; cbn; [done|]. case_match; auto. Qed.

(** [approveContent] on anything but a pending item throws before it has
    written anything, whatever the collaborators do. *)
Lemma approveContent_guard env id w c :
  lookupContent id w = Some c -> isPendingApproval (status c) = false ->
  exists e w', approveContent env id w = (Throw e, w') /\
    contents w' = contents w /\ orchestrator w' = orchestrator w /\
    socialPoster w' = socialPoster w /\
    filter isNetwork (trace w') = filter isNetwork (trace w).
Proof.
  intros Hc Hst. unfold lookupContent in Hc.
  unfold approveContent, approveAndSave, findById, dbOp, step, emit. munfold. cbn.
  destruct (dbError env (tick w)); cbn.
  - eexists _, _. split; [reflexivity|]. by repeat split.
  - rewrite Hc, Hst. cbn. eexists _, _. split; [reflexivity|].
    repeat split; try done.
    cbn. rewrite filter_app. cbn. by rewrite app_nil_r.
Qed.

(** [rejectContent] has no such guard: whatever the status of the item,
    it is overwritten with [rejected]. *)
Lemma rejectContent_any_status env id w c :
  lookupContent id w = Some c ->
  dbError env (tick w) = None -> dbError env (Datatypes.S (tick w)) = None ->
  exists w', rejectContent env id "" w = (Ok true, w') /\
    lookupContent id w' = Some (setRejected (now env (Datatypes.S (tick w))) "" c).
Proof.
  intros Hc H1 H2. pose proof (find_c_id _ _ _ Hc) as Hid.
  unfold lookupContent in Hc.
  unfold rejectContent, findById, save, dateNow, modifyStats, addActivity,
    dateNow, dbOp, step, emit.
  munfold. cbn. rewrite H1. cbn. rewrite Hc. cbn. rewrite H2. cbn.
  eexists. split; [reflexivity|]. unfold lookupContent. cbn.
  subst id. apply (find_updateById (setRejected _ _ _)). eauto.
Qed.

Lemma approveAndSave_Ok_inv env id w c' w1 :
  approveAndSave env id w = (Ok c', w1) ->
  exists c, lookupContent id w = Some c /\ status c = PendingApproval /\
    c' = setApproved (now env (Datatypes.S (tick w))) c /\
    lookupContent id w1 = Some c' /\
    contents w1 = updateById c' (contents w).
Proof.
  intros H.
  unfold approveAndSave, findById, save, modifyStats, dateNow, dbOp, step, emit in H.
  munfold. cbn in H.
  repeat (case_step_in H; cbn in * ); simplify_eq.
  match goal with
  | H : find _ _ = Some ?c |- _ => exists c; pose proof (find_c_id _ _ _ H) as Hid
  end.
  unfold lookupContent. cbn.
  split; [done|]. split; [by destruct (status _)|]. split; [done|].
  split; [|done]. subst id.
  apply (find_updateById (setApproved _ _)). eauto.
Qed.

End ContentQueueFacts.

(** C3. [approveContent] on the sample item 2, whose status is [posted],
    throws and leaves the stored documents as they were; [rejectContent] on
    the same item does not fail: it returns success and the item is stored
    with status [rejected]. *)
Theorem C3_approve_guarded_reject_unguarded :
  let a := Marketing.approveContent Samples.env 2 Samples.world in
  let r := Marketing.rejectContent Samples.env 2 "" Samples.world in
  (Marketing.status <$> Marketing.lookupContent 2 Samples.world)
    = Some Marketing.Posted /\
  fst a = Throw (Err "Cannot approve content with status: posted") /\
  Marketing.contents (snd a) = Marketing.contents Samples.world /\
  fst r = Ok true /\
  (Marketing.status <$> Marketing.lookupContent 2 (snd r)) = Some Marketing.Rejected.
Proof. vm_compute. repeat split. Qed.





Section RegenerateFacts.
Import Marketing.

Lemma regenerateContent_spec env id w old product :
  lookupContent id w = Some old ->
  find (fun q => Nat.eqb (p_id q) (productId old)) (products w) = Some product ->
  (forall n, dbError env n = None) ->
  Forall (fun c => c_id c <> nextId w) (contents w) ->
  let doc := newRegenerated (nextId w) product old in
  let prior := updateById (setRegenerated old) (contents w) in
  exists new w',
    (match generateForProduct env (4 + tick w)%nat product with
     | Ok g =>
         regenerateContent env id w = (Ok new, w') /\ new = setGenerated g doc /\
         trace w' = (trace w ++ regenerationTrace id old w "pending_approval")%list
     | Throw e =>
         regenerateContent env id w = (Throw e, w') /\
         new = setFailed (message e) doc /\
         trace w' = (trace w ++ regenerationTrace id old w "failed")%list
     end) /\
    contents w' = (prior ++ [new])%list /\
    lookupContent id w' = Some (setRegenerated old).
Proof.
  intros Hold Hprod Hdb Hfresh doc prior.
  pose proof (find_c_id _ _ _ Hold) as Hid. unfold lookupContent in Hold.
  assert (Hpid : p_id product = productId old).
  { apply find_some in Hprod as [_ H]. by apply Nat.eqb_eq. }
  assert (Hfresh' : Forall (fun c => c_id c <> c_id doc) prior).
  { apply Forall_updateById; [done|]. cbn.
    rewrite Forall_forall in Hfresh. apply Hfresh. apply list_elem_of_In.
    by apply find_some in Hold as [? _]. }
  assert (Hl : find (fun c => Nat.eqb (c_id c) id) prior = Some (setRegenerated old)).
  { subst prior id. apply (find_updateById (setRegenerated old)). eauto. }
  assert (Hup : forall d, c_id d = c_id doc ->
                          updateById d (prior ++ [doc]) = (prior ++ [d])%list).
  { intros d Hd. rewrite updateById_app, updateById_fresh by (by rewrite Hd).
    unfold updateById. cbn. by rewrite Hd, Nat.eqb_refl. }
  unfold regenerateContent, findById, findProductById, save, insert, freshId,
    generate, withLocal, lift, getLocal, setLocal, modifyStats, addActivity,
    dateNow, dbOp, step, emit.
  munfold. simpl. rewrite ?Hdb. simpl. rewrite Hold. simpl. rewrite ?Hdb. simpl.
  rewrite Hprod. simpl. rewrite ?Hdb. simpl.
  change (newRegenerated (nextId w) product (setRegenerated old)) with doc.
  fold (updateById (setRegenerated old) (contents w)). fold prior.
  destruct (generateForProduct env _ product) as [g|e] eqn:Hg; simpl;
    rewrite ?Hdb; simpl;
    (eexists _, _; split; [split; [reflexivity|split; [reflexivity|]]|]); simpl.
  - unfold regenerationTrace. rewrite Hpid, Hid, <- !app_assoc. reflexivity.
  - split.
    + apply (Hup (setGenerated g doc)). reflexivity.
    + unfold lookupContent. simpl.
      fold (updateById (setGenerated g doc) (prior ++ [doc])).
      rewrite (Hup (setGenerated g doc)) by reflexivity. by apply find_app_l.
  - unfold regenerationTrace. rewrite Hpid, Hid, <- !app_assoc. reflexivity.
  - split.
    + apply (Hup (setFailed (message e) doc)). reflexivity.
    + unfold lookupContent. simpl.
      fold (updateById (setFailed (message e) doc) (prior ++ [doc])).
      rewrite (Hup (setFailed (message e) doc)) by reflexivity. by apply find_app_l.
Qed.

Lemma regenerateContent_missing_product env id w old :
  lookupContent id w = Some old ->
  find (fun q => Nat.eqb (p_id q) (productId old)) (products w) = None ->
  (forall n, dbError env n = None) ->
  exists w',
    regenerateContent env id w = (Throw (Err "Product not found"), w') /\
    contents w' = updateById (setRegenerated old) (contents w) /\
    lookupContent id w' = Some (setRegenerated old).
Proof.
  intros Hold Hprod Hdb.
  pose proof (find_c_id _ _ _ Hold) as Hid. unfold lookupContent in Hold.
  unfold regenerateContent, findById, findProductById, save, dbOp, step, emit.
  munfold. simpl. rewrite ?Hdb. simpl. rewrite Hold. simpl. rewrite ?Hdb. simpl.
  rewrite Hprod. simpl.
  eexists. split; [reflexivity|]. split; [reflexivity|].
  unfold lookupContent. simpl. subst id.
  apply (find_updateById (setRegenerated old)). eauto.
Qed.

End RegenerateFacts.

(** C9, counterexample.  Item 3 of the sample store refers to a product
    that is no longer in the catalogue: [regenerateContent] marks it
    rejected with reason [Regenerated], then fails with [Product not found],
    and the store holds as many items as before: no new item was created. *)
Lemma C9_counterexample_product_gone :
  let r := Marketing.regenerateContent Samples.env 3 Samples.world in
  fst r = Throw (Err "Product not found") /\
  (Marketing.status <$> Marketing.lookupContent 3 (snd r)) = Some Marketing.Rejected /\
  (Marketing.lookupContent 3 (snd r) ≫= Marketing.rejectionReason) = Some "Regenerated" /\
  List.length (Marketing.contents (snd r)) = List.length (Marketing.contents Samples.world).
Proof. vm_compute. repeat split. Qed.

(** C9, as amended.  Let [regenerateContent] be called on a stored item,
    with a database that answers and identifiers that are fresh.  The prior
    item is always stored as rejected with reason [Regenerated].  If its
    product is still in the catalogue, exactly one document is appended to
    the store: it belongs to the same product, refers back to the prior
    item, has its [regenerationCount] plus one, is first saved with status
    [generating], and ends as [pending_approval] when the generator
    succeeds (the call resolves to it) or as [failed] when the generator
    throws (the call rethrows).  If the product is gone, the call fails
    with [Product not found] and no document is added. *)
Theorem C9_regenerateContent
  (env : Marketing.Env) (id : nat) (w : Marketing.World)
  (old : Marketing.MarketingContent) :
  Marketing.lookupContent id w = Some old ->
  (forall n, Marketing.dbError env n = None) ->
  Forall (fun c => Marketing.c_id c <> Marketing.nextId w) (Marketing.contents w) ->
  let prior := Marketing.updateById (Marketing.setRegenerated old) (Marketing.contents w) in
  Marketing.status (Marketing.setRegenerated old) = Marketing.Rejected /\
  Marketing.rejectionReason (Marketing.setRegenerated old) = Some "Regenerated" /\
  match find (fun q => Nat.eqb (Marketing.p_id q) (Marketing.productId old))
             (Marketing.products w) with
  | Some product =>
      exists new w',
        Marketing.contents w' = (prior ++ [new])%list /\
        Marketing.lookupContent id w' = Some (Marketing.setRegenerated old) /\
        Marketing.c_id new = Marketing.nextId w /\
        Marketing.productId new = Marketing.productId old /\
        Marketing.regeneratedFrom new = Some id /\
        Marketing.regenerationCount new = Marketing.regenerationCount old + 1 /\
        match Marketing.generateForProduct env (4 + Marketing.tick w)%nat product with
        | Ok g =>
            Marketing.regenerateContent env id w = (Ok new, w') /\
            Marketing.status new = Marketing.PendingApproval /\
            Marketing.trace w'
            = (Marketing.trace w
               ++ Marketing.regenerationTrace id old w "pending_approval")%list
        | Throw e =>
            Marketing.regenerateContent env id w = (Throw e, w') /\
            Marketing.status new = Marketing.Failed /\
            Marketing.trace w'
            = (Marketing.trace w ++ Marketing.regenerationTrace id old w "failed")%list
        end
  | None =>
      exists w',
        Marketing.regenerateContent env id w = (Throw (Err "Product not found"), w') /\
        Marketing.contents w' = prior /\
        Marketing.lookupContent id w' = Some (Marketing.setRegenerated old)
  end.
Proof.
  intros Hold Hdb Hfresh prior.
  split; [reflexivity|]. split; [reflexivity|].
  destruct (find _ (Marketing.products w)) as [product|] eqn:Hprod.
  - destruct (regenerateContent_spec env id w old product Hold Hprod Hdb Hfresh)
      as (new & w' & Hres & Hc & Hl).
    assert (Hpid : Marketing.p_id product = Marketing.productId old).
    { apply find_some in Hprod as [_ H]. by apply Nat.eqb_eq. }
    pose proof (find_c_id _ _ _ Hold) as Hid.
    exists new, w'. split; [exact Hc|]. split; [exact Hl|].
    destruct (Marketing.generateForProduct env _ product) as [g|e];
      destruct Hres as (Hr & -> & Ht); cbn; rewrite orZ_0;
      repeat split; try done; by rewrite Hid.
  - apply regenerateContent_missing_product; done.
Qed.

Lemma C9_regenerateContent_witness :
  exists new w',
    Marketing.regenerateContent Samples.env 1 Samples.world = (Ok new, w') /\
    Marketing.status new = Marketing.PendingApproval /\
    Marketing.regeneratedFrom new = Some 1%nat /\
    List.length (Marketing.contents w') = 4%nat.
Proof.
  assert (Hold : Marketing.lookupContent 1 Samples.world
                 = Some (Samples.content 1 7 Marketing.PendingApproval))
    by (vm_compute; reflexivity).
  assert (Hdb : forall n, Marketing.dbError Samples.env n = None) by reflexivity.
  assert (Hfresh : Forall (fun c => Marketing.c_id c <> Marketing.nextId Samples.world)
                          (Marketing.contents Samples.world)).
  { repeat constructor; cbn; lia. }
  destruct (C9_regenerateContent Samples.env 1 Samples.world _ Hold Hdb Hfresh)
    as (_ & _ & H).
  cbn in H. destruct H as (new & w' & Hc & _ & _ & _ & Hfrom & _ & Hr & Hs & _).
  exists new, w'. split; [exact Hr|]. split; [exact Hs|]. split; [exact Hfrom|].
  rewrite Hc. reflexivity.
Defined.

(** ** The pipeline: validation and scoring *)

Section ValidationFacts.
Import Pipeline.

Lemma Qltb_lt x y : Qltb x y = true <-> (x < y)%Q.
Proof.
  unfold Qltb. rewrite negb_true_iff. split.
  - intros H. apply Qnot_le_lt. intros Hle. apply Qle_bool_iff in Hle. congruence.
  - intros H. destruct (Qle_bool y x) eqn:E; [|done].
    apply Qle_bool_iff in E. exfalso. eapply Qlt_not_le; eauto.
Qed.

Lemma Qltb_ge x y : Qltb x y = false <-> (y <= x)%Q.
Proof.
  unfold Qltb. rewrite negb_false_iff. apply Qle_bool_iff.
Qed.

Lemma verdict_no_cost p :
  (costUsd p <= 0)%Q -> verdict p = RejectWith "No cost data".
Proof.
  intros H. unfold verdict. apply Qle_bool_iff in H. by rewrite H.
Qed.

Lemma isCandidate_cost p : isCandidate p = true -> (0 < costUsd p)%Q.
Proof.
  unfold isCandidate. rewrite !andb_true_iff. intros (_ & H). by apply Qltb_lt.
Qed.

Lemma verdict_passed p :
  (0 < costUsd p)%Q -> (20 <= profitMarginPercent p)%Q -> supplierUrl p <> "" ->
  verdict p = if (Qle_bool 30 (researchScore p) || Qle_bool 35 (profitMarginPercent p))%bool
              then Approve else Decline.
Proof.
  intros Hc Hm Hs. unfold verdict.
  assert (Qle_bool (costUsd p) 0 = false) as ->.
  { destruct (Qle_bool (costUsd p) 0) eqn:E; [|done]. apply Qle_bool_iff in E.
    exfalso. eapply Qlt_not_le; eauto. }
  assert (Qltb (profitMarginPercent p) 20 = false) as -> by by apply Qltb_ge.
  assert (truthyStr (supplierUrl p) = true) as ->.
  { unfold truthyStr. apply negb_true_iff. by apply String.eqb_neq. }
  reflexivity.
Qed.

End ValidationFacts.

Section ValidateOneFacts.
Import Pipeline.
Variable env : Env.

(** What one turn of the validation loop does, by the verdict. *)
Lemma validateOne_spec c p run w :
  dbError env (tick w) = None ->
  match verdict p with
  | RejectWith why =>
      fst (validateOne env c p (run, w)) = Ok (fst c, snd c + 1) /\
      products (snd (snd (validateOne env c p (run, w))))
      = saveProductIn (setRejectionReason why p) (products w)
  | Approve =>
      fst (validateOne env c p (run, w)) = Ok (fst c + 1, snd c) /\
      products (snd (snd (validateOne env c p (run, w))))
      = saveProductIn (setApproved (now env (tick w)) (runId run) p) (products w)
  | Decline =>
      fst (validateOne env c p (run, w)) = Ok (fst c, snd c + 1) /\
      products (snd (snd (validateOne env c p (run, w)))) = products w
  end.
Proof.
  intros Hdb. destruct c as [v r]. unfold validateOne.
  destruct (verdict p); unfold saveProduct, dbOp, step, dateNow, lift, getLocal;
    munfold; cbn; rewrite ?Hdb; cbn; done.
Qed.

(** The candidate query never returns a product without a positive cost. *)
Lemma findProducts_candidates n w l p :
  fst (findProducts env isCandidate n w) = Ok l -> In p l -> (0 < costUsd p)%Q.
Proof.
  unfold findProducts, dbOp, step. munfold. cbn.
  destruct (dbError env (tick w)); cbn; [done|].
  intros [= <-] Hin. apply isCandidate_cost.
  assert (In p (List.filter isCandidate (products w))) as Hf.
  { destruct n; [|done]. apply list_elem_of_In. apply list_elem_of_In in Hin.
    eapply subseteq_take; eauto. }
  apply List.filter_In in Hf. tauto.
Qed.

End ValidateOneFacts.

(** C6.  A candidate with a positive cost, a margin of at least 20% and a
    supplier URL is approved by the validation loop exactly when its
    research score is at least 30 or its margin at least 35%: then the
    loop stores it approved, stamped with the time and the run's id, and
    counts it as validated; otherwise it counts it as rejected and stores
    nothing. *)
Theorem C6_approval_rule (env : Pipeline.Env) (p : Pipeline.Product)
  (c : Z * Z) (run : Pipeline.PipelineRun) (w : Pipeline.World) :
  (0 < Pipeline.costUsd p)%Q ->
  (20 <= Pipeline.profitMarginPercent p)%Q ->
  Pipeline.supplierUrl p <> "" ->
  Pipeline.dbError env (Pipeline.tick w) = None ->
  let bar := (30 <= Pipeline.researchScore p)%Q \/ (35 <= Pipeline.profitMarginPercent p)%Q in
  let r := Pipeline.validateOne env c p (run, w) in
  (Pipeline.verdict p = Pipeline.Approve <-> bar) /\
  (bar ->
   fst r = Ok (fst c + 1, snd c) /\
   Pipeline.products (snd (snd r))
   = Pipeline.saveProductIn
       (Pipeline.setApproved (Pipeline.now env (Pipeline.tick w)) (Pipeline.runId run) p)
       (Pipeline.products w) /\
   Pipeline.approved
     (Pipeline.setApproved (Pipeline.now env (Pipeline.tick w)) (Pipeline.runId run) p)
   = true) /\
  (~ bar ->
   fst r = Ok (fst c, snd c + 1) /\
   Pipeline.products (snd (snd r)) = Pipeline.products w).
Proof.
  intros Hc Hm Hs Hdb bar r.
  assert (Hor : (Qle_bool 30 (Pipeline.researchScore p)
                 || Qle_bool 35 (Pipeline.profitMarginPercent p))%bool = true <-> bar).
  { unfold bar. rewrite orb_true_iff, !Qle_bool_iff. reflexivity. }
  pose proof (validateOne_spec env c p run w Hdb) as Hv. fold r in Hv.
  rewrite (verdict_passed p Hc Hm Hs) in *.
  destruct (Qle_bool 30 _ || Qle_bool 35 _)%bool.
  - assert bar as Hb by by apply Hor.
    split; [done|]. split; [by intros _; destruct Hv|]. by intros Hn.
  - assert (~ bar) as Hb by (intros Hb; apply Hor in Hb; discriminate).
    split; [split; [discriminate|done]|]. split; [done|]. by intros _.
Qed.

(** The item of the specification's example: cost $8, margin 40%, score
    10, supplier URL present. *)
Lemma C6_approval_rule_witness :
  Pipeline.verdict Samples.marginOnly = Pipeline.Approve /\
  fst (Pipeline.validateOne Samples.pipelineEnv (0, 0) Samples.marginOnly
         (Samples.run, Samples.pipelineWorld)) = Ok (1, 0).
Proof.
  pose proof (C6_approval_rule Samples.pipelineEnv Samples.marginOnly (0, 0)
                Samples.run Samples.pipelineWorld) as H.
  destruct H as (Hv & Hyes & _).
  - reflexivity.
  - discriminate.
  - discriminate.
  - reflexivity.
  - assert (35 <= Pipeline.profitMarginPercent Samples.marginOnly)%Q as Hm
      by discriminate.
    split.
    + apply Hv. right. exact Hm.
    + destruct Hyes as (Hr & _); [right; exact Hm|exact Hr].
Defined.

(** C5.  An item with cost 0 is to be rejected with the reason "No cost
    data"; the code does not do it.  A stored item with cost 0 (margin
    50%, score 90) goes through a whole run, which completes, and is still
    neither approved nor rejected; the run counts no rejection. *)
Theorem C5_zero_cost_never_rejected :
  let r := Pipeline.executePipeline Samples.pipelineEnv Samples.run Samples.pipelineWorld in
  (Pipeline.costUsd Samples.zeroCost == 0)%Q /\
  In Samples.zeroCost (Pipeline.products Samples.pipelineWorld) /\
  fst (fst r) = Ok tt /\
  Pipeline.status (snd (fst r)) = Pipeline.Completed /\
  find (fun p => Nat.eqb (Pipeline.p_id p) 1) (Pipeline.products (snd r))
  = Some Samples.zeroCost /\
  Pipeline.rejectionReason Samples.zeroCost = "" /\
  Pipeline.productsRejected (Pipeline.results (snd (fst r))) = 0.
Proof. vm_compute. repeat split; auto. Qed.

(** Why: the validation loop does reject an item whose cost is not
    positive with the reason "No cost data", before looking at its margin
    or its score; but the candidate query selects only items with a
    positive cost, so such an item is never handed to the loop and the
    branch is out of reach. *)
Lemma no_cost_branch_out_of_reach (env : Pipeline.Env) (p : Pipeline.Product)
  (c : Z * Z) (run : Pipeline.PipelineRun) (w : Pipeline.World) :
  (Pipeline.costUsd p <= 0)%Q ->
  Pipeline.dbError env (Pipeline.tick w) = None ->
  let r := Pipeline.validateOne env c p (run, w) in
  (fst r = Ok (fst c, snd c + 1) /\
   Pipeline.products (snd (snd r))
   = Pipeline.saveProductIn (Pipeline.setRejectionReason "No cost data" p)
                            (Pipeline.products w) /\
   Pipeline.rejectionReason (Pipeline.setRejectionReason "No cost data" p)
   = "No cost data" /\
   Pipeline.approved (Pipeline.setRejectionReason "No cost data" p)
   = Pipeline.approved p) /\
  Pipeline.isCandidate p = false /\
  (forall n w0 l, fst (Pipeline.findProducts env Pipeline.isCandidate n w0) = Ok l ->
                  ~ In p l).
Proof.
  intros Hc Hdb r.
  pose proof (validateOne_spec env c p run w Hdb) as Hv. fold r in Hv.
  rewrite (verdict_no_cost p Hc) in Hv. destruct Hv as [H1 H2].
  split; [done|]. split.
  - destruct (Pipeline.isCandidate p) eqn:E; [|done].
    apply isCandidate_cost in E. exfalso. eapply Qlt_not_le; eauto.
  - intros n w0 l Hl Hin. apply (findProducts_candidates env n w0 l p Hl) in Hin.
    eapply Qlt_not_le; eauto.
Qed.

Lemma no_cost_branch_out_of_reach_witness :
  fst (Pipeline.validateOne Samples.pipelineEnv (0, 0) Samples.zeroCost
         (Samples.run, Samples.pipelineWorld)) = Ok (0, 1) /\
  Pipeline.isCandidate Samples.zeroCost = false.
Proof.
  pose proof (no_cost_branch_out_of_reach Samples.pipelineEnv Samples.zeroCost (0, 0)
                Samples.run Samples.pipelineWorld) as H.
  destruct H as ((Hr & _) & Hc & _).
  - discriminate.
  - reflexivity.
  - split; [exact Hr|exact Hc].
Defined.

(** ** The pipeline: what an execution may touch *)

Section RespectsFacts.
Context {S : Type} (R : S -> S -> Prop) `{!PreOrder R}.

Lemma respects_ret {A} (a : A) : respects R (ret a).
Proof. intros s. reflexivity. Qed.
Lemma respects_throw {A} e : respects R (@throw S A e).
Proof. intros s. reflexivity. Qed.
Lemma respects_gets {A} (g : S -> A) : respects R (gets g).
Proof. intros s. reflexivity. Qed.
Lemma respects_bind {A C} (m : M S A) (k : A -> M S C) :
  respects R m -> (forall a, respects R (k a)) -> respects R (bind m k).
Proof.
  intros Hm Hk s. unfold bind. specialize (Hm s).
  destruct (m s) as [[a|e] s1]; cbn in *; [|done].
  etrans; [exact Hm|apply Hk].
Qed.
Lemma respects_tryCatch {A} (m : M S A) h :
  respects R m -> (forall e, respects R (h e)) -> respects R (tryCatch m h).
Proof.
  intros Hm Hh s. unfold tryCatch. specialize (Hm s).
  destruct (m s) as [[a|e] s1]; cbn in *; [done|].
  etrans; [exact Hm|apply Hh].
Qed.
Lemma respects_forEach {A} (l : list A) (body : A -> M S unit) :
  (forall x, respects R (body x)) -> respects R (forEach l body).
Proof.
  intros H. induction l as [|x l IH]; cbn.
  - apply respects_ret.
  - apply respects_bind; auto.
Qed.
Lemma respects_foldM {A C} (body : C -> A -> M S C) (l : list A) :
  (forall c x, respects R (body c x)) -> forall c, respects R (foldM body c l).
Proof.
  intros H. induction l as [|x l IH]; intros c; cbn.
  - apply respects_ret.
  - apply respects_bind; auto.
Qed.
End RespectsFacts.

Section FrameFacts.
Import Pipeline.


Lemma Forall2_same {A} (P : A -> A -> Prop) l : (forall x, P x x) -> Forall2 P l l.
Proof. intros H. induction l; constructor; auto. Qed.

Global Instance frame_preorder : PreOrder frame.
Proof.
  split.
  - intros s. split; [done|]. split; [by apply Forall2_same|]. split; [done|].
    exists []. by rewrite app_nil_r.
  - intros s1 s2 s3 (Hid1 & H1 & Hn1 & evs1 & Ht1 & He1) (Hid2 & H2 & Hn2 & evs2 & Ht2 & He2).
    split; [congruence|]. split; [|split; [lia|]].
    + clear -H1 H2 Hid1. revert H2. generalize (runs (snd s3)).
      induction H1 as [|x y l l' [Hxy Hne] _ IH]; intros l3 H3; inversion H3; subst; constructor.
      * destruct H1 as [Hyz Hne']. split; [congruence|].
        intros Hx. rewrite Hne'; [by apply Hne|]. rewrite Hid1. congruence.
      * by apply IH.
    + exists (evs1 ++ evs2)%list. rewrite Ht2, Ht1, app_assoc. split; [done|].
      by apply Forall_app.
Qed.

Lemma frame_world (r r' : PipelineRun) (w w' : World) evs :
  r_id r' = r_id r -> runs w' = runs w -> (nextId w <= nextId w')%nat ->
  trace w' = (trace w ++ evs)%list -> Forall notHook evs ->
  frame (r, w) (r', w').
Proof.
  intros Hid Hr Hn Ht He. split; [done|]. cbn. rewrite Hr.
  split; [by apply Forall2_same|]. split; [done|]. by exists evs.
Qed.

Variable env : Env.

Lemma frame_onRun f : (forall r, r_id (f r) = r_id r) -> respects frame (onRun f).
Proof.
  intros H [r w]. cbn. apply frame_world with []; try done. by rewrite app_nil_r.
Qed.

Lemma frame_getLocal : respects frame (@getLocal World PipelineRun).
Proof. intros s. reflexivity. Qed.

Lemma frame_lift_dateNow : respects frame (lift (L:=PipelineRun) (dateNow env)).
Proof. intros [r w]. reflexivity. Qed.

Lemma frame_pushLog lvl msg : respects frame (pushLog env lvl msg).
Proof.
  unfold pushLog. apply respects_bind; [apply _|apply frame_lift_dateNow|].
  intros t. by apply frame_onRun.
Qed.

Lemma frame_pushError st msg : respects frame (pushError env st msg).
Proof.
  unfold pushError. apply respects_bind; [apply _|apply frame_lift_dateNow|].
  intros t. by apply frame_onRun.
Qed.

Lemma frame_onResults f : respects frame (onResults f).
Proof. by apply frame_onRun. Qed.

Lemma frame_runSave : respects frame (runSave env).
Proof.
  intros [r w]. unfold runSave, saveRun, dbOp, step, lift, getLocal. munfold. cbn.
  destruct (dbError env (tick w)); cbn.
  - apply frame_world with []; try done. by rewrite app_nil_r.
  - split; [done|]. cbn. split; [|split; [done|exists []; by rewrite app_nil_r]].
    unfold saveRunIn. induction (runs w) as [|x l IH]; cbn; constructor; [|done].
    destruct (Nat.eqb_spec (r_id x) (r_id r)); [|done].
    split; [done|]. intros Hne. done.
Qed.

Lemma frame_lift {A} (m : M World A) : quiet m -> respects frame (lift (L:=PipelineRun) m).
Proof.
  intros H [r w]. destruct (H w) as (Hr & Hn & evs & Ht & He).
  unfold lift. cbn. by apply frame_world with evs.
Qed.

Lemma quiet_dbOp : quiet (dbOp env).
Proof.
  intros w. unfold dbOp, step. munfold. cbn.
  destruct (dbError env (tick w)); cbn; (split; [done|split; [done|exists []; by rewrite app_nil_r]]).
Qed.

Lemma quiet_findProducts f n : quiet (findProducts env f n).
Proof.
  intros w. unfold findProducts, dbOp, step. munfold. cbn.
  destruct (dbError env (tick w)); cbn; (split; [done|split; [done|exists []; by rewrite app_nil_r]]).
Qed.

Lemma quiet_saveProduct p : quiet (saveProduct env p).
Proof.
  intros w. unfold saveProduct, dbOp, step. munfold. cbn.
  destruct (dbError env (tick w)); cbn; (split; [done|split; [done|exists []; by rewrite app_nil_r]]).
Qed.

Lemma quiet_insertProduct p : quiet (insertProduct env p).
Proof.
  intros w. unfold insertProduct, dbOp, step. munfold. cbn.
  destruct (dbError env (tick w)); cbn; (split; [done|split; [done|exists []; by rewrite app_nil_r]]).
Qed.

Lemma quiet_freshId : quiet freshId.
Proof.
  intros w. cbn. split; [done|]. split; [lia|]. exists []. by rewrite app_nil_r.
Qed.

Lemma quiet_log lvl msg : quiet (log lvl msg).
Proof.
  intros w. cbn. split; [done|]. split; [done|]. eexists. split; [done|].
  by repeat constructor.
Qed.

Lemma quiet_call {A} provider subject (answer : nat -> Outcome A) :
  provider <> "marketing.onProductLive" -> quiet (call provider subject answer).
Proof.
  intros Hp w. unfold call, emit, step. munfold. cbn.
  destruct (answer (tick w)); cbn; (split; [done|split; [done|eexists; split; [done|by repeat constructor]]]).
Qed.

Lemma quiet_callOnCatalogue provider answer :
  provider <> "marketing.onProductLive" -> quiet (callOnCatalogue provider answer).
Proof.
  intros Hp w. unfold callOnCatalogue, emit, step. munfold. cbn.
  destruct (fst (answer (tick w) (products w))); cbn;
    (split; [done|split; [done|eexists; split; [done|by repeat constructor]]]).
Qed.

Lemma frame_ret {A} (a : A) : respects frame (@ret Exec A a).
Proof. apply respects_ret, _. Qed.
Lemma frame_throw {A} e : respects frame (@throw Exec A e).
Proof. apply respects_throw, _. Qed.
Lemma frame_bind {A C} (m : M Exec A) (k : A -> M Exec C) :
  respects frame m -> (forall a, respects frame (k a)) -> respects frame (bind m k).
Proof. apply respects_bind, _. Qed.
Lemma frame_tryCatch {A} (m : M Exec A) h :
  respects frame m -> (forall e, respects frame (h e)) -> respects frame (tryCatch m h).
Proof. apply respects_tryCatch, _. Qed.
Lemma frame_foldM {A C} (body : C -> A -> M Exec C) (l : list A) :
  (forall c x, respects frame (body c x)) -> forall c, respects frame (foldM body c l).
Proof. apply respects_foldM, _. Qed.
Lemma frame_forEach {A} (l : list A) (body : A -> M Exec unit) :
  (forall x, respects frame (body x)) -> respects frame (forEach l body).
Proof. apply respects_forEach, _. Qed.

Ltac frame_step :=
  lazymatch goal with
  | |- respects _ (ret _) => apply frame_ret
  | |- respects _ (throw _) => apply frame_throw
  | |- respects _ getLocal => apply frame_getLocal
  | |- respects _ (pushLog _ _ _) => apply frame_pushLog
  | |- respects _ (pushError _ _ _) => apply frame_pushError
  | |- respects _ (onResults _) => apply frame_onResults
  | |- respects _ (runSave _) => apply frame_runSave
  | |- respects _ (onRun _) => apply frame_onRun; intros ?; reflexivity
  | |- respects _ (lift (dateNow _)) => apply frame_lift_dateNow
  | |- respects _ (lift (findProducts _ _ _)) => apply frame_lift, quiet_findProducts
  | |- respects _ (lift (saveProduct _ _)) => apply frame_lift, quiet_saveProduct
  | |- respects _ (lift (insertProduct _ _)) => apply frame_lift, quiet_insertProduct
  | |- respects _ (lift freshId) => apply frame_lift, quiet_freshId
  | |- respects _ (lift (log _ _)) => apply frame_lift, quiet_log
  | |- respects _ (lift (call _ _ _)) => apply frame_lift, quiet_call; discriminate
  | |- respects _ (lift (callOnCatalogue _ _)) =>
      apply frame_lift, quiet_callOnCatalogue; discriminate
  | |- respects _ (bind _ _) => apply frame_bind; [|intros ?]
  | |- respects _ (tryCatch _ _) => apply frame_tryCatch; [|intros ?]
  | |- respects _ (foldM _ _ _) => apply frame_foldM; intros ? ?
  | |- respects _ (forEach _ _) => apply frame_forEach; intros ?
  | |- respects _ (if ?b then _ else _) => destruct b
  | |- respects _ (match ?x with _ => _ end) => destruct x
  end.

Ltac frame_tac := repeat frame_step.

Lemma frame_start : respects frame (start env).
Proof. unfold start. frame_tac. Qed.
Lemma frame_stage1 : respects frame (stage1 env).
Proof. unfold stage1. frame_tac. Qed.
Lemma frame_stage2 : respects frame (stage2 env).
Proof. unfold stage2. frame_tac. Qed.
Lemma frame_stage3 : respects frame (stage3 env).
Proof. unfold stage3. frame_tac. Qed.
Lemma frame_validateOne c p : respects frame (validateOne env c p).
Proof. unfold validateOne. destruct c. frame_tac. Qed.
Lemma frame_stage4 : respects frame (stage4 env).
Proof.
  unfold stage4. frame_tac. apply frame_validateOne.
Qed.
Lemma frame_stage5 : respects frame (stage5 env).
Proof. unfold stage5, listOne. frame_tac. Qed.
Lemma frame_stage6 : respects frame (stage6 env).
Proof. unfold stage6. frame_tac. Qed.
Lemma frame_complete t : respects frame (complete env t).
Proof. unfold complete. frame_tac. Qed.
Lemma frame_autoList : respects frame (autoList env).
Proof. unfold autoList. frame_tac. Qed.
Lemma frame_notifyChannels : respects frame (notifyChannels env).
Proof. unfold notifyChannels. frame_tac. Qed.

Lemma frame_pipelineBody t : respects frame (pipelineBody env t).
Proof.
  unfold pipelineBody.
  apply frame_bind; [apply frame_start|intros ?].
  apply frame_bind; [apply frame_stage1|intros ?].
  apply frame_bind; [apply frame_stage2|intros ?].
  apply frame_bind; [apply frame_stage3|intros ?].
  apply frame_bind; [apply frame_stage4|intros ?].
  apply frame_bind; [apply frame_stage5|intros ?].
  apply frame_bind; [apply frame_stage6|intros ?].
  apply frame_bind; [apply frame_complete|intros ?].
  apply frame_bind; [apply frame_autoList|intros ?].
  apply frame_bind; [apply frame_notifyChannels|intros ?].
  apply frame_lift, quiet_log.
Qed.

Lemma frame_onFailure t e : respects frame (onFailure env t e).
Proof. unfold onFailure. frame_tac. Qed.

Lemma frame_executePipeline run w :
  frame (run, w) (snd (fst (executePipeline env run w)), snd (executePipeline env run w)).
Proof.
  unfold executePipeline. cbn.
  pose proof (frame_tryCatch _ _ (frame_pipelineBody (now env (tick w)))
                (frame_onFailure (now env (tick w))) (run, w)) as H.
  by destruct (snd _).
Qed.

End FrameFacts.

(** ** The pipeline: stage isolation *)

Section PieceFacts.
Import Pipeline.

Lemma piece_bind {A B} (m : M Exec A) (k : A -> M Exec B) c1 b1 c2 b2 :
  piece m c1 b1 -> (forall a, piece (k a) c2 b2) ->
  piece (bind m k) (c1 ++ c2) (b1 ++ b2).
Proof.
  intros Hm Hk s.
  destruct (Hm s) as (a & s1 & evs1 & msgs1 & E1 & Ht1 & Hc1 & He1 & Hl1 & Hb1).
  destruct (Hk a s1) as (b & s2 & evs2 & msgs2 & E2 & Ht2 & Hc2 & He2 & Hl2 & Hb2).
  exists b, s2, (evs1 ++ evs2)%list, (msgs1 ++ msgs2)%list.
  rewrite (bind_Ok _ _ _ _ _ E1), E2, Ht2, Ht1, He2, He1, Hl2, Hl1.
  rewrite !omap_app, <- !app_assoc, Hc1, Hc2.
  repeat split; try done. by apply sublist_app.
Qed.

Lemma piece_ret {A} (a : A) : piece (ret a) [] [].
Proof.
  intros s. exists a, s, [], []. rewrite !app_nil_r. repeat split; try done.
Qed.


Variable env : Env.
Hypothesis Hdb : forall n, dbError env n = None.

Ltac exec_unfold :=
  unfold pushLog, pushError, onResults, onRun, runSave, saveRun, saveProduct,
    insertProduct, findProducts, call, callOnCatalogue, log, emit, dbOp, step,
    dateNow, freshId, lift, getLocal, setLocal;
  munfold.







Lemma piece_lift_dateNow : piece (lift (L:=PipelineRun) (dateNow env)) [] [].
Proof.
  intros [r w]. exec_unfold. cbn. eexists _, _, [], []. split; [reflexivity|].
  cbn. rewrite !app_nil_r. done.
Qed.




Lemma piece_saveProduct p : piece (lift (L:=PipelineRun) (saveProduct env p)) [] [].
Proof.
  intros [r w]. exec_unfold. cbn. rewrite Hdb. cbn.
  eexists _, _, [], []. split; [reflexivity|]. cbn. rewrite !app_nil_r. done.
Qed.












Ltac piece_seq :=
  repeat first
    [ apply (piece_bind _ _ [] [] _ _); [|intros ?]
    | apply piece_ret ].











End PieceFacts.

Section StatusFacts.
Import Pipeline.
Variable env : Env.








Lemma onFailure_throws t e s :
  exists e' s', onFailure env t e s = (Throw e', s') /\ runStatus s' = FailedRun.
Proof.
  destruct s as [r w]. unfold onFailure, pushLog, runSave, saveRun, onRun, dbOp, step,
    dateNow, lift, getLocal, setLocal. munfold. cbn.
  destruct (dbError env (tick w)); cbn; eexists _, _; (split; [reflexivity|reflexivity]).
Qed.



End StatusFacts.

Section StageIsolation.
Import Pipeline.



(** The same run, evaluated: the five later stages go on, and the one
    error recorded is the scan's. *)
Example scan_timeout_run :
  let r := executePipeline Samples.pipelineEnvScanDown Samples.run
                           Samples.pipelineWorld in
  fst (fst r) = Ok tt /\
  status (snd (fst r)) = Completed /\
  map entry (errors (results (snd (fst r)))) = [("trend_discovery", "timeout")] /\
  omap stageCall (trace (snd r)) = stageProviders /\
  productsValidated (results (snd (fst r))) = 1 /\
  productsListed (results (snd (fst r))) = 1.
Proof. vm_compute. repeat split. Qed.

(** A run whose first save fails: the exception leaves every stage
    boundary, the run is marked failed and the error comes back. *)
Example save_failure_run :
  let r := executePipeline Samples.pipelineEnvDbDown Samples.run
                           Samples.pipelineWorld in
  fst (fst r) = Throw (Err "db down") /\
  status (snd (fst r)) = FailedRun /\
  omap stageCall (trace (snd r)) = [].
Proof. vm_compute. repeat split. Qed.

End StageIsolation.

(** ** The pipeline: what completion notifies *)

Section CompletionNotifications.
Import Pipeline.

(** C7.  No execution of the pipeline calls the marketing hook
    [onProductLive], whatever it lists.  On the sample catalogue the run
    completes having put one item on the storefront channel and
    auto-listed another, sends the summary to the alerting bridge once,
    and makes no call to [marketing.onProductLive]; the auto-list webhook,
    which makes the same sweep, makes that call for the item it lists.
    With the bridge down the run still returns and is completed, the
    failure being logged. *)
Theorem C7_completion_notifications :
  (forall env run w,
     exists evs, trace (snd (executePipeline env run w)) = (trace w ++ evs)%list /\
                 Forall notHook evs) /\
  (let r := executePipeline Samples.pipelineEnv Samples.run Samples.pipelineWorld in
   fst (fst r) = Ok tt /\
   status (snd (fst r)) = Completed /\
   productsListed (results (snd (fst r))) = 1 /\
   productsAutoListed (results (snd (fst r))) = 1 /\
   callsTo "clawdbotBridge.notify" (trace (snd r))
   = [EvCall "clawdbotBridge.notify" "pipeline_complete" None] /\
   callsTo "marketing.onProductLive" (trace (snd r)) = []) /\
  callsTo "marketing.onProductLive"
    (trace (snd (autoListWebhook Samples.pipelineEnv Samples.pipelineWorld)))
  = [EvCall "marketing.onProductLive" "Wireless Bluetooth Earbuds" None] /\
  (let r := executePipeline Samples.pipelineEnvNotifyDown Samples.run
                            Samples.pipelineWorld in
   fst (fst r) = Ok tt /\
   status (snd (fst r)) = Completed /\
   callsTo "clawdbotBridge.notify" (trace (snd r))
   = [EvCall "clawdbotBridge.notify" "pipeline_complete" (Some "bridge unreachable")] /\
   In (EvLog "warn" "Pipeline notification failed") (trace (snd r))).
Proof.
  split.
  - intros env run w.
    destruct (frame_executePipeline env run w) as (_ & _ & _ & evs & Ht & He).
    by exists evs.
  - vm_compute. repeat split; auto 20.
Qed.

End CompletionNotifications.

(** ** The pipeline: one run at a time *)

Section SingletonFacts.
Import Pipeline.
Variable env : Env.

Lemma find_None_filter {A} (f : A -> bool) l : find f l = None -> List.filter f l = [].
Proof.
  induction l as [|x l IH]; cbn; [done|]. destruct (f x); [done|auto].
Qed.

Lemma find_Some_filter {A} (f : A -> bool) l a :
  find f l = Some a -> exists l', List.filter f l = a :: l'.
Proof.
  induction l as [|x l IH]; cbn; [done|]. destruct (f x) eqn:E.
  - intros [= ->]. eauto.
  - auto.
Qed.

Lemma wellFormed_append w r :
  wellFormed w -> find isActiveRun (runs w) = None -> r_id r = nextId w ->
  forall w', runs w' = (runs w ++ [r])%list -> nextId w' = S (nextId w) -> wellFormed w'.
Proof.
  intros (Hnd & Hlt & Hact) Hnone Hid w' Hr Hn. unfold wellFormed, activeRuns.
  rewrite Hr, Hn. split; [|split].
  - rewrite map_app. cbn. apply NoDup_app. split; [done|]. split; [|apply NoDup_singleton].
    intros x Hx Hin. apply list_elem_of_singleton in Hin. subst x.
    apply list_elem_of_fmap in Hx as (y & Hy & Hin).
    rewrite Forall_forall in Hlt. specialize (Hlt _ Hin). lia.
  - apply Forall_app. split.
    + eapply Forall_impl; [exact Hlt|]. cbn. intros; lia.
    + constructor; [lia|constructor].
  - rewrite List.filter_app, List.length_app. fold isActiveRun.
    rewrite (find_None_filter _ _ Hnone). cbn. destruct (isActiveRun r); cbn; lia.
Qed.

Lemma wellFormed_same w w' :
  wellFormed w -> runs w' = runs w -> (nextId w <= nextId w')%nat -> wellFormed w'.
Proof.
  intros (Hnd & Hlt & Hact) Hr Hn. unfold wellFormed, activeRuns. rewrite Hr.
  split; [done|]. split; [|done].
  eapply Forall_impl; [exact Hlt|]. cbn. intros; lia.
Qed.

Lemma admission_spec type by_ maxp w :
  match find isActiveRun (runs w) with
  | Some a =>
      runs (snd (admission env type by_ maxp w)) = runs w /\
      nextId (snd (admission env type by_ maxp w)) = nextId w /\
      (dbError env (tick w) = None ->
       fst (admission env type by_ maxp w) = Ok (Conflict (runId a)))
  | None =>
      (runs (snd (admission env type by_ maxp w)) = runs w /\
       (nextId w <= nextId (snd (admission env type by_ maxp w)))%nat /\
       exists msg, fst (admission env type by_ maxp w) = Ok (ServerError msg)) \/
      (exists r, r_id r = nextId w /\ status r = Running /\
         runs (snd (admission env type by_ maxp w)) = (runs w ++ [r])%list /\
         nextId (snd (admission env type by_ maxp w)) = S (nextId w) /\
         fst (admission env type by_ maxp w) = Ok (Started (runId r)))
  end.
Proof.
  unfold admission, findActiveRun, insertRun, dbOp, step, freshId, dateNow. munfold. cbn.
  fold isActiveRun.
  destruct (find isActiveRun (runs w)) as [a|] eqn:Hf.
  - destruct (dbError env (tick w)); cbn; rewrite ?Hf; cbn; done.
  - destruct (dbError env (tick w)); cbn; rewrite ?Hf; cbn; [left; eauto|].
    destruct (dbError env (S (tick w))); cbn; [left; split; [done|split; [lia|eauto]]|].
    right. eexists. repeat split; reflexivity.
Qed.

Lemma admission_wellFormed type by_ maxp w :
  wellFormed w -> wellFormed (snd (admission env type by_ maxp w)).
Proof.
  intros Hw. pose proof (admission_spec type by_ maxp w) as H.
  destruct (find isActiveRun (runs w)) as [a|] eqn:Hf.
  - destruct H as (Hr & Hn & _). apply (wellFormed_same w); [done|done|lia].
  - destruct H as [(Hr & Hn & _)|(r & Hid & _ & Hr & Hn & _)].
    + by apply (wellFormed_same w).
    + by apply (wellFormed_append w r).
Qed.

(** Under [frame], the runs other than the executed one are what they
    were; if they were all inactive, at most one run is active. *)
Lemma frame_active (id : nat) (l l' : list PipelineRun) :
  NoDup (map r_id l) ->
  Forall2 (fun x y => r_id y = r_id x /\ (r_id x <> id -> y = x)) l l' ->
  (forall x, In x l -> r_id x <> id -> isActiveRun x = false) ->
  (List.length (List.filter isActiveRun l') <= 1)%nat /\ map r_id l' = map r_id l.
Proof.
  intros Hnd H. induction H as [|x y l l' [Hid Hne] Hrest IH]; intros Hin; cbn; [split; [lia|done]|].
  inversion Hnd as [|? ? Hx Hnd']; subst.
  destruct (IH Hnd') as [IH1 IH2]; [intros; apply Hin; [by right|done]|].
  split; [|by rewrite Hid, IH2].
  destruct (Nat.eq_dec (r_id x) id) as [He|He].
  - assert (Hz : List.filter isActiveRun l' = []).
    { clear -Hrest Hx He Hin. induction Hrest as [|a b l l' [Hab Hn] _ IH]; cbn; [done|].
      assert (Ha : r_id a <> id).
      { intros E. apply Hx. rewrite He, <- E. apply list_elem_of_fmap. exists a.
        split; [done|]. apply list_elem_of_here. }
      rewrite (Hn Ha). rewrite (Hin a); [|right; by left|done].
      apply IH.
      - intros z Hz. apply Hin. destruct Hz; [by left|right; by right].
      - intros Hc. apply Hx. cbn. by apply list_elem_of_further. }
    rewrite Hz. destruct (isActiveRun y); cbn; lia.
  - rewrite (Hne He). rewrite (Hin x); [done|by left|done].
Qed.

Lemma executePipeline_wellFormed run w :
  wellFormed w ->
  (forall x, In x (runs w) -> r_id x <> r_id run -> isActiveRun x = false) ->
  wellFormed (snd (executePipeline env run w)).
Proof.
  intros (Hnd & Hlt & _) Hothers.
  destruct (frame_executePipeline env run w) as (_ & HF & Hn & _).
  cbn [fst snd] in HF, Hn. unfold wellFormed, activeRuns.
  destruct (frame_active _ _ _ Hnd HF Hothers) as [Hact Hids].
  split; [by rewrite Hids|]. split; [|exact Hact].
  apply Forall_forall. intros y Hy.
  apply list_elem_of_In, (in_map r_id) in Hy. rewrite Hids in Hy.
  apply in_map_iff in Hy as (x & Hxy & Hx). rewrite <- Hxy.
  rewrite Forall_forall in Hlt. apply list_elem_of_In in Hx. specialize (Hlt _ Hx). lia.
Qed.

End SingletonFacts.

Section SingletonSteps.
Import Pipeline.
Variable env : Env.

Lemma find_active_others w run :
  (activeRuns w <= 1)%nat -> find isActiveRun (runs w) = Some run ->
  forall x, In x (runs w) -> r_id x <> r_id run -> isActiveRun x = false.
Proof.
  unfold activeRuns. fold isActiveRun. intros Hact Hf x Hx Hne.
  destruct (find_Some_filter _ _ _ Hf) as [l' Hl]. rewrite Hl in Hact.
  destruct l'; [|cbn in Hact; lia].
  destruct (isActiveRun x) eqn:E; [|done].
  assert (In x (List.filter isActiveRun (runs w))) by (apply filter_In; done).
  rewrite Hl in H. destruct H as [->|[]]. done.
Qed.

Lemma log_runs lvl msg w :
  runs (snd (log lvl msg w)) = runs w /\ nextId (snd (log lvl msg w)) = nextId w.
Proof. done. Qed.

Local Arguments executePipeline : simpl never.

Lemma cronRun_wellFormed w : wellFormed w -> wellFormed (snd (cronRun env w)).
Proof.
  intros Hw. unfold cronRun, findActiveRun, insertRun, dbOp, step, freshId, log, emit.
  munfold. cbn. fold isActiveRun.
  destruct (dbError env (tick w)); cbn;
    [apply (wellFormed_same w); [done|reflexivity|cbn; lia]|].
  destruct (find isActiveRun (runs w)) as [a|] eqn:Hf; cbn;
    [apply (wellFormed_same w); [done|reflexivity|cbn; lia]|].
  destruct (dbError env (S (tick w))); cbn;
    [apply (wellFormed_same w); [done|reflexivity|cbn; lia]|].
  set (run := newRun _ _ _ _ _ _ _).
  set (w1 := setRuns _ _).
  assert (Hw1 : wellFormed w1).
  { apply (wellFormed_append w run); try done. }
  assert (Hothers : forall x, In x (runs w1) -> r_id x <> r_id run -> isActiveRun x = false).
  { intros x Hx Hne. cbn in Hx. apply in_app_or in Hx as [Hx|[->|[]]]; [|done].
    pose proof (find_None_filter _ _ Hf) as Hnil.
    destruct (isActiveRun x) eqn:E; [|done].
    assert (In x (List.filter isActiveRun (runs w))) by (apply filter_In; done).
    rewrite Hnil in H. done. }
  pose proof (executePipeline_wellFormed env run w1 Hw1 Hothers) as Hfin.
  destruct (fst (fst (executePipeline env run w1))); cbn; [done|].
  apply (wellFormed_same (snd (executePipeline env run w1))); [done|reflexivity|cbn; lia].
Qed.

Lemma backgroundPipeline_wellFormed w :
  wellFormed w -> wellFormed (snd (backgroundPipeline env w)).
Proof.
  intros Hw. unfold backgroundPipeline. fold isActiveRun.
  destruct (find isActiveRun (runs w)) as [run|] eqn:Hf; cbn; [|done].
  assert (Hothers : forall x, In x (runs w) -> r_id x <> r_id run -> isActiveRun x = false).
  { apply find_active_others; [apply Hw|done]. }
  pose proof (executePipeline_wellFormed env run w Hw Hothers) as Hfin.
  unfold inBackground.
  destruct (fst (fst (executePipeline env run w))); cbn; [done|].
  apply (wellFormed_same (snd (executePipeline env run w))); [done|reflexivity|cbn; lia].
Qed.

Lemma webhookTrigger_snd type n w :
  runs (snd (webhookTrigger env type n w))
  = runs (snd (admission env (default "full" type) "webhook" (Some (orZ n 50)) w)) /\
  nextId (snd (webhookTrigger env type n w))
  = nextId (snd (admission env (default "full" type) "webhook" (Some (orZ n 50)) w)) /\
  fst (webhookTrigger env type n w)
  = fst (admission env (default "full" type) "webhook" (Some (orZ n 50)) w).
Proof.
  unfold webhookTrigger, bind.
  destruct (admission env _ _ _ w) as [[[]|e] w1]; done.
Qed.

Lemma fire_wellFormed t w : wellFormed w -> wellFormed (snd (fire env t w)).
Proof.
  intros Hw. destruct t as [ty|ty n| |]; cbn [fire].
  - by apply admission_wellFormed.
  - destruct (webhookTrigger_snd ty n w) as (Hr & Hn & _).
    pose proof (admission_wellFormed env (default "full" ty) "webhook"
                  (Some (orZ n 50)) w Hw) as (H1 & H2 & H3).
    unfold wellFormed, activeRuns in *. rewrite Hr, Hn. done.
  - by apply cronRun_wellFormed.
  - by apply backgroundPipeline_wellFormed.
Qed.

Lemma history_wellFormed ts w :
  wellFormed w -> Forall wellFormed (history env ts w).
Proof.
  revert w. induction ts as [|t ts IH]; intros w Hw; cbn; constructor.
  - by apply fire_wellFormed.
  - apply IH. by apply fire_wellFormed.
Qed.

Lemma cronRun_active w a :
  find isActiveRun (runs w) = Some a ->
  runs (snd (cronRun env w)) = runs w /\
  fst (cronRun env w) = Ok NoResponse.
Proof.
  intros Hf. unfold cronRun, findActiveRun, dbOp, step, log, emit. munfold. cbn.
  fold isActiveRun.
  destruct (dbError env (tick w)); cbn; [done|]. by rewrite Hf.
Qed.

End SingletonSteps.

Section SingletonRun.
Import Pipeline.

(** C1, as stated, fails for the scheduled trigger: with a run active it
    creates no run, but it returns nothing to its caller, and certainly no
    Conflict error; it logs and skips.  The route, in the same state,
    answers with the Conflict. *)
Lemma C1_counterexample_cron_skips_silently :
  find isActiveRun (runs Samples.pipelineWorld) = Some Samples.run /\
  fst (cronRun Samples.pipelineEnv Samples.pipelineWorld) = Ok NoResponse /\
  fst (cronRun Samples.pipelineEnv Samples.pipelineWorld)
  <> Ok (Conflict (runId Samples.run)) /\
  runs (snd (cronRun Samples.pipelineEnv Samples.pipelineWorld))
  = runs Samples.pipelineWorld /\
  In (EvLog "info" "Cron: Pipeline already running, skipping")
     (trace (snd (cronRun Samples.pipelineEnv Samples.pipelineWorld))) /\
  fst (postRun Samples.pipelineEnv None Samples.pipelineWorld)
  = Ok (Conflict (runId Samples.run)).
Proof. vm_compute. repeat split; auto; discriminate. Qed.

(** C1, amended.  Along any sequence of start-run requests made through
    the route, the webhook and the scheduler, interleaved with the
    background pipelines they start, at most one run is queued or running
    after each of them.  While a run is active, the route and the webhook
    create no run and, the lookup having answered, return the Conflict
    that carries the active run's [runId]; the scheduler creates no run
    either and returns nothing. *)
Theorem C1_singleton_run (env : Env) :
  (forall ts w, wellFormed w ->
     Forall (fun w' => (activeRuns w' <= 1)%nat) (history env ts w)) /\
  (forall w a, find isActiveRun (runs w) = Some a ->
     (forall ty,
        runs (snd (postRun env ty w)) = runs w /\
        (dbError env (tick w) = None ->
         fst (postRun env ty w) = Ok (Conflict (runId a)))) /\
     (forall ty n,
        runs (snd (webhookTrigger env ty n w)) = runs w /\
        (dbError env (tick w) = None ->
         fst (webhookTrigger env ty n w) = Ok (Conflict (runId a)))) /\
     runs (snd (cronRun env w)) = runs w /\
     fst (cronRun env w) = Ok NoResponse).
Proof.
  split.
  - intros ts w Hw. pose proof (history_wellFormed env ts w Hw) as H.
    eapply Forall_impl; [exact H|]. by intros w' (_ & _ & Ha).
  - intros w a Hf. split; [|split].
    + intros ty. unfold postRun.
      pose proof (admission_spec env (default "full" ty) "manual" None w) as H.
      rewrite Hf in H. destruct H as (Hr & _ & Hc). done.
    + intros ty n.
      destruct (webhookTrigger_snd env ty n w) as (Hr & _ & Ho).
      pose proof (admission_spec env (default "full" ty) "webhook"
                    (Some (orZ n 50)) w) as H.
      rewrite Hf in H. destruct H as (Hr' & _ & Hc).
      rewrite Hr, Ho. done.
    + by apply (cronRun_active env w a).
Qed.

(** Two requests to the route, the scheduler in between, the first run's
    pipeline, then the scheduler again, from an empty store. *)
Lemma C1_singleton_run_witness :
  wellFormed Samples.emptyWorld /\
  Forall (fun w' => (activeRuns w' <= 1)%nat)
         (history Samples.pipelineEnv
            [PostRun None; PostRun (Some "discovery"); Cron; Background; Cron]
            Samples.emptyWorld) /\
  fst (postRun Samples.pipelineEnv None Samples.pipelineWorld)
  = Ok (Conflict "run-10").
Proof.
  assert (wellFormed Samples.emptyWorld) as Hw.
  { split; [constructor|]. split; [constructor|]. vm_compute. lia. }
  destruct (C1_singleton_run Samples.pipelineEnv) as [Hinv Hact].
  split; [exact Hw|]. split; [by apply Hinv|].
  destruct (Hact Samples.pipelineWorld Samples.run) as (Hpost & _).
  - reflexivity.
  - destruct (Hpost None) as [_ Hc]. by apply Hc.
Defined.

(** The agent's [run_pipeline] action asks nothing before it creates its
    run: with a run active it leaves two. *)
Example agentRunPipeline_second_active_run :
  activeRuns Samples.pipelineWorld = 1%nat /\
  fst (agentRunPipeline Samples.pipelineEnv None Samples.pipelineWorld)
  = Ok (Started "run-11") /\
  activeRuns (snd (agentRunPipeline Samples.pipelineEnv None Samples.pipelineWorld))
  = 2%nat.
Proof. vm_compute. repeat split. Qed.

End SingletonRun.

(** ** JavaScript strings and numbers *)

Section JavaScriptValues.

(** [length] counts code units, not bytes: an accented letter is one, a
    character outside the basic plane is two. *)
Example jsLength_vectors :
  jsLength "Smart Watch" = 11%nat /\
  jsLength "Café latté" = 10%nat /\ String.length "Café latté" = 12%nat /\
  jsLength "Café!" = 5%nat /\
  jsLength "🔥 Deal" = 7%nat.
Proof. repeat split; reflexivity. Qed.

(** The Kelvin sign is a capital K. *)
Example toLowerCase_vectors :
  toLowerCase "Smart WATCH" = "smart watch" /\
  toLowerCase "Kitchen" = "kitchen" /\
  TrendScout.categoryBonus "Kitchen" = 10 /\
  includes (toLowerCase "CafÉ Home") "home" = true.
Proof. repeat split; reflexivity. Qed.

(** [toFixed] rounds the binary64 value: 19.95 is held as a number just
    below it, and so is 1.005; a quarter is held exactly and goes up. *)
Example toFixed_vectors :
  toFixed1 (1995 # 100) = "19.9" /\
  toFixed1 (1999 # 100) = "20.0" /\
  toFixed1 (1 # 4) = "0.3" /\
  toFixed1 (- (5 # 100)) = "-0.1" /\
  Orchestration.toFixed2 (1005 # 1000) = "1.00" /\
  Orchestration.toFixed2 (5 # 100) = "0.05" /\
  (toDouble (1 # 2) == 1 # 2)%Q.
Proof. vm_compute. repeat split; reflexivity. Qed.

End JavaScriptValues.

(** ** Discovery: ranking and the scan *)

Section RankFacts.
Import TrendScout Scan.

Lemma Forall_of_sublist {A} (P : A -> Prop) l1 l2 :
  l1 `sublist_of` l2 -> Forall P l2 -> Forall P l1.
Proof.
  intros Hs H. apply Forall_forall. intros x Hx.
  eapply (proj1 (Forall_forall P l2) H). by eapply elem_of_sublist.
Qed.

Lemma sublist_List_filter {A} (f : A -> bool) l : List.filter f l `sublist_of` l.
Proof.
  induction l as [|x l IH]; cbn; [done|].
  destruct (f x); [by apply sublist_skip|by apply sublist_cons].
Qed.

Lemma dedupeFrom_sublist seen l : dedupeFrom seen l `sublist_of` l.
Proof.
  revert seen. induction l as [|p l IH]; intros seen; cbn; [done|].
  case_decide; [by apply sublist_cons|by apply sublist_skip].
Qed.

Lemma dedupeFrom_unseen seen l p :
  p ∈ dedupeFrom seen l -> externalId p ∉ seen.
Proof.
  revert seen. induction l as [|q l IH]; intros seen; cbn; [by intros ?%elem_of_nil|].
  case_decide as Hq; [by apply IH|].
  intros [->|Hin]%elem_of_cons; [done|].
  apply IH in Hin. set_solver.
Qed.

Lemma dedupeFrom_NoDup seen l : NoDup (map externalId (dedupeFrom seen l)).
Proof.
  revert seen. induction l as [|p l IH]; intros seen; cbn; [constructor|].
  case_decide as Hp; [by apply IH|].
  cbn. constructor; [|by apply IH].
  intros (q & Hq & Hin)%list_elem_of_fmap.
  apply dedupeFrom_unseen in Hin. set_solver.
Qed.

Lemma dedupeFrom_first seen l1 p l2 :
  externalId p ∉ seen -> externalId p ∉ map externalId l1 ->
  p ∈ dedupeFrom seen (l1 ++ p :: l2).
Proof.
  revert seen. induction l1 as [|q l1 IH]; intros seen Hs Hl; cbn.
  - rewrite decide_False by done. apply list_elem_of_here.
  - cbn in Hl. apply not_elem_of_cons in Hl as [Hne Hl].
    destruct (decide (externalId q ∈ seen)); [by apply IH|].
    apply list_elem_of_further, IH; [|done].
    apply not_elem_of_union. split; [|done].
    apply not_elem_of_singleton. congruence.
Qed.

Lemma dedupeFrom_represented seen l p :
  p ∈ l -> externalId p ∈ seen \/
           exists q, q ∈ dedupeFrom seen l /\ externalId q = externalId p.
Proof.
  revert seen. induction l as [|x l IH]; intros seen; [by intros ?%elem_of_nil|].
  intros [->|Hin]%elem_of_cons; cbn.
  - case_decide; [by left|]. right. exists x. split; [apply list_elem_of_here|done].
  - case_decide as Hx; [by apply IH|].
    destruct (IH ({[externalId x]} ∪ seen) Hin) as [Hs|(q & Hq & He)].
    + apply elem_of_union in Hs as [Hs|Hs]; [|by left].
      apply elem_of_singleton in Hs. right. exists x.
      split; [apply list_elem_of_here|done].
    + right. exists q. split; [by apply list_elem_of_further|done].
Qed.

Lemma insertByScore_Permutation x l : insertByScore x l ≡ₚ x :: l.
Proof.
  induction l as [|y l IH]; cbn; [done|].
  case_match; [done|]. rewrite IH. apply Permutation_swap.
Qed.

Lemma sortByScore_Permutation l : sortByScore l ≡ₚ l.
Proof.
  induction l as [|x l IH]; cbn; [done|].
  rewrite insertByScore_Permutation. by rewrite IH.
Qed.

Lemma insertByScore_descending x l :
  descending l -> descending (insertByScore x l).
Proof.
  induction l as [|y l IH]; cbn; [by intros _; split; [constructor|]|].
  intros [Hy Hl]. case_match eqn:E.
  - apply Z.leb_le in E. cbn. split; [|done].
    constructor; [done|]. eapply Forall_impl; [exact Hy|]. cbn. intros z Hz. lia.
  - apply Z.leb_gt in E. cbn. split; [|by apply IH].
    rewrite insertByScore_Permutation. constructor; [lia|done].
Qed.

Lemma sortByScore_descending l : descending (sortByScore l).
Proof.
  induction l as [|x l IH]; cbn; [done|]. by apply insertByScore_descending.
Qed.

Lemma descending_app l1 l2 :
  descending (l1 ++ l2) ->
  descending l1 /\ descending l2 /\
  Forall (fun p => Forall (fun q => scoreOf q <= scoreOf p) l2) l1.
Proof.
  induction l1 as [|x l1 IH]; cbn; [by intros H; repeat split; [|constructor]|].
  intros [Hx Hl]. apply Forall_app in Hx as [Hx1 Hx2].
  destruct (IH Hl) as (H1 & H2 & H3). repeat split; try done. by constructor.
Qed.

Lemma descending_sublist l1 l2 :
  l1 `sublist_of` l2 -> descending l2 -> descending l1.
Proof.
  induction 1 as [|x l1 l2 Hs IH|x l1 l2 Hs IH]; cbn; [done| |].
  - intros [Hx Hl]. split; [|by apply IH]. by eapply Forall_of_sublist.
  - intros [_ Hl]. by apply IH.
Qed.

Lemma slice0_take {A} n (l : list A) : exists k, slice0 n l = take k l.
Proof. unfold slice0. case_match; eauto. Qed.

Lemma slice0_length {A} n (l : list A) :
  0 <= n -> Z.of_nat (List.length (slice0 n l)) <= n.
Proof.
  intros Hn. unfold slice0. rewrite (proj2 (Z.ltb_ge n 0)) by lia.
  rewrite length_take. lia.
Qed.

Lemma scored_trendScore p : trendScore (scored p) = Some (Z.min (score p) 100).
Proof. reflexivity. Qed.

Lemma scored_externalId p : externalId (scored p) = externalId p.
Proof. reflexivity. Qed.

Lemma qualified_spec cfg l p :
  p ∈ qualified cfg l ->
  exists q, q ∈ l /\ p = scored q /\ minScore cfg <= scoreOf p /\
            scoreOf p = score q /\ 15 <= scoreOf p <= 80.
Proof.
  unfold qualified. intros Hin. apply list_elem_of_In, List.filter_In in Hin as [Hin Hq].
  apply list_elem_of_In, list_elem_of_fmap in Hin as (q & -> & Hin).
  exists q. pose proof (score_range q) as Hr.
  unfold qualifies in Hq. rewrite scored_trendScore in Hq. apply Z.leb_le in Hq.
  unfold scoreOf. rewrite scored_trendScore. cbn.
  assert (Z.min (score q) 100 = score q) as -> by lia.
  rewrite Z.min_l in Hq by lia.
  split; [|done]. eapply elem_of_sublist; [exact Hin|]. apply dedupeFrom_sublist.
Qed.

Lemma qualified_NoDup cfg l : NoDup (map externalId (qualified cfg l)).
Proof.
  unfold qualified.
  assert (NoDup (map externalId (map scored (dedupe l)))) as H.
  { rewrite map_map. rewrite (map_ext _ externalId) by (intros; apply scored_externalId).
    apply dedupeFrom_NoDup. }
  eapply sublist_NoDup; [exact H|]. apply fmap_sublist.
  apply sublist_List_filter.
Qed.

Lemma rank_take cfg l :
  exists k, rank cfg l = take k (sortByScore (qualified cfg l)).
Proof. apply slice0_take. Qed.

Lemma rank_elem_of cfg l p : p ∈ rank cfg l -> p ∈ qualified cfg l.
Proof.
  destruct (rank_take cfg l) as [k ->]. intros Hin.
  rewrite <- (sortByScore_Permutation (qualified cfg l)).
  eapply elem_of_sublist; [exact Hin|apply sublist_take].
Qed.

Lemma rank_NoDup cfg l : NoDup (map externalId (rank cfg l)).
Proof.
  destruct (rank_take cfg l) as [k ->].
  assert (NoDup (map externalId (sortByScore (qualified cfg l)))) as H.
  { apply (NoDup_Permutation_proper _ _
             (Permutation_map externalId (sortByScore_Permutation (qualified cfg l)))).
    apply qualified_NoDup. }
  eapply sublist_NoDup; [exact H|]. apply fmap_sublist, sublist_take.
Qed.

Lemma rank_descending cfg l : descending (rank cfg l).
Proof.
  destruct (rank_take cfg l) as [k ->].
  eapply descending_sublist; [apply sublist_take|apply sortByScore_descending].
Qed.

End RankFacts.

Section ReturnsFacts.
Context {S : Type}.

Lemma returns_ret {A} (a : A) (post : S -> A -> S -> Prop) :
  (forall s, post s a s) -> returns (ret a) post.
Proof. intros H s. by exists a, s. Qed.

Lemma returns_bind {A B} (m : M S A) (k : A -> M S B) p q (post : S -> B -> S -> Prop) :
  returns m p -> (forall a, returns (k a) (q a)) ->
  (forall s a s1 b s2, p s a s1 -> q a s1 b s2 -> post s b s2) ->
  returns (bind m k) post.
Proof.
  intros Hm Hk Hpost s.
  destruct (Hm s) as (a & s1 & E1 & H1). destruct (Hk a s1) as (b & s2 & E2 & H2).
  exists b, s2. rewrite (bind_Ok _ _ _ _ _ E1). eauto.
Qed.

Lemma returns_weaken {A} (m : M S A) (p q : S -> A -> S -> Prop) :
  returns m p -> (forall s a s', p s a s' -> q s a s') -> returns m q.
Proof.
  intros Hm H s. destruct (Hm s) as (a & s' & E & Hp). exists a, s'. eauto.
Qed.

(** A [try] whose handler never throws never throws. *)
Lemma returns_tryCatch {A} (R : S -> S -> Prop) `{!PreOrder R} (m : M S A) h :
  respects R m -> (forall e, returns (h e) (fun s _ s' => R s s')) ->
  returns (tryCatch m h) (fun s _ s' => R s s').
Proof.
  intros Hm Hh s. unfold tryCatch. specialize (Hm s).
  destruct (m s) as [[a|e] s1]; cbn in Hm; [by exists a, s1|].
  destruct (Hh e s1) as (a & s2 & E & H2). exists a, s2. split; [done|]. by etrans.
Qed.

End ReturnsFacts.

Section ScanFacts.
Import TrendScout Scan.
Variable env : Env.

Global Instance fetchesOnly_preorder : PreOrder fetchesOnly.
Proof.
  split.
  - intros s. exists [], []. by rewrite !app_nil_r.
  - intros s1 s2 s3 (x1 & e1 & Ha1 & Ht1 & Hs1 & Hl1) (x2 & e2 & Ha2 & Ht2 & Hs2 & Hl2).
    exists (x1 ++ x2)%list, (e1 ++ e2)%list.
    rewrite Ha2, Ha1, Ht2, Ht1, !app_assoc. repeat split; try done.
    + by rewrite List.filter_app, Hs1, Hs2.
    + unfold lookedUp in *. by rewrite omap_app, Hl1, Hl2.
Qed.

Lemma fetchesOnly_events (all all' : list ScannedProduct) w w' evs :
  trace w' = (trace w ++ evs)%list ->
  List.filter isScrape evs = [] -> lookedUp evs = [] ->
  (exists extra, all' = (all ++ extra)%list) ->
  fetchesOnly (all, w) (all', w').
Proof. intros Ht Hs Hl [extra Ha]. by exists extra, evs. Qed.

Lemma fetchesOnly_fetch flag kw size :
  respects fetchesOnly (lift (L:=list ScannedProduct) (fetch env flag kw size)).
Proof.
  intros [all w]. unfold lift, fetch, emit, step. munfold. cbn.
  destruct (fetchCJProducts env (tick w) flag kw); cbn;
    (eapply fetchesOnly_events; [reflexivity|done|done|by exists []; rewrite app_nil_r]).
Qed.

Lemma fetchesOnly_sleep ms :
  respects fetchesOnly (lift (L:=list ScannedProduct) (sleep ms)).
Proof.
  intros [all w]. cbn.
  eapply fetchesOnly_events; [reflexivity|done|done|by exists []; rewrite app_nil_r].
Qed.

Lemma fetchesOnly_log lvl msg :
  respects fetchesOnly (lift (L:=list ScannedProduct) (log lvl msg)).
Proof.
  intros [all w]. cbn.
  eapply fetchesOnly_events; [reflexivity|done|done|by exists []; rewrite app_nil_r].
Qed.

Lemma fetchesOnly_concat l : respects fetchesOnly (concat l).
Proof.
  intros [all w]. cbn.
  eapply (fetchesOnly_events _ _ _ _ []); [by rewrite app_nil_r|done|done|by exists l].
Qed.

Lemma fetchesOnly_found l what : respects fetchesOnly (found l what).
Proof. apply fetchesOnly_log. Qed.

Lemma returns_log_fetchesOnly lvl msg :
  returns (lift (L:=list ScannedProduct) (log lvl msg)) (fun s _ s' => fetchesOnly s s').
Proof.
  intros [all w]. eexists tt, _. split; [reflexivity|].
  apply (fetchesOnly_log lvl msg (all, w)).
Qed.

(** The catalogue part of the scan never throws. *)
Lemma scanCJ_returns cfg :
  returns (scanCJ env cfg) (fun s _ s' => fetchesOnly s s').
Proof.
  unfold scanCJ. apply returns_tryCatch; [apply _| |intros e; apply returns_log_fetchesOnly].
  apply respects_bind; [apply _|apply fetchesOnly_fetch|intros trending].
  apply respects_bind; [apply _|apply fetchesOnly_concat|intros _].
  apply respects_bind; [apply _|apply fetchesOnly_found|intros _].
  apply respects_bind; [apply _|apply fetchesOnly_sleep|intros _].
  apply respects_bind; [apply _|apply fetchesOnly_fetch|intros newProducts].
  apply respects_bind; [apply _|apply fetchesOnly_concat|intros _].
  apply respects_bind; [apply _|apply fetchesOnly_found|intros _].
  apply respects_forEach; [apply _|intros category].
  apply respects_bind; [apply _|apply fetchesOnly_sleep|intros _].
  apply respects_bind; [apply _|apply fetchesOnly_fetch|intros catProducts].
  apply respects_bind; [apply _|apply fetchesOnly_concat|intros _].
  apply fetchesOnly_found.
Qed.

(** The search part never throws either, and asks the search once. *)
Lemma scanBrave_returns :
  returns (scanBrave env)
    (fun s _ s' => exists extra evs,
       fst s' = (fst s ++ extra)%list /\
       trace (snd s') = (trace (snd s) ++ evs)%list /\
       List.filter isScrape evs = [EvScrape] /\ lookedUp evs = []).
Proof.
  intros [all w]. unfold scanBrave, scrape, concat, found, log, emit, step, lift,
    getLocal, setLocal. munfold. cbn.
  destruct (scrapeAliDropTrends env (tick w)) as [l|e]; cbn.
  - eexists tt, _. split; [reflexivity|]. exists l. eexists. cbn.
    split; [done|]. split; [by rewrite <- app_assoc|]. done.
  - eexists tt, _. split; [reflexivity|]. exists []. eexists. cbn.
    split; [by rewrite app_nil_r|]. split; [by rewrite <- app_assoc|]. done.
Qed.

(** The lookups: one per product, in order; what is kept is a sublist. *)
Lemma keepFresh_returns limited :
  forall fresh,
  returns (foldM (keepFresh env) fresh limited)
    (fun w l w' => exists kept evs,
       l = (fresh ++ kept)%list /\ kept `sublist_of` limited /\
       trace w' = (trace w ++ evs)%list /\
       List.filter isScrape evs = [] /\
       lookedUp evs = map externalId limited).
Proof.
  induction limited as [|p limited IH]; intros fresh w; cbn.
  - exists fresh, w. split; [done|]. exists [], []. by rewrite !app_nil_r.
  - unfold keepFresh at 1, askDuplicate, log, emit, step. munfold. cbn.
    destruct (isDuplicate env (tick w) p); cbn.
    + destruct (IH fresh {| tick := S (tick w);
                            trace := ((trace w ++ [EvIsDuplicate (externalId p)]) ++
                                      [EvLog "info" ("Skipping duplicate: " ++ name p)])%list |})
        as (l & w' & E & kept & evs & -> & Hk & Ht & Hs & Hl).
      exists (fresh ++ kept)%list, w'. split; [exact E|].
      exists kept, (EvIsDuplicate (externalId p)
                    :: EvLog "info" ("Skipping duplicate: " ++ name p) :: evs).
      split; [done|]. split; [by apply sublist_cons|].
      split; [by rewrite Ht; cbn; rewrite <- !app_assoc|].
      split; [done|]. cbn. by rewrite <- Hl.
    + destruct (IH (fresh ++ [p])%list
                   {| tick := S (tick w);
                      trace := (trace w ++ [EvIsDuplicate (externalId p)])%list |})
        as (l & w' & E & kept & evs & -> & Hk & Ht & Hs & Hl).
      exists ((fresh ++ [p]) ++ kept)%list, w'. split; [exact E|].
      exists (p :: kept), (EvIsDuplicate (externalId p) :: evs).
      split; [by rewrite <- app_assoc|]. split; [by apply sublist_skip|].
      split; [by rewrite Ht; cbn; rewrite <- !app_assoc|].
      split; [done|]. cbn. by rewrite <- Hl.
Qed.

(** The whole scan. *)
Lemma scan_spec cfg w :
  exists l w' evs,
    scan env cfg w = (Ok l, w') /\
    trace w' = (trace w ++ evs)%list /\
    if enabled cfg
    then List.filter isScrape evs = [EvScrape] /\
         exists all, l `sublist_of` rank cfg all /\
                     lookedUp evs = map externalId (rank cfg all)
    else l = [] /\ evs = [EvLog "warn" "TrendScout is disabled"].
Proof.
  unfold scan. destruct (enabled cfg); cbn [negb].
  - unfold withLocal.
    set (w0 := snd (log "info" "TrendScout scan starting (CJ Dropshipping API)..." w)).
    rewrite (bind_Ok _ _ w tt w0) by reflexivity.
    destruct (scanCJ_returns cfg ([], w0)) as ([] & [all1 w1] & E1 & x1 & e1 & Ha1 & Ht1 & Hs1 & Hl1).
    destruct (scanBrave_returns (all1, w1)) as ([] & [all2 w2] & E2 & x2 & e2 & Ha2 & Ht2 & Hs2 & Hl2).
    cbn [fst snd] in *.
    destruct (keepFresh_returns (rank cfg all2) [] w2)
      as (l & w3 & E3 & kept & e3 & -> & Hk & Ht3 & Hs3 & Hl3).
    rewrite (bind_Ok _ _ _ _ _ E1), (bind_Ok _ _ _ _ _ E2).
    unfold getLocal, lift. munfold. cbn. rewrite E3. cbn.
    eexists _, _, _. split; [reflexivity|]. cbn.
    split.
    { rewrite Ht3, Ht2, Ht1. subst w0. cbn. rewrite <- !app_assoc. reflexivity. }
    split.
    + rewrite !List.filter_app. cbn. rewrite Hs1, Hs2, Hs3. done.
    + exists all2. split; [done|].
      unfold lookedUp in *. rewrite !omap_app. cbn. rewrite ?omap_app, Hl1, Hl2, Hl3.
      cbn. by rewrite app_nil_r.
  - eexists _, _, _. split; [reflexivity|]. cbn. done.
Qed.

End ScanFacts.

Section DiscoveryProperties.
Import TrendScout Scan.

Lemma insertByScore_stable v x l :
  List.filter (fun p => scoreOf p =? v) (insertByScore x l)
  = List.filter (fun p => scoreOf p =? v) (x :: l).
Proof.
  induction l as [|y l IH]; [done|]. cbn [insertByScore].
  destruct (Z.leb_spec (scoreOf y) (scoreOf x)) as [Hle|Hlt]; [done|].
  cbn [List.filter] in *. rewrite IH.
  destruct (Z.eqb_spec (scoreOf x) v), (Z.eqb_spec (scoreOf y) v); try done. lia.
Qed.

Lemma sortByScore_stable v l :
  List.filter (fun p => scoreOf p =? v) (sortByScore l)
  = List.filter (fun p => scoreOf p =? v) l.
Proof.
  induction l as [|x l IH]; [done|]. cbn [sortByScore foldr].
  rewrite insertByScore_stable. cbn [List.filter]. fold (sortByScore l).
  by rewrite IH.
Qed.

Lemma substring_none s : String.substring 0 0 s = "".
Proof. by destruct s. Qed.

Lemma base64_first15 s :
  String.substring 0 20 (base64 s)
  = String.substring 0 20 (base64 (String.substring 0 15 s)).
Proof.
  do 15 (destruct s as [|? s]; [reflexivity|]).
  simpl. by rewrite !substring_none.
Qed.

(** The encoder on the reference vectors of RFC 4648. *)
Example base64_vectors :
  base64 "f" = "Zg==" /\ base64 "fo" = "Zm8=" /\ base64 "foo" = "Zm9v" /\
  base64 "foobar" = "Zm9vYmFy" /\ base64 "Man" = "TWFu".
Proof. vm_compute. repeat split. Qed.

(** X1.  [inferCategory] answers one of seven categories; every one of
    them but [fitness] and [general] earns the category bonus of
    [scoreProduct]. *)
Theorem inferCategory_earns_bonus (name description : string) :
  let c := inferCategory name description in
  In c ["electronics"; "home"; "beauty"; "fashion"; "fitness"; "pet"; "general"] /\
  categoryBonus c
  = if (String.eqb c "fitness" || String.eqb c "general")%bool then 0 else 10.
Proof.
  unfold inferCategory. cbv zeta. unfold categoryKeywords. cbn [find snd fst].
  repeat match goal with
         | |- context [if existsb ?f ?l then _ else _] => destruct (existsb f l)
         end;
    (split; [cbn; auto 10|reflexivity]).
Qed.

(** X2.  A search trend enters with a rank-based score between 30 and 60,
    but [scoreProduct] replaces it by the base 15 plus the category and
    name bonuses: at most 30, and the same wherever the result stood in
    the search. *)
Theorem brave_product_score (idx : Z) (name description : string)
  (p : ScannedProduct) :
  0 <= idx ->
  braveProduct idx name description = Some p ->
  30 <= scoreOf p <= 60 /\
  scoreOf (scored p)
  = 15 + categoryBonus (inferCategory name description) + nameBonus name /\
  15 <= scoreOf (scored p) <= 30.
Proof.
  intros Hidx H. unfold braveProduct in H. case_match; [|done]. simplify_eq.
  split; [unfold scoreOf; cbn; lia|].
  assert (scoreOf (scored (mkScanned name "brave_search" (braveId name) "" 0 0 0
                             (inferCategory name description) ""
                             (Some (Z.max 30 (60 - idx * 3)))))
          = 15 + categoryBonus (inferCategory name description) + nameBonus name) as ->.
  { unfold scoreOf, scored, setTrendScore, score.
    cbn [trendScore default orders costAud costUsd category image TrendScout.name].
    change (salesBonus 0) with 0. change (costBonus (orNum 0 (orNum 0 0))) with 0.
    change (imageBonus "") with 0.
    pose proof (categoryBonus_range (inferCategory name description)).
    pose proof (nameBonus_range name). unfold id. lia. }
  split; [done|].
  pose proof (categoryBonus_range (inferCategory name description)).
  pose proof (nameBonus_range name). lia.
Qed.

Lemma brave_product_score_witness :
  exists p, braveProduct 2 "Portable Blender Bottle" "kitchen gadget" = Some p /\
            scoreOf p = 54 /\ scoreOf (scored p) = 30.
Proof.
  eexists. split; [reflexivity|].
  destruct (brave_product_score 2 "Portable Blender Bottle" "kitchen gadget" _
              ltac:(lia) eq_refl) as (_ & Hs & _).
  split; [reflexivity|]. rewrite Hs. reflexivity.
Defined.

(** X3.  The identifier of a search trend is read off the first fifteen
    bytes of its name: two trends whose names agree that far get the same
    identifier, and the deduplication keeps only the first. *)
Theorem braveId_collision (i j : Z) (n1 d1 n2 d2 : string)
  (p1 p2 : ScannedProduct) :
  String.substring 0 15 n1 = String.substring 0 15 n2 ->
  braveProduct i n1 d1 = Some p1 ->
  braveProduct j n2 d2 = Some p2 ->
  braveId n1 = braveId n2 /\ dedupe [p1; p2] = [p1].
Proof.
  intros Hpre H1 H2.
  assert (braveId n1 = braveId n2) as Hid.
  { unfold braveId. by rewrite (base64_first15 n1), (base64_first15 n2), Hpre. }
  split; [done|].
  unfold braveProduct in H1, H2.
  destruct (truthyStr n1 && _)%bool; [|done].
  destruct (truthyStr n2 && _)%bool; [|done].
  injection H1 as <-. injection H2 as <-.
  unfold dedupe. cbn [dedupeFrom externalId].
  rewrite decide_False by apply not_elem_of_empty.
  rewrite decide_True; [done|]. rewrite Hid. apply elem_of_union_l.
  by apply elem_of_singleton.
Qed.

Lemma braveId_collision_witness :
  braveId "Wireless Earbuds Pro Max" = braveId "Wireless Earbuds for Kids".
Proof.
  destruct (braveId_collision 0 1 "Wireless Earbuds Pro Max" ""
              "Wireless Earbuds for Kids" "" _ _ eq_refl eq_refl eq_refl) as [H _].
  exact H.
Defined.

(** X4.  The deduplication of [scan] keeps, for every identifier, exactly
    the first product that carries it, in the order fetched. *)
Theorem dedupe_first_wins (l : list ScannedProduct) :
  dedupe l `sublist_of` l /\
  NoDup (map externalId (dedupe l)) /\
  (forall p, p ∈ l -> exists q, q ∈ dedupe l /\ externalId q = externalId p) /\
  (forall l1 p l2, l = (l1 ++ p :: l2)%list ->
                   externalId p ∉ map externalId l1 -> p ∈ dedupe l).
Proof.
  split; [apply dedupeFrom_sublist|]. split; [apply dedupeFrom_NoDup|]. split.
  - intros p Hin. destruct (dedupeFrom_represented ∅ l p Hin) as [H|H]; [|done].
    by apply not_elem_of_empty in H.
  - intros l1 p l2 -> Hl. apply dedupeFrom_first; [apply not_elem_of_empty|done].
Qed.

(** X5.  The ranking keeps the best: what [scan] passes on is a prefix of
    the qualified products sorted by descending score, products of equal
    score staying in the order fetched; everything cut scores no higher
    than anything kept. *)
Theorem rank_keeps_the_best (cfg : Config) (l : list ScannedProduct) :
  exists rest,
    (rank cfg l ++ rest)%list ≡ₚ qualified cfg l /\
    descending (rank cfg l ++ rest) /\
    Forall (fun p => Forall (fun q => scoreOf q <= scoreOf p) rest) (rank cfg l) /\
    (forall v, List.filter (fun p => scoreOf p =? v) (rank cfg l ++ rest)
               = List.filter (fun p => scoreOf p =? v) (qualified cfg l)).
Proof.
  destruct (rank_take cfg l) as [k Hk].
  exists (drop k (sortByScore (qualified cfg l))).
  rewrite Hk, take_drop.
  split; [apply sortByScore_Permutation|].
  split; [apply sortByScore_descending|].
  split; [|intros v; apply sortByScore_stable].
  pose proof (sortByScore_descending (qualified cfg l)) as H.
  rewrite <- (take_drop k (sortByScore (qualified cfg l))) in H.
  by apply descending_app in H as (_ & _ & H).
Qed.

(** X6.  [scan] never throws, and what it returns carries no identifier
    twice, is sorted by descending score, holds only products whose score
    reaches the configured minimum, and is no longer than the configured
    maximum. *)
Theorem scan_result_ranked (env : Env) (cfg : Config) (w : World) :
  0 <= maxProducts cfg ->
  exists l w',
    scan env cfg w = (Ok l, w') /\
    NoDup (map externalId l) /\
    descending l /\
    Forall (fun p => exists q, p = scored q /\ minScore cfg <= scoreOf p /\
                               scoreOf p = score q /\ 15 <= scoreOf p <= 80) l /\
    Z.of_nat (List.length l) <= maxProducts cfg.
Proof.
  intros Hmax. destruct (scan_spec env cfg w) as (l & w' & evs & E & _ & H).
  exists l, w'. split; [exact E|].
  destruct (enabled cfg).
  - destruct H as (_ & all & Hsub & _).
    split; [|split; [|split]].
    + eapply sublist_NoDup; [apply (rank_NoDup cfg all)|by apply fmap_sublist].
    + eapply descending_sublist; [exact Hsub|apply rank_descending].
    + apply Forall_forall. intros p Hp.
      assert (p ∈ qualified cfg all) as Hq.
      { apply rank_elem_of. by eapply elem_of_sublist. }
      destruct (qualified_spec cfg all p Hq) as (q & _ & Hrest). by exists q.
    + apply sublist_length in Hsub.
      pose proof (slice0_length (maxProducts cfg)
                    (sortByScore (qualified cfg all)) Hmax) as Hlen.
      unfold rank in Hsub. lia.
  - destruct H as [-> _]. cbn. repeat split; [constructor|constructor|lia].
Qed.

Lemma scan_result_ranked_witness :
  exists l w',
    scan Cases.scanEnv Cases.scanConfig Cases.scanWorld = (Ok l, w') /\
    map TrendScout.name l = ["Wireless Bluetooth Earbuds"; "Portable Blender Bottle"] /\
    map scoreOf l = [80; 30].
Proof.
  destruct (scan_result_ranked Cases.scanEnv Cases.scanConfig Cases.scanWorld)
    as (l & w' & E & _); [vm_compute; discriminate|].
  exists l, w'. split; [exact E|].
  vm_compute in E. injection E as <- _. split; reflexivity.
Defined.

(** X7.  The two sources of a scan are isolated: whatever the catalogue
    API does, throwing included, the search is asked exactly once, and
    every ranked product is looked up in the database exactly once, in
    rank order; a disabled scan returns nothing and asks nobody. *)
Theorem scan_sources_isolated (env : Env) (cfg : Config) (w : World) :
  exists l w' evs,
    scan env cfg w = (Ok l, w') /\
    trace w' = (trace w ++ evs)%list /\
    if enabled cfg
    then List.filter isScrape evs = [EvScrape] /\
         exists all, l `sublist_of` rank cfg all /\
                     lookedUp evs = map externalId (rank cfg all)
    else l = [] /\ evs = [EvLog "warn" "TrendScout is disabled"].
Proof. apply scan_spec. Qed.

End DiscoveryProperties.

(** ** The pipeline: counters, validation and the other routes *)

Section CounterFacts.
Import Pipeline Routes.
Variable env : Env.

Lemma keep_lift {A B} (f : PipelineRun -> B) (m : M World A) :
  preserves (fun s : Exec => f (fst s)) (lift (L:=PipelineRun) m).
Proof. intros [r w]. reflexivity. Qed.

Lemma keep_onRun {B} (f : PipelineRun -> B) g :
  (forall r, f (g r) = f r) -> preserves (fun s : Exec => f (fst s)) (onRun g).
Proof. intros H [r w]. apply H. Qed.

Lemma keep_getLocal {B} (f : PipelineRun -> B) :
  preserves (fun s : Exec => f (fst s)) (@getLocal World PipelineRun).
Proof. intros s. reflexivity. Qed.

Ltac keep_step :=
  lazymatch goal with
  | |- preserves _ (ret _) => apply preserves_ret
  | |- preserves _ (throw _) => apply preserves_throw
  | |- preserves _ getLocal => apply keep_getLocal
  | |- preserves _ (lift _) => apply keep_lift
  | |- preserves _ (onRun _) => apply keep_onRun; intros ?; reflexivity
  | |- preserves _ (bind _ _) => apply preserves_bind; [|intros ?]
  | |- preserves _ (tryCatch _ _) => apply preserves_tryCatch; [|intros ?]
  | |- preserves _ (foldM _ _ _) => apply preserves_foldM; intros ? ?
  | |- preserves _ (forEach _ _) => apply preserves_forEach; intros ?
  | |- preserves _ (if ?b then _ else _) => destruct b
  | |- preserves _ (match ?x with _ => _ end) => destruct x
  end.

Ltac keep_tac :=
  unfold pushLog, pushError, onResults, runSave; repeat keep_step.

Lemma keep_pushLog {B} (f : PipelineRun -> B) lvl msg :
  (forall l r, f (addLog l r) = f r) ->
  preserves (fun s : Exec => f (fst s)) (pushLog env lvl msg).
Proof.
  intros H. unfold pushLog. apply preserves_bind; [apply keep_lift|intros t].
  by apply keep_onRun.
Qed.

Lemma keep_runSave {B} (f : PipelineRun -> B) :
  preserves (fun s : Exec => f (fst s)) (runSave env).
Proof. unfold runSave. apply preserves_bind; [apply keep_getLocal|intros r]. apply keep_lift. Qed.

(** Nothing in a run rewrites its configuration. *)
Lemma maxProducts_start :
  preserves (fun s : Exec => maxProducts (fst s)) (start env).
Proof. unfold start. keep_tac. Qed.
Lemma maxProducts_stage1 :
  preserves (fun s : Exec => maxProducts (fst s)) (stage1 env).
Proof. unfold stage1. keep_tac. Qed.
Lemma maxProducts_stage2 :
  preserves (fun s : Exec => maxProducts (fst s)) (stage2 env).
Proof. unfold stage2. keep_tac. Qed.
Lemma maxProducts_stage3 :
  preserves (fun s : Exec => maxProducts (fst s)) (stage3 env).
Proof. unfold stage3. keep_tac. Qed.
Lemma maxProducts_stage4 :
  preserves (fun s : Exec => maxProducts (fst s)) (stage4 env).
Proof. unfold stage4, validateOne. keep_tac. Qed.

(** The counters of stage 4 are written by stage 4 alone. *)
Lemma counters_stage5 :
  preserves (fun s : Exec => validationCounters (fst s)) (stage5 env).
Proof. unfold stage5, listOne. keep_tac. Qed.
Lemma counters_stage6 :
  preserves (fun s : Exec => validationCounters (fst s)) (stage6 env).
Proof. unfold stage6. keep_tac. Qed.
Lemma counters_complete t :
  preserves (fun s : Exec => validationCounters (fst s)) (complete env t).
Proof. unfold complete. keep_tac. Qed.
Lemma counters_autoList :
  preserves (fun s : Exec => validationCounters (fst s)) (autoList env).
Proof. unfold autoList. keep_tac. Qed.
Lemma counters_notifyChannels :
  preserves (fun s : Exec => validationCounters (fst s)) (notifyChannels env).
Proof. unfold notifyChannels. keep_tac. Qed.

Lemma listed_stage6 :
  preserves (fun s : Exec => listedCounter (fst s)) (stage6 env).
Proof. unfold stage6. keep_tac. Qed.
Lemma listed_complete t :
  preserves (fun s : Exec => listedCounter (fst s)) (complete env t).
Proof. unfold complete. keep_tac. Qed.
Lemma listed_autoList :
  preserves (fun s : Exec => listedCounter (fst s)) (autoList env).
Proof. unfold autoList. keep_tac. Qed.
Lemma listed_notifyChannels :
  preserves (fun s : Exec => listedCounter (fst s)) (notifyChannels env).
Proof. unfold notifyChannels. keep_tac. Qed.

Lemma preserves_Ok {S A B} (f : S -> B) (m : M S A) s a s' :
  preserves f m -> m s = (Ok a, s') -> f s' = f s.
Proof. intros H E. specialize (H s). by rewrite E in H. Qed.

Lemma findProducts_length filter n w l :
  fst (findProducts env filter (Some n) w) = Ok l ->
  (List.length l <= Z.to_nat n)%nat.
Proof.
  unfold findProducts, dbOp, step. munfold. cbn.
  destruct (dbError env (tick w)); cbn; [done|]. intros [= <-].
  rewrite length_take. lia.
Qed.

(** One turn of the validation loop counts the product once. *)
Lemma validateOne_counts c p s c' s' :
  validateOne env c p s = (Ok c', s') ->
  0 <= fst c -> 0 <= snd c ->
  0 <= fst c' /\ 0 <= snd c' /\ fst c' + snd c' = fst c + snd c + 1.
Proof.
  destruct c as [v r]. unfold validateOne. destruct (verdict p); intros H Hv Hr.
  - apply bind_Ok_inv in H as (? & ? & _ & H). unfold ret in H. simplify_eq. cbn in *. lia.
  - apply bind_Ok_inv in H as (? & ? & _ & H).
    apply bind_Ok_inv in H as (? & ? & _ & H).
    apply bind_Ok_inv in H as (? & ? & _ & H). unfold ret in H. simplify_eq. cbn in *. lia.
  - unfold ret in H. simplify_eq. cbn in *. lia.
Qed.

Lemma validateAll_counts l :
  forall c s c' s',
  foldM (validateOne env) c l s = (Ok c', s') ->
  0 <= fst c -> 0 <= snd c ->
  0 <= fst c' /\ 0 <= snd c' /\
  fst c' + snd c' = fst c + snd c + Z.of_nat (List.length l).
Proof.
  induction l as [|p l IH]; intros c s c' s' H Hv Hr.
  - cbn [foldM] in H. unfold ret in H. simplify_eq. cbn in *. lia.
  - cbn [foldM] in H. apply bind_Ok_inv in H as (c1 & s1 & E1 & H).
    destruct (validateOne_counts _ _ _ _ _ E1 Hv Hr) as (Hv1 & Hr1 & Hs1).
    destruct (IH _ _ _ _ H Hv1 Hr1) as (Hv2 & Hr2 & Hs2).
    cbn [List.length]. lia.
Qed.

Lemma listOne_counts n p s n' s' :
  listOne env n p s = (Ok n', s') -> n <= n' <= n + 1.
Proof.
  unfold listOne, tryCatch. intros H.
  destruct (bind _ _ s) as [[a|e] s1] eqn:E.
  - apply bind_Ok_inv in E as (? & ? & _ & E).
    apply bind_Ok_inv in E as (? & ? & _ & E). unfold ret in E. simplify_eq. lia.
  - apply bind_Ok_inv in H as (? & ? & _ & H). unfold ret in H. simplify_eq. lia.
Qed.

Lemma listAll_counts l :
  forall n s n' s',
  foldM (listOne env) n l s = (Ok n', s') ->
  n <= n' <= n + Z.of_nat (List.length l).
Proof.
  induction l as [|p l IH]; intros n s n' s' H.
  - cbn [foldM] in H. unfold ret in H. simplify_eq. cbn in *. lia.
  - cbn [foldM] in H. apply bind_Ok_inv in H as (n1 & s1 & E1 & H).
    apply listOne_counts in E1. apply IH in H. cbn [List.length]. lia.
Qed.

Lemma stage4_counts s s' :
  stage4 env s = (Ok tt, s') ->
  0 <= productsValidated (results (fst s')) /\
  0 <= productsRejected (results (fst s')) /\
  productsValidated (results (fst s')) + productsRejected (results (fst s'))
  <= Z.max 0 (limitOr (fst s) 50).
Proof.
  unfold stage4. intros H.
  apply bind_Ok_inv in H as ([] & s1 & E1 & H).
  apply bind_Ok_inv in H as ([] & s2 & E2 & H).
  apply bind_Ok_inv in H as (r & s3 & E3 & H).
  apply bind_Ok_inv in H as (cands & s4 & E4 & H).
  apply bind_Ok_inv in H as (c & s5 & E5 & H).
  apply bind_Ok_inv in H as ([] & s6 & E6 & H).
  apply bind_Ok_inv in H as ([] & s7 & E7 & H).
  apply bind_Ok_inv in H as ([] & s8 & E8 & H).
  assert (maxProducts r = maxProducts (fst s)) as Hmax.
  { unfold getLocal in E3. simplify_eq.
    pose proof (preserves_Ok _ _ _ _ _ (keep_runSave maxProducts) E2) as K2.
    pose proof (preserves_Ok _ _ _ _ _
                  (keep_pushLog maxProducts _ _ ltac:(reflexivity)) E1) as K1.
    cbn beta in K1, K2. congruence. }
  assert ((List.length cands <= Z.to_nat (limitOr r 50))%nat) as Hlen.
  { unfold lift in E4. destruct (findProducts env isCandidate _ (snd s3)) as [o w4] eqn:Ef.
    cbn in E4. simplify_eq.
    apply (findProducts_length isCandidate (limitOr r 50) (snd s3)). by rewrite Ef. }
  destruct (validateAll_counts _ _ _ _ _ E5 ltac:(done) ltac:(done)) as (Hv & Hr & Hsum).
  assert (validationCounters (fst s') = (fst c, snd c)) as Hc.
  { pose proof (preserves_Ok _ _ _ _ _ (keep_runSave validationCounters) H) as K9.
    pose proof (preserves_Ok _ _ _ _ _
                  (keep_pushLog validationCounters _ _ ltac:(reflexivity)) E8) as K8.
    cbn beta in K8, K9. rewrite K9, K8.
    destruct s5 as [r5 w5]. unfold onResults, onRun, getLocal, setLocal in E6, E7.
    munfold. simplify_eq. reflexivity. }
  unfold validationCounters in Hc. simplify_eq.
  assert (limitOr r 50 = limitOr (fst s) 50) as <- by (unfold limitOr; by rewrite Hmax).
  cbn in Hsum. lia.
Qed.

Lemma stage5_counts s s' :
  stage5 env s = (Ok tt, s') ->
  0 <= productsListed (results (fst s')) <= Z.max 0 (limitOr (fst s) 20).
Proof.
  unfold stage5. intros H.
  apply bind_Ok_inv in H as ([] & s1 & E1 & H).
  apply bind_Ok_inv in H as ([] & s2 & E2 & H).
  apply bind_Ok_inv in H as (r & s3 & E3 & H).
  apply bind_Ok_inv in H as (cands & s4 & E4 & H).
  apply bind_Ok_inv in H as (n & s5 & E5 & H).
  apply bind_Ok_inv in H as ([] & s6 & E6 & H).
  apply bind_Ok_inv in H as ([] & s7 & E7 & H).
  assert (maxProducts r = maxProducts (fst s)) as Hmax.
  { unfold getLocal in E3. simplify_eq.
    pose proof (preserves_Ok _ _ _ _ _ (keep_runSave maxProducts) E2) as K2.
    pose proof (preserves_Ok _ _ _ _ _
                  (keep_pushLog maxProducts _ _ ltac:(reflexivity)) E1) as K1.
    cbn beta in K1, K2. congruence. }
  assert ((List.length cands <= Z.to_nat (limitOr r 20))%nat) as Hlen.
  { unfold lift in E4.
    destruct (findProducts env isUnlistedApproved _ (snd s3)) as [o w4] eqn:Ef.
    cbn in E4. simplify_eq.
    apply (findProducts_length isUnlistedApproved (limitOr r 20) (snd s3)).
    by rewrite Ef. }
  apply listAll_counts in E5.
  assert (listedCounter (fst s') = n) as Hc.
  { pose proof (preserves_Ok _ _ _ _ _ (keep_runSave listedCounter) H) as K8.
    pose proof (preserves_Ok _ _ _ _ _
                  (keep_pushLog listedCounter _ _ ltac:(reflexivity)) E7) as K7.
    cbn beta in K7, K8. rewrite K8, K7.
    destruct s5 as [r5 w5]. unfold onResults, onRun, getLocal, setLocal in E6.
    munfold. simplify_eq. reflexivity. }
  unfold listedCounter in Hc. rewrite Hc.
  assert (limitOr r 20 = limitOr (fst s) 20) as <- by (unfold limitOr; by rewrite Hmax).
  lia.
Qed.

(** The counters of a run that went through. *)
Lemma pipelineBody_counts t run w s' :
  pipelineBody env t (run, w) = (Ok tt, s') ->
  0 <= productsValidated (results (fst s')) /\
  0 <= productsRejected (results (fst s')) /\
  productsValidated (results (fst s')) + productsRejected (results (fst s'))
  <= Z.max 0 (limitOr run 50) /\
  0 <= productsListed (results (fst s')) <= Z.max 0 (limitOr run 20).
Proof.
  unfold pipelineBody. intros H.
  apply bind_Ok_inv in H as ([] & s0 & E0 & H).
  apply bind_Ok_inv in H as ([] & s1 & E1 & H).
  apply bind_Ok_inv in H as ([] & s2 & E2 & H).
  apply bind_Ok_inv in H as ([] & s3 & E3 & H).
  apply bind_Ok_inv in H as ([] & s4 & E4 & H).
  apply bind_Ok_inv in H as ([] & s5 & E5 & H).
  apply bind_Ok_inv in H as ([] & s6 & E6 & H).
  apply bind_Ok_inv in H as ([] & s7 & E7 & H).
  apply bind_Ok_inv in H as ([] & s8 & E8 & H).
  apply bind_Ok_inv in H as ([] & s9 & E9 & H).
  pose proof (preserves_Ok _ _ _ _ _ maxProducts_start E0) as M0.
  pose proof (preserves_Ok _ _ _ _ _ maxProducts_stage1 E1) as M1.
  pose proof (preserves_Ok _ _ _ _ _ maxProducts_stage2 E2) as M2.
  pose proof (preserves_Ok _ _ _ _ _ maxProducts_stage3 E3) as M3.
  pose proof (preserves_Ok _ _ _ _ _ maxProducts_stage4 E4) as M4.
  cbn beta in M0, M1, M2, M3, M4. cbn [fst] in M0.
  pose proof (stage4_counts _ _ E4) as H4.
  pose proof (stage5_counts _ _ E5) as H5.
  assert (limitOr (fst s3) 50 = limitOr run 50) as Hl3
    by (unfold limitOr; replace (maxProducts (fst s3)) with (maxProducts run)
          by congruence; done).
  assert (limitOr (fst s4) 20 = limitOr run 20) as Hl4
    by (unfold limitOr; replace (maxProducts (fst s4)) with (maxProducts run)
          by congruence; done).
  rewrite Hl3 in H4. rewrite Hl4 in H5.
  pose proof (preserves_Ok _ _ _ _ _ counters_stage5 E5) as C5.
  pose proof (preserves_Ok _ _ _ _ _ counters_stage6 E6) as C6.
  pose proof (preserves_Ok _ _ _ _ _ (counters_complete _) E7) as C7.
  pose proof (preserves_Ok _ _ _ _ _ counters_autoList E8) as C8.
  pose proof (preserves_Ok _ _ _ _ _ counters_notifyChannels E9) as C9.
  pose proof (preserves_Ok _ _ _ _ _
                (keep_lift validationCounters (log "info" "Pipeline completed")) H) as C10.
  pose proof (preserves_Ok _ _ _ _ _ listed_stage6 E6) as L6.
  pose proof (preserves_Ok _ _ _ _ _ (listed_complete _) E7) as L7.
  pose proof (preserves_Ok _ _ _ _ _ listed_autoList E8) as L8.
  pose proof (preserves_Ok _ _ _ _ _ listed_notifyChannels E9) as L9.
  pose proof (preserves_Ok _ _ _ _ _
                (keep_lift listedCounter (log "info" "Pipeline completed")) H) as L10.
  cbn beta in *.
  assert (validationCounters (fst s') = validationCounters (fst s4)) as Hc by congruence.
  assert (listedCounter (fst s') = listedCounter (fst s5)) as Hl by congruence.
  unfold validationCounters in Hc. unfold listedCounter in Hl.
  injection Hc as Hc1 Hc2. rewrite Hc1, Hc2, Hl. tauto.
Qed.

End CounterFacts.

Section PipelineProperties.
Import Pipeline Routes.

(** X8.  The counters of a completed run stay within the run's limits:
    stage 4 examined at most [maxProducts] candidates (50 by default),
    each counted once as validated or rejected, and stage 5 listed at
    most [maxProducts] products (20 by default). *)
Theorem completed_run_counters (env : Env) (run : PipelineRun) (w : World) :
  (forall n, maxProducts run = Some n -> 0 <= n) ->
  fst (fst (executePipeline env run w)) = Ok tt ->
  let res := results (snd (fst (executePipeline env run w))) in
  0 <= productsValidated res /\
  0 <= productsRejected res /\
  productsValidated res + productsRejected res <= limitOr run 50 /\
  0 <= productsListed res <= limitOr run 20.
Proof.
  intros Hmax Hok. cbv zeta.
  assert (forall d, 0 <= d -> Z.max 0 (limitOr run d) = limitOr run d) as Hlim.
  { intros d Hd. unfold limitOr, orZ. destruct (maxProducts run) as [n|] eqn:E; [|lia].
    specialize (Hmax n eq_refl). destruct (Z.eqb_spec n 0); lia. }
  unfold executePipeline, tryCatch in *.
  destruct (pipelineBody env _ (run, w)) as [[[]|e] s1] eqn:E.
  - cbn [fst snd]. destruct s1 as [r1 w1].
    pose proof (pipelineBody_counts env _ _ _ _ E) as H. cbn [fst] in H.
    rewrite !Hlim in H by lia. exact H.
  - destruct (onFailure_throws env (now env (tick w)) e s1) as (e' & s' & E' & _).
    rewrite E' in Hok. discriminate.
Qed.

Lemma completed_run_counters_witness :
  let res := results (snd (fst (executePipeline Samples.pipelineEnv Samples.run
                                  Samples.pipelineWorld))) in
  productsValidated res + productsRejected res <= 50 /\
  productsListed res <= 20.
Proof.
  destruct (completed_run_counters Samples.pipelineEnv Samples.run
              Samples.pipelineWorld) as (_ & _ & H1 & H2).
  - discriminate.
  - reflexivity.
  - split; [exact H1|apply H2].
Defined.

(** X9.  An execution of the pipeline writes no run but its own: the
    store holds the same runs, in the same order, and every run with
    another identifier is left as it was. *)
Theorem executePipeline_own_run_only (env : Env) (run : PipelineRun) (w : World) :
  let w' := snd (executePipeline env run w) in
  map r_id (runs w') = map r_id (runs w) /\
  (forall i r, runs w !! i = Some r -> r_id r <> r_id run -> runs w' !! i = Some r) /\
  r_id (snd (fst (executePipeline env run w))) = r_id run.
Proof.
  destruct (frame_executePipeline env run w) as (Hid & Hruns & _). cbn [fst snd] in *.
  split; [|split; [|done]].
  - induction Hruns as [|x y l k [Hxy _] _ IH]; [done|]. cbn. by rewrite Hxy, IH.
  - intros i r Hi Hne.
    destruct (Forall2_lookup_l _ _ _ _ _ Hruns Hi) as (y & Hy & _ & Hsame).
    by rewrite Hy, (Hsame Hne).
Qed.

(** X10.  Validation settles a product for good unless it merely misses
    the bar: a candidate that was approved, or rejected with a reason, is
    no candidate of any later run, while one that was declined stays a
    candidate, unchanged. *)
Theorem validation_settles (p : Product) (t : Z) (rid : string) :
  isCandidate p = true ->
  (isCandidate (validated t rid p) = true <-> verdict p = Decline) /\
  (verdict p = Decline -> validated t rid p = p).
Proof.
  intros Hc. unfold validated, verdict.
  repeat match goal with
         | |- context [if ?b then _ else _] => destruct b
         end;
    cbn -[isCandidate];
    (split; [split; intros H; try discriminate; try done|intros H; try discriminate; try done]).
  all: try (unfold isCandidate in H; cbn in H;
            rewrite ?andb_false_r, ?andb_false_l in H; discriminate).
Qed.

Lemma validation_settles_witness :
  isCandidate Samples.marginOnly = true /\
  isCandidate (validated 0 "run-10" Samples.marginOnly) = false.
Proof.
  destruct (validation_settles Samples.marginOnly 0 "run-10" eq_refl) as [H _].
  split; [reflexivity|].
  destruct (isCandidate (validated 0 "run-10" Samples.marginOnly)); [|reflexivity].
  destruct H as [H _]. specialize (H eq_refl). discriminate H.
Defined.

(** X11.  The listing query of stage 5 asks for products without a
    [woocommerceProductId] field, and the schema default gives every new
    product that field, set to null: a product stored by stage 1 is never
    selected for listing, approved or not. *)
Theorem discovered_product_never_listed (env : Env) (id : nat)
  (d : TrendScout.ScannedProduct) (t : Z) (rid : string) :
  let p := discoveredProduct id d in
  woocommerceProductId p = Null /\
  isUnlistedApproved p = false /\
  isUnlistedApproved (validated t rid p) = false /\
  (forall n w l, fst (findProducts env isUnlistedApproved n w) = Ok l ->
                 ~ In (validated t rid p) l).
Proof.
  cbv zeta.
  assert (forall q, woocommerceProductId q = Null -> isUnlistedApproved q = false) as Hnull.
  { intros q Hq. unfold isUnlistedApproved. rewrite Hq. apply andb_false_r. }
  assert (woocommerceProductId (validated t rid (discoveredProduct id d)) = Null) as Hv.
  { unfold validated. by destruct (verdict _). }
  split; [done|]. split; [by apply Hnull|]. split; [by apply Hnull|].
  intros n w l Hl Hin.
  assert (isUnlistedApproved (validated t rid (discoveredProduct id d)) = true) as Ht.
  { revert Hl. unfold findProducts, dbOp, step. munfold. cbn.
    destruct (dbError env (tick w)); cbn; [done|]. intros [= <-].
    assert (In (validated t rid (discoveredProduct id d))
               (List.filter isUnlistedApproved (products w))) as Hf.
    { destruct n; [|done]. apply list_elem_of_In. apply list_elem_of_In in Hin.
      eapply subseteq_take; eauto. }
    apply List.filter_In in Hf. tauto. }
  rewrite (Hnull _ Hv) in Ht. discriminate.
Qed.




(** Below that price the invented compare price can undercut the selling
    price: 1.05 is struck through as 1. *)
Example compare_price_below_selling_price :
  let p := mkProduct 4 "Sticker" 1 1 "" "" true (105 # 100) 0 0 Null 0 false None
                     "" "" Missing "" in
  comparePriceAud (storedPaths p (setAutoListedProduct p)) = inject_Z 1 /\
  (comparePriceAud (storedPaths p (setAutoListedProduct p)) < sellingPriceAud p)%Q.
Proof. vm_compute. split; reflexivity. Qed.

(** The sweep of the webhook, made twice in a row, lists the same product
    twice. *)
Example autoListWebhook_lists_again :
  let r := autoListWebhook Samples.pipelineEnv Samples.pipelineWorld in
  let r' := autoListWebhook Samples.pipelineEnv (snd r) in
  fst r = Ok 1 /\ fst r' = Ok 1.
Proof. vm_compute. split; reflexivity. Qed.

(** X13.  The secret of the pipeline webhook is optional: a request that
    carries none, or an empty one, is served exactly as one that carries
    the right secret; only a wrong, non-empty secret is refused, and then
    nothing is read or written. *)
Theorem webhook_secret_optional (env : Env) (expected : string)
  (type : option string) (n : Z) (w : World) :
  webhookRoute env expected None type n w
  = webhookRoute env expected (Some expected) type n w /\
  webhookRoute env expected (Some "") type n w
  = webhookRoute env expected (Some expected) type n w /\
  (forall s, s <> "" -> s <> expected ->
             webhookRoute env expected (Some s) type n w = (Ok Unauthorized, w)).
Proof.
  unfold webhookRoute, secretRefused.
  rewrite String.eqb_refl, andb_false_r. cbn [truthyStr String.eqb negb andb].
  split; [done|]. split; [done|].
  intros s Hs Hne. unfold truthyStr.
  rewrite (proj2 (String.eqb_neq s "")) by done.
  rewrite (proj2 (String.eqb_neq s expected)) by done. reflexivity.
Qed.

End PipelineProperties.

Section PriceUpdateFacts.
Import Pipeline Routes.
Variable env : Env.
Variable penv : PriceEnv.

Global Instance noStoreUpdate_preorder : PreOrder noStoreUpdate.
Proof.
  split.
  - intros w. exists []. by rewrite app_nil_r.
  - intros w1 w2 w3 (e1 & H1 & C1) (e2 & H2 & C2). exists (e1 ++ e2)%list.
    rewrite H2, H1, app_assoc. split; [done|].
    unfold callsTo in *. by rewrite List.filter_app, C1, C2.
Qed.

Lemma noStoreUpdate_events w w' evs :
  trace w' = (trace w ++ evs)%list ->
  callsTo "wooCommerceService.updateProduct" evs = [] ->
  noStoreUpdate w w'.
Proof. intros Ht Hc. by exists evs. Qed.

Lemma noStoreUpdate_dbOp : respects noStoreUpdate (dbOp env).
Proof.
  intros w. unfold dbOp, step. munfold. cbn.
  destruct (dbError env (tick w)); cbn;
    (apply noStoreUpdate_events with []; [by rewrite app_nil_r|done]).
Qed.

Lemma noStoreUpdate_log lvl msg : respects noStoreUpdate (log lvl msg).
Proof. intros w. cbn. by eapply noStoreUpdate_events. Qed.

Lemma noStoreUpdate_saveProduct p : respects noStoreUpdate (saveProduct env p).
Proof.
  intros w. unfold saveProduct, dbOp, step. munfold. cbn.
  destruct (dbError env (tick w)); cbn;
    (apply noStoreUpdate_events with []; [by rewrite app_nil_r|done]).
Qed.

Lemma noStoreUpdate_findProducts f n : respects noStoreUpdate (findProducts env f n).
Proof.
  intros w. unfold findProducts, dbOp, step. munfold. cbn.
  destruct (dbError env (tick w)); cbn;
    (apply noStoreUpdate_events with []; [by rewrite app_nil_r|done]).
Qed.

Lemma noStoreUpdate_calculatePrice p :
  respects noStoreUpdate
    (call "pricingEngine.calculatePrice" (title p) (fun n => calculatePrice penv n p)).
Proof.
  intros w. unfold call, emit, step. munfold. cbn.
  destruct (calculatePrice penv (tick w) p); cbn; by eapply noStoreUpdate_events.
Qed.

(** The price the route compares the new price with is the new price. *)
Lemma spread_same_price old pricing :
  Qltb (1 # 100)
       (Qabs (pr_sellingPriceAud (spread old pricing) - pr_sellingPriceAud pricing))
  = false.
Proof.
  unfold spread. cbn [pr_sellingPriceAud]. apply Qltb_ge.
  assert (pr_sellingPriceAud pricing - pr_sellingPriceAud pricing == 0)%Q as -> by ring.
  by vm_compute.
Qed.

Lemma noStoreUpdate_repriceOne old p :
  respects noStoreUpdate (repriceOne env penv old p).
Proof.
  unfold repriceOne.
  apply respects_bind; [apply _|apply noStoreUpdate_calculatePrice|intros pricing].
  rewrite spread_same_price, andb_false_r.
  apply respects_bind; [apply _|apply respects_ret, _|intros _].
  apply noStoreUpdate_saveProduct.
Qed.

Lemma repriceTurn_spec old n p :
  returns
    (tryCatch
       (repriceOne env penv (old p) p ;; ret (n + 1))
       (fun err =>
          log "warn" ("Price update failed for " ++ title p
                      ++ ": " ++ message err)%string ;;
          ret n))
    (fun w n' w' => noStoreUpdate w w' /\ n <= n' <= n + 1).
Proof.
  intros w. pose proof (noStoreUpdate_repriceOne (old p) p w) as Hr.
  unfold tryCatch, bind.
  destruct (repriceOne env penv (old p) p w) as [[[]|e] w1]; cbn in Hr.
  - eexists _, _. split; [reflexivity|]. split; [done|lia].
  - eexists _, _. split; [reflexivity|]. split; [|lia].
    etrans; [exact Hr|]. by eapply noStoreUpdate_events.
Qed.

Lemma repriceAll_spec old l :
  forall n,
  returns
    (foldM (fun updated product =>
              tryCatch
                (repriceOne env penv (old product) product ;; ret (updated + 1))
                (fun err =>
                   log "warn" ("Price update failed for " ++ title product
                               ++ ": " ++ message err)%string ;;
                   ret updated)) n l)
    (fun w n' w' => noStoreUpdate w w' /\ n <= n' <= n + Z.of_nat (List.length l)).
Proof.
  induction l as [|p l IH]; intros n; cbn [foldM].
  - apply returns_ret. intros w. split; [reflexivity|cbn; lia].
  - eapply returns_bind; [apply (repriceTurn_spec old n p)|intros n1; apply (IH n1)|].
    cbn beta. intros w n1 w1 n' w' [H1 B1] [H2 B2].
    split; [by etrans|]. cbn [List.length]. lia.
Qed.

Lemma priceUpdate_spec old w :
  exists r w',
    priceUpdate env penv old w = (Ok r, w') /\
    noStoreUpdate w w' /\
    match r with
    | Updated updated total => 0 <= updated <= total
    | PriceError _ => True
    end.
Proof.
  unfold priceUpdate, tryCatch.
  pose proof (noStoreUpdate_findProducts isActive None w) as Hf.
  unfold bind at 1.
  destruct (findProducts env isActive None w) as [[l|e] w1]; cbn in Hf.
  - destruct (repriceAll_spec old l 0 w1) as (n & w2 & E & Hn & Hb).
    rewrite (bind_Ok _ _ _ _ _ E). unfold ret.
    eexists _, _. split; [reflexivity|]. split; [by etrans|]. cbn. lia.
  - unfold ret. eexists _, _. split; [reflexivity|]. done.
Qed.

End PriceUpdateFacts.

Section PriceUpdateProperties.
Import Pipeline Routes.

(** X14.  [POST /price-update] never throws and never pushes a price to
    WooCommerce: the price it compares the new price with is the new
    price itself, so the difference is zero for every product.  It
    answers with a count of products saved that is at most the number of
    active products. *)
Theorem priceUpdate_never_updates_store (env : Env) (penv : PriceEnv)
  (oldPricing : Product -> option Pricing) (w : World) :
  exists r w' evs,
    priceUpdate env penv oldPricing w = (Ok r, w') /\
    trace w' = (trace w ++ evs)%list /\
    callsTo "wooCommerceService.updateProduct" evs = [] /\
    match r with
    | Updated updated total => 0 <= updated <= total
    | PriceError _ => True
    end.
Proof.
  destruct (priceUpdate_spec env penv oldPricing w) as (r & w' & E & (evs & Ht & Hc) & Hr).
  by exists r, w', evs.
Qed.

(** On the sample catalogue the three active products are repriced and
    saved, one of them on the storefront channel, and the channel hears
    nothing. *)
Example priceUpdate_sample :
  let r := priceUpdate Samples.pipelineEnv Cases.priceEnv (fun _ => None)
                       Samples.pipelineWorld in
  fst r = Ok (Updated 3 3) /\
  map sellingPriceAud (products (snd r)) = [2995 # 100; 2995 # 100; 2995 # 100]%Q /\
  callsTo "wooCommerceService.updateProduct" (trace (snd r)) = [] /\
  List.length (callsTo "pricingEngine.calculatePrice" (trace (snd r))) = 3%nat.
Proof. vm_compute. repeat split. Qed.

End PriceUpdateProperties.

(** ** Marketing: broadcasts and the approval queue *)

Section BroadcastFacts.
Import Marketing.
Variable env : Env.

Ltac poster_unfold :=
  unfold postTo, postToInstagram, postToFacebook, postToPinterest, settled,
    canPost, dateNow, generateSocialCopy, axiosPost, sleep, markPosted, spLog,
    emit, step in *;
  munfold.

(** The fields of the poster that no publish writes. *)
Lemma postProductToAll_config p :
  preserves (fun w => setLastPostTime ∅ (socialPoster w)) (postProductToAll env p).
Proof.
  unfold postProductToAll, postToInstagram, postToFacebook, postToPinterest, settled,
    canPost, generateSocialCopy, spLog, axiosPost, sleep, markPosted, bridgeSend,
    emit, step, dateNow.
  preserves_tac.
  all: try (intros s; reflexivity).
Qed.

Lemma postProductToAll_queueState p :
  preserves queueState (postProductToAll env p).
Proof.
  unfold postProductToAll, postToInstagram, postToFacebook, postToPinterest, settled,
    canPost, generateSocialCopy, spLog, axiosPost, sleep, markPosted, bridgeSend,
    emit, step, dateNow.
  preserves_tac.
  all: try (intros s; reflexivity).
Qed.

Lemma settled_config m :
  preserves (fun w => setLastPostTime ∅ (socialPoster w)) m ->
  preserves (fun w => setLastPostTime ∅ (socialPoster w)) (settled m).
Proof. intros H. unfold settled. apply preserves_tryCatch; [done|intros e]. apply preserves_ret. Qed.

Lemma postTo_config c p :
  preserves (fun w => setLastPostTime ∅ (socialPoster w)) (postTo env c p).
Proof.
  destruct c; cbn [postTo];
    unfold postToInstagram, postToFacebook, postToPinterest,
      canPost, generateSocialCopy, spLog, axiosPost, sleep, markPosted, emit, step,
      dateNow;
    preserves_tac; try (intros s; reflexivity).
Qed.

Lemma settled_returns (m : M World PostResult) w :
  exists r w', settled m w = (Ok r, w').
Proof.
  unfold settled, tryCatch. destruct (m w) as [[r|e] w']; eauto.
Qed.

Lemma config_logger w w' :
  setLastPostTime ∅ (socialPoster w') = setLastPostTime ∅ (socialPoster w) ->
  sp_logger (socialPoster w') = sp_logger (socialPoster w) /\
  sp_clawdbotBridge (socialPoster w') = sp_clawdbotBridge (socialPoster w) /\
  forall c, channelEnabled c (socialPoster w') = channelEnabled c (socialPoster w).
Proof.
  intros H. split; [|split].
  - by apply (f_equal sp_logger) in H.
  - by apply (f_equal sp_clawdbotBridge) in H.
  - intros []; cbn.
    + by apply (f_equal igEnabled) in H.
    + by apply (f_equal metaEnabled) in H.
    + by apply (f_equal pinterestEnabled) in H.
Qed.

Lemma settled_not_configured c p w :
  channelEnabled c (socialPoster w) = false ->
  settled (postTo env c p) w = (Ok (failure "not_configured"), w).
Proof.
  intros H. destruct c; cbn in H; poster_unfold; cbn; by rewrite H.
Qed.

Lemma spLog_logged level msg w :
  sp_logger (socialPoster w) = true ->
  spLog level msg w = (Ok tt, setTrace (trace w ++ [EvLog level msg]) w).
Proof. intros H. unfold spLog, emit. munfold. cbn. by rewrite H. Qed.

Lemma postProductToAll_returns p w :
  sp_logger (socialPoster w) = true ->
  exists r w',
    postProductToAll env p w = (Ok r, w') /\
    forall c, channelEnabled c (socialPoster w) = false ->
              channelResult c r = failure "not_configured".
Proof.
  intros Hlog. unfold postProductToAll.
  rewrite (bind_Ok _ _ _ _ _ (spLog_logged _ _ w Hlog)).
  set (w0 := setTrace _ w).
  assert (socialPoster w0 = socialPoster w) as H0 by reflexivity.
  destruct (settled_returns (postToInstagram env p) w0) as (r0 & w1 & E1).
  destruct (settled_returns (postToFacebook env p) w1) as (r1 & w2 & E2).
  destruct (settled_returns (postToPinterest env p) w2) as (r2 & w3 & E3).
  pose proof (settled_config _ (postTo_config Instagram p) w0) as C1.
  pose proof (settled_config _ (postTo_config Facebook p) w1) as C2.
  pose proof (settled_config _ (postTo_config Pinterest p) w2) as C3.
  cbn [postTo] in C1, C2, C3. rewrite E1 in C1. rewrite E2 in C2. rewrite E3 in C3.
  cbn [snd] in C1, C2, C3. rewrite H0 in C1.
  destruct (config_logger _ _ C1) as (L1 & _ & En1).
  rewrite C1 in C2. destruct (config_logger _ _ C2) as (L2 & _ & En2).
  rewrite C2 in C3. destruct (config_logger _ _ C3) as (L3 & _ & En3).
  rewrite (bind_Ok _ _ _ _ _ E1), (bind_Ok _ _ _ _ _ E2), (bind_Ok _ _ _ _ _ E3).
  assert (exists w4, (if sp_clawdbotBridge (socialPoster w3)
                      then tryCatch (bridgeSend env "marketing_social_report")
                             (fun err => spLog "warn"
                                ("SocialPoster: OpenClaw report failed: " ++ message err))
                      else ret tt) w3 = (Ok tt, w4)) as [w4 E4].
  { destruct (sp_clawdbotBridge (socialPoster w3)); [|by eexists].
    unfold tryCatch.
    destruct (bridgeSend env "marketing_social_report" w3) as [[[]|e] w4] eqn:Eb;
      [by eexists|].
    assert (sp_logger (socialPoster w4) = true) as L4.
    { revert Eb. unfold bridgeSend, emit, step. munfold. cbn.
      destruct (sendCommand env (tick w3)); intros; simplify_eq. cbn. congruence. }
    rewrite (spLog_logged _ _ w4 L4). by eexists. }
  unfold gets at 1. unfold bind at 1. rewrite (bind_Ok _ _ _ _ _ E4).
  eexists _, _. split; [reflexivity|].
  intros c Hc. destruct c; cbn [channelResult instagram facebook pinterest].
  - pose proof (settled_not_configured Instagram p w0 ltac:(by rewrite H0)) as N.
    cbn [postTo] in N. rewrite N in E1. by simplify_eq.
  - pose proof (settled_not_configured Facebook p w1 (eq_trans (En1 Facebook) Hc)) as N.
    cbn [postTo] in N. rewrite N in E2. by simplify_eq.
  - pose proof (settled_not_configured Pinterest p w2
                  (eq_trans (En2 Pinterest) Hc)) as N.
    cbn [postTo] in N. rewrite N in E3. by simplify_eq.
Qed.

(** A publish that succeeded stamped its channel with the clock as it
    reads when the publish returns. *)
Lemma postTo_success_time c p w r w' :
  postTo env c p w = (Ok r, w') -> success r = true ->
  channelEnabled c (socialPoster w') = true /\
  lastPostTime (socialPoster w') !! channelKey c = Some (now env (tick w')) /\
  minPostIntervalMs (socialPoster w') = minPostIntervalMs (socialPoster w).
Proof.
  intros H Hs.
  destruct c; poster_unfold; cbn in H;
    repeat (case_step_in H; cbn in * );
    simplify_eq; cbn in *; try discriminate;
    (split; [by destruct (_ (socialPoster w))
            | split; [apply lookup_insert_eq|reflexivity]]).
Qed.

Lemma successCount_range r : 0 <= successCount r <= 3.
Proof.
  unfold successCount.
  destruct (instagram r) as [[] ? ? ?], (facebook r) as [[] ? ? ?],
    (pinterest r) as [[] ? ? ?]; vm_compute; split; discriminate.
Qed.

End BroadcastFacts.

Section BroadcastProperties.
Import Marketing.

(** X15.  A broadcast never throws once the poster has its logger: what
    the platforms and the alerting bridge do, throwing included, ends up
    in the three results; a channel that is not configured answers
    [not_configured]; and the content queue, the orchestrator and the
    poster's configuration are left as they were. *)
Theorem postProductToAll_never_throws (env : Env) (p : Product) (w : World) :
  sp_logger (socialPoster w) = true ->
  exists r w',
    postProductToAll env p w = (Ok r, w') /\
    queueState w' = queueState w /\
    sameConfig w w' /\
    (forall c, channelEnabled c (socialPoster w) = false ->
               channelResult c r = failure "not_configured").
Proof.
  intros Hlog. destruct (postProductToAll_returns env p w Hlog) as (r & w' & E & Hn).
  exists r, w'. split; [exact E|].
  pose proof (postProductToAll_queueState env p w) as Hq.
  pose proof (postProductToAll_config env p w) as Hc.
  rewrite E in Hq, Hc. done.
Qed.

Lemma postProductToAll_never_throws_witness :
  exists r w',
    postProductToAll Samples.env Samples.product Samples.world = (Ok r, w') /\
    contents w' = contents Samples.world.
Proof.
  destruct (postProductToAll_never_throws Samples.env Samples.product Samples.world)
    as (r & w' & E & Hq & _); [reflexivity|].
  exists r, w'. split; [exact E|]. by injection Hq.
Defined.

(** X16.  After a publish that succeeded, the same channel is closed for
    the whole interval: any publish attempted on it while the clock has
    advanced by less than [minPostIntervalMs] answers [rate_limited] and
    changes nothing, whatever the product. *)
Theorem repost_is_rate_limited (env : Env) (c : Channel) (p p' : Product)
  (w w' w'' : World) (r : PostResult) :
  postTo env c p w = (Ok r, w') ->
  success r = true ->
  socialPoster w'' = socialPoster w' ->
  now env (tick w'') - now env (tick w') < minPostIntervalMs (socialPoster w) ->
  postTo env c p' w'' = (Ok (failure "rate_limited"), w'').
Proof.
  intros H Hs Hsp Hclk.
  destruct (postTo_success_time env c p w r w' H Hs) as (He & Hl & Hi).
  apply (postTo_rate_limited env c p' w'' (now env (tick w'))).
  - by rewrite Hsp.
  - by rewrite Hsp.
  - rewrite Hsp, Hi. exact Hclk.
Qed.

Lemma repost_is_rate_limited_witness :
  exists r w',
    postTo Samples.env Facebook Samples.product Samples.world = (Ok r, w') /\
    success r = true /\
    postTo Samples.env Facebook Samples.product w'
    = (Ok (failure "rate_limited"), w').
Proof.
  assert (exists r w',
            postTo Samples.env Facebook Samples.product Samples.world = (Ok r, w') /\
            success r = true) as (r & w' & E & Hs).
  { eexists _, _. split; [vm_compute; reflexivity|reflexivity]. }
  exists r, w'. split; [exact E|]. split; [exact Hs|].
  apply (repost_is_rate_limited Samples.env Facebook Samples.product Samples.product
           Samples.world w' w' r E Hs eq_refl).
  rewrite Z.sub_diag. reflexivity.
Defined.

(** X17.  A forced post adds to [socialPostsSent] the number of channels
    that succeeded, between 0 and 3, and leaves every other counter, the
    content queue and the activity feed as they were. *)
Theorem forcePostProduct_accounting (env : Env) (p : Product)
  (w w' : World) (r : PostResults) :
  forcePostProduct env p w = (Ok r, w') ->
  0 <= successCount r <= 3 /\
  stats (orchestrator w')
  = addSocialPostsSent (successCount r) (stats (orchestrator w)) /\
  socialPostsSent (stats (orchestrator w'))
  = socialPostsSent (stats (orchestrator w)) + successCount r /\
  contents w' = contents w /\
  recentActivity (orchestrator w') = recentActivity (orchestrator w).
Proof.
  intros H. split; [apply successCount_range|].
  unfold forcePostProduct in H.
  apply bind_Ok_inv in H as ([] & wc & Ec & H). unfold modify in Ec. simplify_eq.
  apply bind_Ok_inv in H as (res & wp & H & Hs).
  apply bind_Ok_inv in Hs as ([] & ws & Em & Hs). unfold ret in Hs. simplify_eq.
  pose proof (postProductToAll_queueState env p
                (setSocialPoster (setLastPostTime ∅ (socialPoster w)) w)) as Hq.
  rewrite H in Hq. cbn [snd] in Hq. unfold queueState in Hq. cbn in Hq.
  injection Hq as Hc Ho _ _.
  unfold modifyStats, modify in Em. simplify_eq. cbn. rewrite Ho, Hc. done.
Qed.

Lemma forcePostProduct_accounting_witness :
  exists r w',
    forcePostProduct Samples.env Samples.product Samples.worldJustPosted = (Ok r, w') /\
    socialPostsSent (stats (orchestrator w')) = 3.
Proof.
  assert (exists r w',
            forcePostProduct Samples.env Samples.product Samples.worldJustPosted
            = (Ok r, w') /\ successCount r = 3) as (r & w' & E & Hs).
  { eexists _, _. split; [vm_compute; reflexivity|reflexivity]. }
  exists r, w'. split; [exact E|].
  destruct (forcePostProduct_accounting Samples.env Samples.product
              Samples.worldJustPosted w' r E) as (_ & _ & H & _).
  rewrite H, Hs. reflexivity.
Defined.

End BroadcastProperties.

Section QueueProperties.
Import Marketing.

Lemma removelast_take {A} (l : list A) :
  removelast l = take (Nat.pred (List.length l)) l.
Proof.
  induction l as [|x l IH]; [done|].
  destruct l as [|y l]; [done|]. cbn [removelast] in *.
  change (removelast (x :: y :: l)) with (x :: removelast (y :: l)).
  rewrite IH. reflexivity.
Qed.

(** X18.  The three operations of the approval queue refuse an identifier
    that is not in the store with 'Content not found': the lookup is
    their only exchange with the outside, and nothing is written. *)
Theorem unknown_content_is_refused (env : Env) (id : nat) (why : string) (w : World) :
  lookupContent id w = None ->
  dbError env (tick w) = None ->
  let w' := setTrace (trace w ++ [EvDbFind "MarketingContent" id])
                     (setTick (Datatypes.S (tick w)) w) in
  approveContent env id w = (Throw (Err "Content not found"), w') /\
  rejectContent env id why w = (Throw (Err "Content not found"), w') /\
  regenerateContent env id w = (Throw (Err "Content not found"), w') /\
  contents w' = contents w /\ orchestrator w' = orchestrator w /\
  socialPoster w' = socialPoster w.
Proof.
  intros Hc Hdb. unfold lookupContent in Hc. cbv zeta.
  unfold approveContent, approveAndSave, rejectContent, regenerateContent,
    findById, dbOp, step, emit.
  munfold. cbn. rewrite Hdb. cbn. rewrite Hc. done.
Qed.

Lemma unknown_content_is_refused_witness :
  fst (approveContent Samples.env 42 Samples.world) = Throw (Err "Content not found") /\
  fst (rejectContent Samples.env 42 "" Samples.world) = Throw (Err "Content not found").
Proof.
  destruct (unknown_content_is_refused Samples.env 42 "" Samples.world eq_refl eq_refl)
    as (Ha & Hr & _).
  rewrite Ha, Hr. split; reflexivity.
Defined.

(** X19.  The activity feed is a ring buffer: an entry is put in front,
    and a feed of at most 200 entries stays at most 200 long, the oldest
    entry making room. *)
Theorem activity_feed_bounded (env : Env) (type msg : string) (w : World) :
  (List.length (recentActivity (orchestrator w)) <= 200)%nat ->
  let w' := snd (addActivity env type msg w) in
  fst (addActivity env type msg w) = Ok tt /\
  recentActivity (orchestrator w')
  = take 200 (mkActivity type msg (now env (tick w))
              :: recentActivity (orchestrator w)) /\
  (List.length (recentActivity (orchestrator w')) <= 200)%nat /\
  stats (orchestrator w') = stats (orchestrator w) /\
  contents w' = contents w.
Proof.
  intros Hlen. cbv zeta.
  set (x := mkActivity type msg (now env (tick w))).
  set (l := recentActivity (orchestrator w)) in *.
  assert ((if 200 <? Z.of_nat (List.length (x :: l)) then removelast (x :: l) else x :: l)
          = take 200 (x :: l)) as Ht.
  { destruct (Z.ltb_spec 200 (Z.of_nat (List.length (x :: l)))) as [H|H].
    - rewrite removelast_take. cbn [List.length Nat.pred] in *.
      replace (List.length l) with 200%nat by lia. reflexivity.
    - rewrite take_ge; [done|]. lia. }
  assert (addActivity env type msg w
          = (Ok tt, setOrchestrator
                      (setRecentActivity
                         (if 200 <? Z.of_nat (List.length (x :: l))
                          then removelast (x :: l) else x :: l)
                         (orchestrator w)) w)) as -> by reflexivity.
  rewrite Ht. cbn [fst snd]. split; [done|]. split; [done|].
  split; [|done].
  change (recentActivity _) with (take 200 (x :: l)). rewrite length_take. lia.
Qed.

Lemma activity_feed_bounded_witness :
  List.length (recentActivity (orchestrator
                 (snd (addActivity Samples.env "social" "Posted" Samples.world))))
  = 1%nat.
Proof.
  destruct (activity_feed_bounded Samples.env "social" "Posted" Samples.world)
    as (_ & H & _); [vm_compute; lia|].
  rewrite H. reflexivity.
Defined.

End QueueProperties.

Section ApprovalFacts.
Import Marketing.
Variable env : Env.

Lemma tryCatch_total {S A} (m : M S A) (h : Error -> M S A) s :
  (forall e s1, exists a s', h e s1 = (Ok a, s')) ->
  exists a s', tryCatch m h s = (Ok a, s').
Proof. intros H. unfold tryCatch. destruct (m s) as [[a|e] s']; eauto. Qed.

(** The posting step of an approval never throws once the poster has its
    logger. *)
Lemma postContentToAll_returns post w :
  sp_logger (socialPoster w) = true ->
  exists r w',
    postContentToAll env post w = (Ok r, w') /\
    forall c, channelEnabled c (socialPoster w) = false ->
              channelResult c r = failure "not_configured".
Proof.
  intros Hlog. unfold postContentToAll.
  rewrite (bind_Ok _ _ _ _ _ (spLog_logged _ _ w Hlog)).
  set (w0 := setTrace _ w).
  rewrite (bind_Ok _ _ w0 (socialPoster w) w0) by reflexivity.
  match goal with
  | |- context [bind (if igEnabled ?sp then ?m else ?d) ?k] =>
      assert (exists ig w1, (if igEnabled sp then m else d) w0 = (Ok ig, w1) /\
                (igEnabled sp = false -> ig = failure "not_configured"))
        as (ig & w1 & E1 & N1)
  end.
  { destruct (igEnabled (socialPoster w)); [|by eexists _, _].
    match goal with
    | |- context [tryCatch ?m ?h w0] =>
        destruct (tryCatch_total m h w0) as (r & w1 & E);
          [intros; eexists _, _; reflexivity|]
    end.
    exists r, w1. by split. }
  rewrite (bind_Ok _ _ _ _ _ E1).
  match goal with
  | |- context [bind (if metaEnabled ?sp then ?m else ?d) ?k] =>
      assert (exists fb w2, (if metaEnabled sp then m else d) w1 = (Ok fb, w2) /\
                (metaEnabled sp = false -> fb = failure "not_configured"))
        as (fb & w2 & E2 & N2)
  end.
  { destruct (metaEnabled (socialPoster w)); [|by eexists _, _].
    match goal with
    | |- context [tryCatch ?m ?h w1] =>
        destruct (tryCatch_total m h w1) as (r & w2 & E);
          [intros; eexists _, _; reflexivity|]
    end.
    exists r, w2. by split. }
  rewrite (bind_Ok _ _ _ _ _ E2).
  match goal with
  | |- context [bind (if pinterestEnabled ?sp then ?m else ?d) ?k] =>
      assert (exists pin w3, (if pinterestEnabled sp then m else d) w2 = (Ok pin, w3) /\
                (pinterestEnabled sp = false -> pin = failure "not_configured"))
        as (pin & w3 & E3 & N3)
  end.
  { destruct (pinterestEnabled (socialPoster w)); [|by eexists _, _].
    match goal with
    | |- context [tryCatch ?m ?h w2] =>
        destruct (tryCatch_total m h w2) as (r & w3 & E);
          [intros; eexists _, _; reflexivity|]
    end.
    exists r, w3. by split. }
  rewrite (bind_Ok _ _ _ _ _ E3).
  assert (exists w4, (if sp_clawdbotBridge (socialPoster w)
                      then tryCatch (bridgeSend env "marketing_content_posted")
                             (fun _ => ret tt)
                      else ret tt) w3 = (Ok tt, w4)) as [w4 E4].
  { destruct (sp_clawdbotBridge (socialPoster w)); [|by eexists].
    destruct (tryCatch_total (bridgeSend env "marketing_content_posted")
                (fun _ => ret tt) w3) as ([] & w4 & E);
      [intros; eexists _, _; reflexivity|]. by exists w4. }
  rewrite (bind_Ok _ _ _ _ _ E4).
  eexists _, _. split; [reflexivity|].
  intros []; cbn; auto.
Qed.

Lemma approveAndSave_pending id w c :
  lookupContent id w = Some c -> status c = PendingApproval ->
  dbError env (tick w) = None -> dbError env (Datatypes.S (tick w)) = None ->
  exists w1,
    approveAndSave env id w
    = (Ok (setApproved (now env (Datatypes.S (tick w))) c), w1) /\
    contents w1 = updateById (setApproved (now env (Datatypes.S (tick w))) c) (contents w) /\
    stats (orchestrator w1) = incContentApproved (stats (orchestrator w)) /\
    recentActivity (orchestrator w1) = recentActivity (orchestrator w) /\
    o_logger (orchestrator w1) = o_logger (orchestrator w) /\
    socialPoster w1 = socialPoster w /\
    tick w1 = Datatypes.S (Datatypes.S (tick w)).
Proof.
  intros Hc Hst H1 H2. unfold lookupContent in Hc.
  unfold approveAndSave, findById, save, modifyStats, dateNow, dbOp, step, emit.
  munfold. cbn. rewrite H1. cbn. rewrite Hc. cbn. rewrite Hst. cbn. rewrite H2. cbn.
  eexists. split; [reflexivity|]. done.
Qed.

Lemma autoPost_posted c1 w1 :
  sp_logger (socialPoster w1) = true ->
  (forall n, dbError env n = None) ->
  (exists c0, find (fun x => Nat.eqb (c_id x) (c_id c1)) (contents w1) = Some c0) ->
  exists results t' w',
    autoPost env c1 w1
    = (Ok (mkApproveResult true (Some (successCount results)) (Some results) None), w') /\
    lookupContent (c_id c1) w' = Some (setPosted t' results c1) /\
    stats (orchestrator w')
    = addSocialPostsSent (successCount results) (stats (orchestrator w1)) /\
    (forall ch, channelEnabled ch (socialPoster w1) = false ->
                channelResult ch results = failure "not_configured").
Proof.
  intros Hlog Hdb Hin.
  destruct (postContentToAll_returns (approvedPost c1) w1 Hlog) as (results & wp & Ep & Hn).
  pose proof (postContentToAll_queueState env (approvedPost c1) w1) as Hq.
  rewrite Ep in Hq. cbn [snd] in Hq. unfold queueState in Hq.
  injection Hq as Hqc Hqo Hqp Hqn.
  exists results, (now env (tick wp)).
  unfold autoPost, tryCatch. rewrite (bind_Ok _ _ _ _ _ Ep).
  unfold save, modifyStats, addActivity, dateNow, dbOp, step, emit. munfold. cbn.
  rewrite Hdb. cbn.
  eexists. split; [reflexivity|]. unfold lookupContent. cbn.
  split; [|split; [by rewrite Hqo|exact Hn]].
  rewrite Hqc.
  apply (find_updateById (setPosted (now env (tick wp)) results c1)). exact Hin.
Qed.

End ApprovalFacts.

Section ApprovalProperties.
Import Marketing.

(** X20.  Approving a pending item marks it [posted], whatever the
    channels did: with a database that answers and a poster that has its
    logger, [approveContent] returns success with the number of channels
    that took the post, between 0 and 3, the item is stored as [posted]
    with the three results, and the counters move by one approval and
    that many posts.  A channel that is not configured counts as a
    failure, so that an item can be [posted] to no channel at all. *)
Theorem approved_content_is_marked_posted (env : Env) (id : nat) (w : World)
  (c : MarketingContent) :
  lookupContent id w = Some c ->
  status c = PendingApproval ->
  (forall n, dbError env n = None) ->
  sp_logger (socialPoster w) = true ->
  exists results t t' w',
    approveContent env id w
    = (Ok (mkApproveResult true (Some (successCount results)) (Some results) None), w') /\
    0 <= successCount results <= 3 /\
    lookupContent id w' = Some (setPosted t' results (setApproved t c)) /\
    contentApproved (stats (orchestrator w'))
    = contentApproved (stats (orchestrator w)) + 1 /\
    socialPostsSent (stats (orchestrator w'))
    = socialPostsSent (stats (orchestrator w)) + successCount results /\
    (forall ch, channelEnabled ch (socialPoster w) = false ->
                channelResult ch results = failure "not_configured").
Proof.
  intros Hc Hst Hdb Hlog.
  pose proof (find_c_id _ _ _ Hc) as Hid.
  destruct (approveAndSave_pending env id w c Hc Hst (Hdb _) (Hdb _))
    as (w1 & E1 & Hc1 & Hs1 & _ & _ & Hsp1 & _).
  set (c1 := setApproved (now env (Datatypes.S (tick w))) c) in *.
  assert (c_id c1 = id) as Hid1 by exact Hid.
  destruct (autoPost_posted env c1 w1) as (results & t' & w' & E2 & Hl & Hs2 & Hn).
  { by rewrite Hsp1. }
  { exact Hdb. }
  { exists c1. rewrite Hc1. apply (find_updateById c1). exists c.
    rewrite Hid1. exact Hc. }
  exists results, (now env (Datatypes.S (tick w))), t', w'.
  unfold approveContent. rewrite (bind_Ok _ _ _ _ _ E1).
  split; [exact E2|]. split; [apply successCount_range|].
  split; [by rewrite <- Hid1|].
  rewrite Hs2, Hs1. split; [done|]. split; [done|].
  intros ch Hch. apply Hn. by rewrite Hsp1.
Qed.

Lemma approved_content_is_marked_posted_witness :
  exists res w',
    approveContent Samples.env 1 Samples.world = (Ok res, w') /\
    r_success res = true /\
    (status <$> lookupContent 1 w') = Some Posted.
Proof.
  destruct (approved_content_is_marked_posted Samples.env 1 Samples.world
              (Samples.content 1 7 PendingApproval))
    as (results & t & t' & w' & E & _ & Hl & _).
  - reflexivity.
  - reflexivity.
  - reflexivity.
  - reflexivity.
  - eexists _, w'. split; [exact E|]. split; [reflexivity|].
    rewrite Hl. reflexivity.
Defined.

(** With no channel configured the item is posted to nobody, and marked
    [posted] all the same. *)
Example posted_to_no_channel :
  let w := setSocialPoster
             (initSocialPoster true true (newSocialPoster "" "" "" "" "" ""))
             Samples.world in
  let r := approveContent Samples.env 1 w in
  (r_posted <$> (match fst r with Ok res => Some res | Throw _ => None end))
  = Some (Some 0) /\
  (status <$> lookupContent 1 (snd r)) = Some Posted.
Proof. vm_compute. split; reflexivity. Qed.

End ApprovalProperties.

(** ** Marketing: queue statistics, the social queue and content runs *)

Section QueueStatsFacts.
Import Marketing Orchestration.
Variable env : Env.

Lemma withStatus_partition l :
  (List.length (withStatus PendingApproval l) + List.length (withStatus Approved l)
   + List.length (withStatus Rejected l) + List.length (withStatus Posted l)
   + List.length (withStatus Generating l) + List.length (withStatus Failed l))%nat
  = List.length l.
Proof.
  induction l as [|c l IH]; [done|].
  unfold withStatus in *. cbn. destruct (status c); cbn; lia.
Qed.

Lemma dbOp_Ok_inv w u w' :
  dbOp env w = (Ok u, w') -> w' = setTick (Datatypes.S (tick w)) w.
Proof.
  unfold dbOp, step. munfold. cbn. destruct (dbError env (tick w)); intros; by simplify_eq.
Qed.

Lemma dbOp_ticked w : onlyTicked w (snd (dbOp env w)).
Proof.
  unfold dbOp, step, onlyTicked. munfold. cbn.
  destruct (dbError env (tick w)); cbn; by destruct w.
Qed.

Lemma onlyTicked_trans w1 w2 w3 : onlyTicked w1 w2 -> onlyTicked w2 w3 -> onlyTicked w1 w3.
Proof.
  unfold onlyTicked, setTick. destruct w1, w2, w3. cbn. intros H1 H2. congruence.
Qed.

Lemma onlyTicked_contents w w' : onlyTicked w w' -> contents w' = contents w.
Proof. unfold onlyTicked. by intros ->. Qed.

Lemma countDocuments_Ok_inv st w n w' :
  countDocuments env st w = (Ok n, w') ->
  n = Z.of_nat (List.length (withStatus st (contents w))) /\ onlyTicked w w'.
Proof.
  unfold countDocuments. intros H. bind_inv H. apply dbOp_Ok_inv in E.
  unfold gets in H. simplify_eq. split; [done|]. by destruct w.
Qed.

Lemma countDocuments_ticked st w : onlyTicked w (snd (countDocuments env st w)).
Proof.
  unfold countDocuments, bind, gets. pose proof (dbOp_ticked w) as H.
  by destruct (dbOp env w) as [[[]|e] w1].
Qed.

Lemma totalGenerationCost_Ok_inv w x w' :
  totalGenerationCost env w = (Ok x, w') ->
  (x == fold_right Qplus 0 (map generationCost (contents w)))%Q /\ onlyTicked w w'.
Proof.
  unfold totalGenerationCost. intros H. bind_inv H. apply dbOp_Ok_inv in E.
  unfold gets in H. simplify_eq. split; [|by destruct w].
  cbn. unfold orNum. destruct (Qeq_bool _ 0) eqn:E; [|reflexivity].
  apply Qeq_bool_iff in E. by rewrite E.
Qed.

Lemma totalGenerationCost_ticked w : onlyTicked w (snd (totalGenerationCost env w)).
Proof.
  unfold totalGenerationCost, bind, gets. pose proof (dbOp_ticked w) as H.
  by destruct (dbOp env w) as [[[]|e] w1].
Qed.

Lemma bind_ticked {A B} (m : M World A) (k : A -> M World B) :
  (forall w, onlyTicked w (snd (m w))) ->
  (forall a w, onlyTicked w (snd (k a w))) ->
  forall w, onlyTicked w (snd (bind m k w)).
Proof.
  intros Hm Hk w. unfold bind. specialize (Hm w).
  destruct (m w) as [[a|e] w1]; [|done].
  eapply onlyTicked_trans; [exact Hm|apply Hk].
Qed.

Lemma getContentQueueStats_ticked w : onlyTicked w (snd (getContentQueueStats env w)).
Proof.
  unfold getContentQueueStats.
  repeat (apply bind_ticked; [apply countDocuments_ticked|intros ?]).
  apply bind_ticked; [apply totalGenerationCost_ticked|intros ? ?].
  unfold ret, onlyTicked. cbn. by destruct w0.
Qed.

End QueueStatsFacts.

Section QueueStatsProperties.
Import Marketing Orchestration.

(** X21.  The queue statistics partition the collection: when
    [getContentQueueStats] returns, the six counts add up to the number of
    stored documents, the total cost is the sum of their generation costs
    (zero for an empty collection), and, returning or throwing, the call
    has written nothing. *)
Theorem queue_stats_partition (env : Env) (w : World) :
  onlyTicked w (snd (getContentQueueStats env w)) /\
  forall st w', getContentQueueStats env w = (Ok st, w') ->
    qs_pending st + qs_approved st + qs_rejected st + qs_posted st
    + qs_generating st + qs_failed st = Z.of_nat (List.length (contents w)) /\
    (qs_totalCost st == fold_right Qplus 0 (map generationCost (contents w)))%Q.
Proof.
  split; [apply getContentQueueStats_ticked|].
  intros st w' H. unfold getContentQueueStats in H.
  do 7 (bind_inv H).
  apply countDocuments_Ok_inv in E as [-> T1].
  apply countDocuments_Ok_inv in E0 as [-> T2].
  apply countDocuments_Ok_inv in E1 as [-> T3].
  apply countDocuments_Ok_inv in E2 as [-> T4].
  apply countDocuments_Ok_inv in E3 as [-> T5].
  apply countDocuments_Ok_inv in E4 as [-> T6].
  apply totalGenerationCost_Ok_inv in E5 as [Hc T7].
  unfold ret in H. simplify_eq. cbn.
  apply onlyTicked_contents in T1, T2, T3, T4, T5, T6.
  rewrite Hc, T6, T5, T4, T3, T2, T1. split; [|reflexivity].
  pose proof (withStatus_partition (contents w)). lia.
Qed.

Lemma queue_stats_partition_witness :
  exists st w',
    getContentQueueStats Samples.env Samples.world = (Ok st, w') /\
    qs_pending st = 2 /\ qs_posted st = 1 /\
    qs_pending st + qs_approved st + qs_rejected st + qs_posted st
    + qs_generating st + qs_failed st = 3.
Proof.
  destruct (getContentQueueStats Samples.env Samples.world) as [[st|e] w'] eqn:E;
    [|vm_compute in E; discriminate].
  exists st, w'. split; [reflexivity|].
  destruct (queue_stats_partition Samples.env Samples.world) as [_ H].
  destruct (H st w' E) as [Hs _].
  vm_compute in E. injection E as <- _. split; [reflexivity|]. split; [reflexivity|].
  exact Hs.
Defined.

End QueueStatsProperties.

Section AdminGuardProperties.
Import MarketingRoutes.

(** X26.  The guard of the marketing admin routes compares the API key
    with the configured one even when none is configured: with
    CLAWDBOT_API_KEY unset, a request whose X-API-Key header is empty is
    let through, whatever the passwords; with ADMIN_PASSWORD unset, the
    built-in password opens the routes; and a request that carries no
    credential at all is always refused. *)
Theorem clawdbotAuth_edge_cases (envPassword envKey : string) (req : Request) :
  (envKey = "" -> xApiKey req = Some "" ->
   clawdbotAuth envPassword envKey req = true) /\
  (envPassword = "" -> xAdminPassword req = Some "xeriaco2026" ->
   clawdbotAuth envPassword envKey req = true) /\
  (xAdminPassword req = None -> queryPassword req = None -> xApiKey req = None ->
   clawdbotAuth envPassword envKey req = false) /\
  (envKey <> "" -> xAdminPassword req = None -> queryPassword req = None ->
   clawdbotAuth envPassword envKey req = true -> xApiKey req = Some envKey).
Proof.
  unfold clawdbotAuth, adminPassword, clawdbotApiKey.
  split; [|split; [|split]].
  - intros -> ->. cbn. apply orb_true_r.
  - intros -> ->. reflexivity.
  - intros -> -> ->. reflexivity.
  - intros Hk -> ->. cbn. destruct (xApiKey req) as [k|]; [|discriminate]. cbn.
    unfold orStr. destruct (String.eqb_spec envKey ""); [done|].
    intros H. apply String.eqb_eq in H. by subst.
Qed.

Lemma clawdbotAuth_edge_cases_witness :
  clawdbotAuth "s3cret" "" (mkRequest None None (Some "")) = true /\
  clawdbotAuth "" "key-1" (mkRequest (Some "xeriaco2026") None None) = true.
Proof.
  split.
  - destruct (clawdbotAuth_edge_cases "s3cret" "" (mkRequest None None (Some "")))
      as [H _].
    apply H; reflexivity.
  - destruct (clawdbotAuth_edge_cases "" "key-1"
                (mkRequest (Some "xeriaco2026") None None)) as (_ & H & _).
    apply H; reflexivity.
Defined.

End AdminGuardProperties.

Section OneDocumentFacts.
Import Marketing Orchestration.
Variable env : Env.
Variable id : nat.

#[local] Instance onlyDocument_preorder : PreOrder (onlyDocument id).
Proof.
  split.
  - intros w. repeat split. apply Forall2_same. by intros x.
  - intros w1 w2 w3 (P1 & N1 & H1) (P2 & N2 & H2).
    split; [congruence|]. split; [congruence|].
    revert H2. generalize (contents w3). clear -H1.
    induction H1 as [|x y l l' [Hid Hxy] _ IH]; intros l3 H3;
      inversion H3 as [|y' z ? ? [Hid' Hyz] H3']; subst; constructor.
    + split; [congruence|]. intros Hx. rewrite Hyz, Hxy; congruence.
    + by apply IH.
Qed.

(** A step that leaves the store as it is. *)
Lemma onlyDocument_store {A} (m : M World A) :
  preserves (fun w => (contents w, products w, nextId w)) m ->
  respects (onlyDocument id) m.
Proof.
  intros H w. specialize (H w). cbn in H. injection H as Hc Hp Hn.
  split; [done|]. split; [done|]. rewrite Hc. apply Forall2_same. by intros x.
Qed.

Lemma onlyDocument_save c :
  c_id c = id -> respects (onlyDocument id) (save env c).
Proof.
  intros Hc w. unfold save, dbOp, step, emit. munfold. cbn.
  destruct (dbError env (tick w)); cbn.
  - repeat split. apply Forall2_same. by intros x.
  - repeat split. unfold updateById.
    induction (contents w) as [|x l IH]; cbn; constructor; [|exact IH].
    destruct (Nat.eqb_spec (c_id x) (c_id c)) as [E|E]; [|done].
    split; [done|]. intros Hx. congruence.
Qed.

Lemma findById_found w c w' :
  findById env id w = (Ok (Some c), w') -> c_id c = id.
Proof.
  unfold findById, dbOp, step, emit. munfold. cbn.
  destruct (dbError env (tick w)); cbn; [discriminate|].
  intros H. injection H as H _. by apply find_c_id in H.
Qed.

Lemma respects_bind_inv {S A B} (R : S -> S -> Prop) `{!PreOrder R}
  (m : M S A) (k : A -> M S B) :
  respects R m ->
  (forall s a s', m s = (Ok a, s') -> R s' (snd (k a s'))) ->
  respects R (bind m k).
Proof.
  intros Hm Hk s. unfold bind. specialize (Hm s). specialize (Hk s).
  destruct (m s) as [[a|e] s1]; cbn in *; [|done].
  etrans; [exact Hm|]. by apply Hk.
Qed.

Ltac store_tac :=
  apply onlyDocument_store;
  unfold findById, dateNow, modifyStats, addActivity, oLog, dbOp, step, emit;
  preserves_tac; try (intros ?; reflexivity).

Lemma onlyDocument_approveContent : respects (onlyDocument id) (approveContent env id).
Proof.
  unfold approveContent, approveAndSave.
  apply respects_bind_inv; [apply _| |].
  - apply respects_bind_inv; [apply _|store_tac|].
    intros s [c|] s' E; [|apply respects_throw; apply _].
    apply findById_found in E.
    destruct (negb _); [apply respects_throw; apply _|].
    apply respects_bind; [apply _|store_tac|intros t].
    apply respects_bind; [apply _|by apply onlyDocument_save|intros _].
    apply respects_bind; [apply _|store_tac|intros _].
    apply respects_ret; apply _.
  - intros s c s' E. apply approveAndSave_Ok_inv in E as (c0 & Hc0 & _ & -> & _).
    apply find_c_id in Hc0.
    unfold autoPost.
    apply respects_tryCatch; [apply _| |intros e].
    + apply respects_bind; [apply _| |intros r].
      { apply onlyDocument_store. intros w.
        pose proof (postContentToAll_queueState env (approvedPost (setApproved (now env (Datatypes.S (tick s))) c0)) w) as H.
        unfold queueState in H. by injection H as -> _ -> ->. }
      apply respects_bind; [apply _|store_tac|intros t].
      apply respects_bind; [apply _|by apply onlyDocument_save|intros _].
      apply respects_bind; [apply _|store_tac|intros _].
      apply respects_bind; [apply _|store_tac|intros _].
      apply respects_ret; apply _.
    + apply respects_bind; [apply _|store_tac|intros _].
      apply respects_ret; apply _.
Qed.

Lemma onlyDocument_rejectContent why :
  respects (onlyDocument id) (rejectContent env id why).
Proof.
  unfold rejectContent.
  apply respects_bind_inv; [apply _|store_tac|].
  intros s [c|] s' E; [|apply respects_throw; apply _].
  apply findById_found in E.
  apply respects_bind; [apply _|store_tac|intros t].
  apply respects_bind; [apply _|by apply onlyDocument_save|intros _].
  apply respects_bind; [apply _|store_tac|intros _].
  apply respects_bind; [apply _|store_tac|intros _].
  apply respects_ret; apply _.
Qed.

End OneDocumentFacts.

Section OneDocumentProperties.
Import Marketing Orchestration.

(** X22.  Approving or rejecting an item writes that item only: whatever
    the outcome, exceptions included, the collection holds the same
    documents in the same order afterwards, every document with another
    identifier is unchanged, and the product catalogue is not touched. *)
Theorem queue_operation_writes_one_document (env : Env) (id : nat) (why : string)
  (w : World) :
  onlyDocument id w (snd (approveContent env id w)) /\
  onlyDocument id w (snd (rejectContent env id why w)).
Proof.
  split; [apply onlyDocument_approveContent|apply onlyDocument_rejectContent].
Qed.

End OneDocumentProperties.

Section SocialQueueFacts.
Import Marketing Orchestration.
Variable env : Env.

Lemma queueDelays_emit e w :
  isQueueDelay e = false ->
  queueDelays (setTrace (trace w ++ [e]) w) = queueDelays w.
Proof.
  intros H. unfold queueDelays. cbn [trace setTrace].
  rewrite List.filter_app, length_app. cbn [List.filter]. rewrite H. cbn. lia.
Qed.

Lemma postProductToAll_delays p : preserves queueDelays (postProductToAll env p).
Proof.
  unfold postProductToAll, postToInstagram, postToFacebook, postToPinterest, settled,
    canPost, generateSocialCopy, spLog, axiosPost, sleep, markPosted, bridgeSend,
    emit, step, dateNow.
  preserves_tac.
  all: try (intros ?; reflexivity).
  all: apply preserves_modify; intros ?; by apply queueDelays_emit.
Qed.

Lemma addSocialHistory_spec pl p r h w :
  exists h',
    addSocialHistory env pl p r (h, w) = (Ok tt, (h', w)) /\
    ((List.length h <= 100)%nat ->
     List.length h' = Nat.min 100 (Datatypes.S (List.length h))).
Proof.
  unfold addSocialHistory, lift, getLocal, setLocal, dateNow. munfold. cbn [fst snd].
  eexists. split; [reflexivity|]. intros Hl.
  match goal with
  | |- context [if 100 <? Z.of_nat (List.length (?x :: h)) then _ else _] =>
      destruct (Z.ltb_spec 100 (Z.of_nat (List.length (x :: h)))) as [H|H];
        [rewrite removelast_take|]; cbn [List.length Nat.pred] in *
  end.
  - rewrite length_take. cbn [List.length]. lia.
  - lia.
Qed.

(** One turn of the queue, once both singletons have their logger. *)
Lemma postQueued_spec p h w :
  o_logger (orchestrator w) = true -> sp_logger (socialPoster w) = true ->
  exists h' w',
    postQueued env p (h, w) = (Ok tt, (h', w')) /\
    o_logger (orchestrator w') = true /\ sp_logger (socialPoster w') = true /\
    pendingProducts (orchestrator w') = pendingProducts (orchestrator w) /\
    isProcessing (orchestrator w') = isProcessing (orchestrator w) /\
    contents w' = contents w /\
    socialPostsSent (stats (orchestrator w))
    <= socialPostsSent (stats (orchestrator w'))
    <= socialPostsSent (stats (orchestrator w)) + 3 /\
    ((List.length h <= 100)%nat ->
     List.length h' = Nat.min 100 (3 + List.length h)) /\
    queueDelays w'
    = (queueDelays w
       + match pendingProducts (orchestrator w) with [] => 0 | _ => 1 end)%nat.
Proof.
  intros Ho Hs.
  destruct (postProductToAll_returns env p w Hs) as (r & w1 & E & _).
  pose proof (postProductToAll_queueState env p w) as Hq.
  pose proof (postProductToAll_config env p w) as Hc.
  pose proof (postProductToAll_delays p w) as Hd.
  rewrite E in Hq, Hc, Hd. cbn [snd] in Hq, Hc, Hd.
  unfold queueState in Hq. injection Hq as Hqc Hqo _ _.
  apply config_logger in Hc as (Hl & _ & _).
  pose proof (successCount_range r) as Hn.
  assert (lift (L:=list HistoryEntry) (postProductToAll env p) (h, w) = (Ok r, (h, w1)))
    as EL by (unfold lift; cbn [fst snd]; by rewrite E).
  unfold postQueued. unfold bind at 1. unfold tryCatch.
  rewrite (bind_Ok _ _ _ _ _ EL).
  set (w2 := setOrchestrator
               (setStats (addSocialPostsSent (successCount r) (stats (orchestrator w1)))
                         (orchestrator w1)) w1).
  rewrite (bind_Ok _ _ (h, w1) tt (h, w2)) by reflexivity.
  destruct (addSocialHistory_spec "instagram" p (instagram r) h w2) as (h1 & E1 & L1).
  destruct (addSocialHistory_spec "facebook" p (facebook r) h1 w2) as (h2 & E2 & L2).
  destruct (addSocialHistory_spec "pinterest" p (pinterest r) h2 w2) as (h3 & E3 & L3).
  rewrite (bind_Ok _ _ _ _ _ E1), (bind_Ok _ _ _ _ _ E2), (bind_Ok _ _ _ _ _ E3).
  match goal with
  | |- context [lift (addActivity env ?t ?m) (h3, w2)] =>
      set (w3 := snd (addActivity env t m w2));
      assert (lift (L:=list HistoryEntry) (addActivity env t m) (h3, w2)
              = (Ok tt, (h3, w3))) as EA by reflexivity;
      assert (orchestrator w3
              = setRecentActivity (recentActivity (orchestrator w3)) (orchestrator w2)
              /\ contents w3 = contents w2 /\ socialPoster w3 = socialPoster w2
              /\ trace w3 = trace w2) as (Ho3 & Hc3 & Hs3 & Ht3)
        by (repeat split; reflexivity)
  end.
  rewrite EA. clearbody w3.
  assert (pendingProducts (orchestrator w3) = pendingProducts (orchestrator w)) as Hp.
  { rewrite Ho3. cbn. by rewrite Hqo. }
  unfold gets at 1. unfold bind at 1. cbn [lift fst snd].
  rewrite Hp.
  assert (queueDelays w3 = queueDelays w) as Hd3.
  { unfold queueDelays in *. rewrite Ht3. exact Hd. }
  assert (o_logger (orchestrator w3) = true /\ sp_logger (socialPoster w3) = true
          /\ isProcessing (orchestrator w3) = isProcessing (orchestrator w)
          /\ contents w3 = contents w
          /\ socialPostsSent (stats (orchestrator w3))
             = socialPostsSent (stats (orchestrator w)) + successCount r)
    as (G1 & G2 & G3 & G4 & G5).
  { rewrite Ho3, Hs3, Hc3. cbn. rewrite Hqo, Hl, Hqc. done. }
  assert ((List.length h <= 100)%nat ->
          List.length h3 = Nat.min 100 (3 + List.length h)) as GL.
  { intros Hh. specialize (L1 Hh).
    assert (List.length h1 <= 100)%nat as Hh1 by lia. specialize (L2 Hh1).
    assert (List.length h2 <= 100)%nat as Hh2 by lia. specialize (L3 Hh2). lia. }
  destruct (pendingProducts (orchestrator w)) as [|q rest] eqn:Eq.
  - cbn [List.length Z.of_nat Z.ltb Z.compare]. unfold ret.
    exists h3, w3. split; [reflexivity|]. repeat split; try done; try lia.
  - assert ((0 <? Z.of_nat (List.length (q :: rest))) = true) as ->
      by (apply Z.ltb_lt; cbn [List.length]; lia).
    exists h3, (snd (sleep postDelayMs w3)). split; [reflexivity|].
    unfold sleep, emit, step. munfold. cbn [snd fst].
    cbn [orchestrator socialPoster contents setTick setTrace].
    repeat split; try done; try lia.
    rewrite <- Hd3. unfold queueDelays. cbn [trace setTick setTrace].
    rewrite List.filter_app, length_app. reflexivity.
Qed.

Lemma whileQueued_spec fuel : forall h w,
  o_logger (orchestrator w) = true -> sp_logger (socialPoster w) = true ->
  (List.length (pendingProducts (orchestrator w)) <= fuel)%nat ->
  let n := List.length (pendingProducts (orchestrator w)) in
  exists h' w',
    whileQueued env fuel (h, w) = (Ok tt, (h', w')) /\
    pendingProducts (orchestrator w') = [] /\
    isProcessing (orchestrator w') = isProcessing (orchestrator w) /\
    contents w' = contents w /\
    socialPostsSent (stats (orchestrator w))
    <= socialPostsSent (stats (orchestrator w'))
    <= socialPostsSent (stats (orchestrator w)) + 3 * Z.of_nat n /\
    ((List.length h <= 100)%nat ->
     List.length h' = Nat.min 100 (3 * n + List.length h)) /\
    queueDelays w' = (queueDelays w + Nat.pred n)%nat.
Proof.
  induction fuel as [|fuel IH]; intros h w Ho Hs Hf; cbv zeta.
  - destruct (pendingProducts (orchestrator w)) as [|q rest] eqn:Eq;
      [|cbn in Hf; lia].
    exists h, w. split; [reflexivity|]. rewrite Eq. cbn [List.length].
    repeat split; try done; try lia.
  - cbn [whileQueued]. unfold gets at 1. unfold bind at 1. cbn [lift fst snd].
    destruct (pendingProducts (orchestrator w)) as [|q rest] eqn:Eq.
    { exists h, w. split; [reflexivity|]. cbn [List.length].
      repeat split; try done; try lia. }
    set (w0 := setOrchestrator (setPendingProducts rest (orchestrator w)) w).
    rewrite (bind_Ok _ _ (h, w) tt (h, w0)) by reflexivity.
    destruct (postQueued_spec q h w0 Ho Hs)
      as (h1 & w1 & E1 & Ho1 & Hs1 & Hp1 & Hi1 & Hc1 & Hn1 & Hl1 & Hd1).
    rewrite (bind_Ok _ _ _ _ _ E1).
    change (pendingProducts (orchestrator w0)) with rest in Hp1, Hd1.
    change (isProcessing (orchestrator w0)) with (isProcessing (orchestrator w)) in Hi1.
    change (contents w0) with (contents w) in Hc1.
    change (stats (orchestrator w0)) with (stats (orchestrator w)) in Hn1.
    change (queueDelays w0) with (queueDelays w) in Hd1.
    cbn [List.length] in Hf.
    destruct (IH h1 w1 Ho1 Hs1 ltac:(rewrite Hp1; lia))
      as (h' & w' & E & Hp & Hi & Hc & Hn & Hl & Hd).
    rewrite Hp1 in Hn, Hl, Hd.
    exists h', w'. split; [exact E|].
    split; [done|]. split; [congruence|]. split; [congruence|].
    cbn [List.length]. split; [lia|]. split.
    + intros Hh. specialize (Hl1 Hh). rewrite Hl by lia. lia.
    + rewrite Hd, Hd1. destruct rest; cbn; lia.
Qed.

End SocialQueueFacts.

Section SocialQueueProperties.
Import Marketing Orchestration.

(** X23.  The social queue drains: with both loggers set and no run
    under way, [processSocialQueue] never throws, whatever the platforms
    do; it leaves the queue empty and [isProcessing] false, counts at most
    three posts per product, records three history entries per product in
    a history that stays at 100 entries, pauses [postDelayMs] between two
    products and not after the last, and writes no content document.  A
    call made while a run is under way does nothing. *)
Theorem processSocialQueue_drains (env : Env) (h : list HistoryEntry) (w : World) :
  o_logger (orchestrator w) = true -> sp_logger (socialPoster w) = true ->
  (List.length h <= 100)%nat ->
  let n := List.length (pendingProducts (orchestrator w)) in
  (isProcessing (orchestrator w) = true ->
   processSocialQueue env (h, w) = (Ok tt, (h, w))) /\
  (isProcessing (orchestrator w) = false ->
   exists h' w',
     processSocialQueue env (h, w) = (Ok tt, (h', w')) /\
     pendingProducts (orchestrator w') = [] /\
     isProcessing (orchestrator w') = false /\
     contents w' = contents w /\
     socialPostsSent (stats (orchestrator w))
     <= socialPostsSent (stats (orchestrator w'))
     <= socialPostsSent (stats (orchestrator w)) + 3 * Z.of_nat n /\
     List.length h' = Nat.min 100 (3 * n + List.length h) /\
     queueDelays w' = (queueDelays w + Nat.pred n)%nat).
Proof.
  intros Ho Hs Hh. cbv zeta. split.
  - intros Hp. unfold processSocialQueue, gets, bind, lift. cbn [fst snd].
    by rewrite Hp.
  - intros Hp. unfold processSocialQueue. unfold gets at 1. unfold bind at 1.
    cbn [lift fst snd]. rewrite Hp. cbn [orb].
    destruct (pendingProducts (orchestrator w)) as [|q rest] eqn:Eq.
    { exists h, w. split; [reflexivity|]. cbn [List.length].
      repeat split; try done; try lia. }
    assert ((Z.of_nat (List.length (q :: rest)) =? 0) = false) as ->
      by (apply Z.eqb_neq; cbn [List.length]; lia).
    set (w0 := setOrchestrator (setIsProcessing true (orchestrator w)) w).
    rewrite (bind_Ok _ _ (h, w) tt (h, w0)) by reflexivity.
    destruct (whileQueued_spec env (List.length (q :: rest)) h w0 Ho Hs)
      as (h' & w1 & E & Hp1 & Hi1 & Hc1 & Hn1 & Hl1 & Hd1).
    { change (pendingProducts (orchestrator w0)) with (pendingProducts (orchestrator w)).
      by rewrite Eq. }
    change (pendingProducts (orchestrator w0)) with (pendingProducts (orchestrator w))
      in Hn1, Hl1, Hd1.
    rewrite Eq in Hn1, Hl1, Hd1.
    rewrite (bind_Ok _ _ _ _ _ E).
    exists h', (setOrchestrator (setIsProcessing false (orchestrator w1)) w1).
    split; [reflexivity|]. cbn.
    split; [done|]. split; [done|]. split; [done|]. split; [exact Hn1|].
    split; [by apply Hl1|]. exact Hd1.
Qed.

Lemma processSocialQueue_drains_witness :
  exists h' w',
    processSocialQueue Samples.env
      ([], setOrchestrator
             (Orchestration.setPendingProducts [Samples.product; Samples.product]
                (orchestrator Samples.world)) Samples.world)
    = (Ok tt, (h', w')) /\
    pendingProducts (orchestrator w') = [] /\ List.length h' = 6%nat.
Proof.
  destruct (processSocialQueue_drains Samples.env []
              (setOrchestrator
                 (Orchestration.setPendingProducts [Samples.product; Samples.product]
                    (orchestrator Samples.world)) Samples.world))
    as [_ H]; [reflexivity|reflexivity|cbn; lia|].
  destruct (H eq_refl) as (h' & w' & E & Hp & _ & _ & _ & Hl & _).
  exists h', w'. split; [exact E|]. split; [exact Hp|]. exact Hl.
Defined.

End SocialQueueProperties.

Section EnsuresFacts.
Context {S : Type}.

Lemma ensures_ret {A} (a : A) (P : S -> Prop) (Q : A -> S -> Prop) K :
  (forall s, P s -> Q a s) -> ensures P (ret a) Q K.
Proof. intros H s Hs. by apply H. Qed.

Lemma ensures_bind {A B} (m : M S A) (k : A -> M S B) P Q R K :
  ensures P m Q K -> (forall a, ensures (Q a) (k a) R K) -> ensures P (bind m k) R K.
Proof.
  intros Hm Hk s Hs. unfold bind. specialize (Hm s Hs).
  destruct (m s) as [[a|e] s1]; [|done]. by apply Hk.
Qed.

Lemma ensures_tryCatch {A} (m : M S A) h P (Q : A -> S -> Prop) K' K :
  ensures P m Q K' -> (forall e, ensures K' (h e) Q K) -> ensures P (tryCatch m h) Q K.
Proof.
  intros Hm Hh s Hs. unfold tryCatch. specialize (Hm s Hs).
  destruct (m s) as [[a|e] s1]; [done|]. by apply Hh.
Qed.

Lemma ensures_weaken {A} (m : M S A) (P P' : S -> Prop) (Q Q' : A -> S -> Prop)
  (K K' : S -> Prop) :
  ensures P m Q K -> (forall s, P' s -> P s) -> (forall a s, Q a s -> Q' a s) ->
  (forall s, K s -> K' s) -> ensures P' m Q' K'.
Proof.
  intros Hm HP HQ HK s Hs. specialize (Hm s (HP s Hs)).
  destruct (m s) as [[a|e] s1]; auto.
Qed.

(** A step that leaves alone what the invariant reads. *)
Lemma ensures_keep {A B} (f : S -> B) (m : M S A) (P : S -> Prop) :
  preserves f m -> (forall s s', f s' = f s -> P s -> P s') ->
  ensures P m (fun _ => P) P.
Proof.
  intros Hf HP s Hs. specialize (Hf s).
  destruct (m s) as [[a|e] s1]; cbn in Hf; eauto.
Qed.

Lemma ensures_total {A} (m : M S A) P (Q : A -> S -> Prop) K :
  ensures P m Q K -> (forall s, P s -> exists a s', m s = (Ok a, s')) ->
  ensures P m Q (fun _ => False).
Proof.
  intros Hm Ht s Hs. pose proof (Hm s Hs) as H1. destruct (Ht s Hs) as (a & s' & E).
  rewrite E in H1 |- *. exact H1.
Qed.

Lemma ensures_forEach {A} (l : list A) (body : A -> M S unit) (P : S -> Prop) K :
  (forall x, ensures P (body x) (fun _ => P) K) ->
  ensures P (forEach l body) (fun _ => P) K.
Proof.
  intros H. induction l as [|x l IH]; cbn [forEach].
  - by apply ensures_ret.
  - eapply ensures_bind; [apply H|]. intros ?. exact IH.
Qed.

Lemma ensures_returns {A} (m : M S A) P (Q : A -> S -> Prop) s :
  ensures P m Q (fun _ => False) -> P s -> exists a s', m s = (Ok a, s') /\ Q a s'.
Proof.
  intros Hm Hs. specialize (Hm s Hs). destruct (m s) as [[a|e] s1]; [eauto|done].
Qed.

Lemma preserves_lift {L A B} (f : S -> B) (m : M S A) :
  preserves f m -> preserves (fun s : L * S => (fst s, f (snd s))) (lift m).
Proof. intros H [l s]. unfold lift. cbn. by rewrite (H s). Qed.

Lemma lift_total {L A} (m : M S A) (l : L) s :
  (exists a s', m s = (Ok a, s')) -> exists a s', lift m (l, s) = (Ok a, s').
Proof. intros (a & s' & E). unfold lift. cbn. rewrite E. by eexists _, _. Qed.

End EnsuresFacts.

Section ContentRunFacts.
Import Marketing Orchestration.
Variable env : Env.

Lemma length_updateFirst pick f l :
  List.length (updateFirst pick f l) = List.length l.
Proof. induction l as [|x l IH]; [done|]. cbn. destruct (pick x); cbn; congruence. Qed.

Lemma length_updateById c l : List.length (updateById c l) = List.length l.
Proof. apply length_map. Qed.

Lemma updateFirst_last pick f l c :
  Forall (fun x => pick x = false) l -> pick c = true ->
  updateFirst pick f (l ++ [c]) = (l ++ [f c])%list.
Proof.
  intros Hl Hc. induction Hl as [|x l Hx _ IH]; cbn.
  - by rewrite Hc.
  - by rewrite Hx, IH.
Qed.

Lemma updateFirst_none pick f l :
  Forall (fun x => pick x = false) l -> updateFirst pick f l = l.
Proof. induction 1 as [|x l Hx _ IH]; cbn; [done|]. by rewrite Hx, IH. Qed.

Lemma oLog_logged level msg w :
  o_logger (orchestrator w) = true ->
  oLog level msg w = (Ok tt, setTrace (trace w ++ [EvLog level msg]) w).
Proof. intros H. unfold oLog, emit. munfold. cbn. by rewrite H. Qed.

Lemma alertOpenClaw_total type w :
  o_logger (orchestrator w) = true -> exists a w', alertOpenClaw env type w = (Ok a, w').
Proof.
  intros Ho. unfold alertOpenClaw. unfold gets at 1. unfold bind at 1.
  destruct (negb _); [by eexists _, _|].
  unfold tryCatch. destruct (bridgeSend env type w) as [[[]|e] w1] eqn:E;
    [by eexists _, _|].
  rewrite oLog_logged; [by eexists _, _|].
  revert E. unfold bridgeSend, emit, step. munfold. cbn.
  destruct (sendCommand env (tick w)); intros; simplify_eq. exact Ho.
Qed.

(** *** What each step does to the accounting *)

Ltac obs_tac :=
  unfold findActiveContent, generate, alertOpenClaw, bridgeSend, freshId,
    addActivity, sleep, oLog, dateNow, dbOp, emit, step;
  preserves_tac; try (intros ?; reflexivity).

Lemma runObs_findActiveContent pid : preserves runObs (findActiveContent env pid).
Proof. obs_tac. Qed.
Lemma runObs_oLog lvl msg : preserves runObs (oLog lvl msg).
Proof. obs_tac. Qed.
Lemma runObs_freshId : preserves runObs freshId.
Proof. obs_tac. Qed.
Lemma runObs_generate p : preserves runObs (generate env p).
Proof. obs_tac. Qed.
Lemma runObs_addActivity t m : preserves runObs (addActivity env t m).
Proof. obs_tac. Qed.
Lemma runObs_alertOpenClaw t : preserves runObs (alertOpenClaw env t).
Proof. obs_tac. Qed.
Lemma runObs_sleep ms : preserves runObs (sleep ms).
Proof. obs_tac. Qed.
Lemma runObs_save c : preserves runObs (save env c).
Proof.
  unfold save, dbOp, emit, step. preserves_tac; try (intros ?; reflexivity).
  apply preserves_modify. intros w. unfold runObs. cbn. by rewrite length_updateById.
Qed.
Lemma runObs_updateOneGenerating pid msg :
  preserves runObs (updateOneGenerating env pid msg).
Proof.
  unfold updateOneGenerating, dbOp, step. preserves_tac; try (intros ?; reflexivity).
  apply preserves_modify. intros w. unfold runObs. cbn. by rewrite length_updateFirst.
Qed.

Lemma runView_lift {A} (m : M World A) :
  preserves runObs m -> preserves runView (lift (L:=Z * Z) m).
Proof. intros H. apply (preserves_lift runObs m H). Qed.

Lemma at_keep {A} (m : M World A) c n k :
  preserves runObs m ->
  ensures (runAt c n k) (lift (L:=Z * Z) m) (fun _ => runAt c n k) (runAt c n k).
Proof.
  intros H. apply (ensures_keep runView); [by apply runView_lift|].
  unfold runAt. intros s s' E Hs. by rewrite E.
Qed.

Lemma at_keep_total {A} (m : M World A) c n k :
  preserves runObs m ->
  (forall w, o_logger (orchestrator w) = true -> exists a w', m w = (Ok a, w')) ->
  ensures (runAt c n k) (lift (L:=Z * Z) m) (fun _ => runAt c n k) (fun _ => False).
Proof.
  intros H Ht. eapply ensures_total; [by apply at_keep|].
  intros [l w] Hs. apply lift_total, Ht.
  unfold runAt, runView, runObs in Hs. cbn in Hs. by simplify_eq.
Qed.

Lemma at_insert c n k doc :
  ensures (runAt c n k) (lift (L:=Z * Z) (insert env doc))
          (fun _ => runAt c n (Datatypes.S k)) (runAt c n k).
Proof.
  intros [l w] Hs. unfold runAt, runView, runObs in *. cbn in Hs.
  injection Hs as Hl Ho Hn Hk.
  unfold lift, insert, dbOp, step, emit. munfold. cbn.
  destruct (dbError env (tick w)); cbn; [congruence|].
  rewrite length_app. cbn. rewrite Hl, Ho, Hn, <- Hk. do 3 f_equal. lia.
Qed.

Lemma at_countGenerated c n k :
  ensures (runAt c n k) countGenerated
          (fun _ => runAt (fst c + 1, snd c) n k) (fun _ => False).
Proof.
  intros [l w] Hs. unfold runAt, runView, runObs in *. cbn in *.
  injection Hs as -> Ho Hn Hk. by rewrite Ho, Hn, Hk.
Qed.

Lemma at_countFailed c n k :
  ensures (runAt c n k) countFailed
          (fun _ => runAt (fst c, snd c + 1) n k) (fun _ => False).
Proof.
  intros [l w] Hs. unfold runAt, runView, runObs in *. cbn in *.
  injection Hs as -> Ho Hn Hk. by rewrite Ho, Hn, Hk.
Qed.

Lemma at_incContentGenerated c n k :
  ensures (runAt c n k) (lift (L:=Z * Z) (modifyStats incContentGenerated))
          (fun _ => runAt c (n + 1) k) (fun _ => False).
Proof.
  intros [l w] Hs. unfold runAt, runView, runObs in *. cbn in *.
  injection Hs as -> Ho Hn Hk. by rewrite Ho, Hn, Hk.
Qed.

Lemma generateOne_turn products entry c n k :
  ensures (runAt c n k) (generateOne env products entry)
          (fun _ => runTurn c n k) (fun _ => False).
Proof.
  unfold generateOne.
  eapply ensures_tryCatch
    with (K' := fun s => runAt c n k s \/ runAt c n (Datatypes.S k) s).
  - (* try *)
    eapply ensures_bind.
    { eapply ensures_weaken;
        [apply (at_keep _ c n k), runObs_findActiveContent|done|done|by left]. }
    intros [existing|].
    { eapply ensures_weaken; [apply (at_keep _ c n k), runObs_oLog|done| |];
        unfold runTurn; cbn; intros; tauto. }
    eapply ensures_bind.
    { eapply ensures_weaken;
        [apply (at_keep _ c n k), runObs_freshId|done|done|by left]. }
    intros id.
    eapply ensures_bind.
    { eapply ensures_weaken; [apply at_insert|done|done|by left]. }
    intros ?.
    eapply ensures_bind.
    { eapply ensures_weaken;
        [apply (at_keep _ c n (Datatypes.S k)), runObs_oLog|done|done|by right]. }
    intros ?.
    eapply ensures_bind.
    { eapply ensures_weaken;
        [apply (at_keep _ c n (Datatypes.S k)), runObs_generate|done|done|by right]. }
    intros content.
    eapply ensures_bind.
    { eapply ensures_weaken;
        [apply (at_keep _ c n (Datatypes.S k)), runObs_save|done|done|by right]. }
    intros ?.
    eapply ensures_bind.
    { eapply ensures_weaken; [apply at_countGenerated|done|done|done]. }
    intros ?.
    eapply ensures_bind.
    { eapply ensures_weaken; [apply at_incContentGenerated|done|done|done]. }
    intros ?.
    eapply ensures_bind.
    { eapply ensures_weaken;
        [apply at_keep_total; [apply runObs_addActivity|]|done|done|done].
      intros w _. by eexists _, _. }
    intros ?.
    eapply ensures_bind.
    { eapply ensures_weaken;
        [apply at_keep_total; [apply runObs_alertOpenClaw|]|done|done|done].
      intros w Ho. by apply alertOpenClaw_total. }
    intros ?.
    destruct (_ <? _).
    + eapply ensures_weaken;
        [apply at_keep_total; [apply (runObs_sleep 2000)|]|done| |done].
      * intros w _. by eexists _, _.
      * unfold runTurn; cbn; intros; tauto.
    + apply ensures_ret. unfold runTurn; cbn; intros; tauto.
  - (* catch *)
    intros err.
    eapply ensures_bind
      with (Q := fun _ s => runAt (fst c, snd c + 1) n k s
                            \/ runAt (fst c, snd c + 1) n (Datatypes.S k) s).
    { intros s [Hs|Hs].
      - pose proof (at_countFailed c n k s Hs) as H.
        destruct (countFailed s) as [[?|?] ?]; [by left|done].
      - pose proof (at_countFailed c n (Datatypes.S k) s Hs) as H.
        destruct (countFailed s) as [[?|?] ?]; [by right|done]. }
    intros ?.
    eapply ensures_bind
      with (Q := fun _ s => runAt (fst c, snd c + 1) n k s
                            \/ runAt (fst c, snd c + 1) n (Datatypes.S k) s).
    { intros s [Hs|Hs].
      - pose proof (at_keep_total (oLog "error"
                      ("Content generation failed for " ++ dquote ++ title (snd entry)
                       ++ dquote ++ ": " ++ message err)%string)
                      (fst c, snd c + 1) n k (runObs_oLog _ _)
                      (fun w Ho => ex_intro _ tt (ex_intro _ _ (oLog_logged _ _ w Ho)))
                      s Hs) as H.
        destruct (lift _ s) as [[?|?] ?]; [by left|done].
      - pose proof (at_keep_total (oLog "error"
                      ("Content generation failed for " ++ dquote ++ title (snd entry)
                       ++ dquote ++ ": " ++ message err)%string)
                      (fst c, snd c + 1) n (Datatypes.S k) (runObs_oLog _ _)
                      (fun w Ho => ex_intro _ tt (ex_intro _ _ (oLog_logged _ _ w Ho)))
                      s Hs) as H.
        destruct (lift _ s) as [[?|?] ?]; [by right|done]. }
    intros ?.
    eapply ensures_tryCatch
      with (K' := fun s => runAt (fst c, snd c + 1) n k s
                           \/ runAt (fst c, snd c + 1) n (Datatypes.S k) s).
    + intros s [Hs|Hs].
      * pose proof (at_keep _ (fst c, snd c + 1) n k
                      (runObs_updateOneGenerating (p_id (snd entry)) (message err))
                      s Hs) as H.
        destruct (lift _ s) as [[?|?] ?]; unfold runTurn; cbn; tauto.
      * pose proof (at_keep _ (fst c, snd c + 1) n (Datatypes.S k)
                      (runObs_updateOneGenerating (p_id (snd entry)) (message err))
                      s Hs) as H.
        destruct (lift _ s) as [[?|?] ?]; unfold runTurn; cbn; tauto.
    + intros ?. apply ensures_ret. unfold runTurn; cbn; intros; tauto.
Qed.

(** One turn of the loop: it returns, and counts its product at most
    once. *)
Lemma generateOne_spec products entry c w :
  o_logger (orchestrator w) = true ->
  exists c' w',
    generateOne env products entry (c, w) = (Ok tt, (c', w')) /\
    o_logger (orchestrator w') = true /\
    fst c <= fst c' /\ snd c <= snd c' /\ fst c' + snd c' <= fst c + snd c + 1 /\
    contentGenerated (stats (orchestrator w'))
    = contentGenerated (stats (orchestrator w)) + (fst c' - fst c) /\
    (List.length (contents w) <= List.length (contents w'))%nat /\
    Z.of_nat (List.length (contents w'))
    <= Z.of_nat (List.length (contents w)) + (fst c' - fst c) + (snd c' - snd c).
Proof.
  intros Ho.
  destruct (ensures_returns _ _ _ (c, w)
              (generateOne_turn products entry c
                 (contentGenerated (stats (orchestrator w)))
                 (List.length (contents w))))
    as ([] & [c' w'] & E & H).
  { unfold runAt, runView, runObs. cbn. by rewrite Ho. }
  exists c', w'. split; [exact E|].
  unfold runTurn, runAt, runView, runObs in H. cbn in H.
  destruct H as [H|[H|[H|H]]]; simplify_eq; cbn;
    repeat split; try done; lia.
Qed.

Lemma generateAll_spec products l : forall c w,
  o_logger (orchestrator w) = true ->
  exists c' w',
    forEach l (generateOne env products) (c, w) = (Ok tt, (c', w')) /\
    o_logger (orchestrator w') = true /\
    fst c <= fst c' /\ snd c <= snd c' /\
    fst c' + snd c' <= fst c + snd c + Z.of_nat (List.length l) /\
    contentGenerated (stats (orchestrator w'))
    = contentGenerated (stats (orchestrator w)) + (fst c' - fst c) /\
    (List.length (contents w) <= List.length (contents w'))%nat /\
    Z.of_nat (List.length (contents w'))
    <= Z.of_nat (List.length (contents w)) + (fst c' - fst c) + (snd c' - snd c).
Proof.
  induction l as [|x l IH]; intros c w Ho.
  - exists c, w. split; [reflexivity|]. cbn [List.length]. repeat split; try done; lia.
  - cbn [forEach].
    destruct (generateOne_spec products x c w Ho)
      as (c1 & w1 & E1 & Ho1 & A1 & B1 & C1 & D1 & L1 & M1).
    rewrite (bind_Ok _ _ _ _ _ E1).
    destruct (IH c1 w1 Ho1) as (c2 & w2 & E2 & Ho2 & A2 & B2 & C2 & D2 & L2 & M2).
    exists c2, w2. split; [exact E2|]. cbn [List.length].
    repeat split; try done; lia.
Qed.

End ContentRunFacts.

Section PlaceholderFacts.
Import Marketing Orchestration.
Variable env : Env.
Hypothesis Hdb : forall n, dbError env n = None.

Ltac keeps_tac :=
  unfold findActiveContent, generate, alertOpenClaw, bridgeSend, freshId,
    modifyStats, addActivity, sleep, oLog, dateNow, dbOp, emit, step;
  preserves_tac; try (intros ?; reflexivity).

Lemma clean_keep {A} (m : M World A) :
  preserves (fun w => (o_logger (orchestrator w), contents w)) m ->
  ensures runClean (lift (L:=Z * Z) m) (fun _ => runClean) runClean.
Proof.
  intros H. eapply ensures_keep; [exact (preserves_lift _ m H)|].
  unfold runClean, noneGenerating. intros [c w] [c' w'] E. cbn in *.
  injection E as _ -> ->. done.
Qed.

Lemma pending_keep {A} (m : M World A) c :
  preserves (fun w => (o_logger (orchestrator w), contents w)) m ->
  ensures (runPending c) (lift (L:=Z * Z) m) (fun _ => runPending c)
                     (runPending c).
Proof.
  intros H. eapply ensures_keep; [exact (preserves_lift _ m H)|].
  unfold runPending, placeholderLast. intros [l w] [l' w'] E. cbn in *.
  injection E as _ -> ->. done.
Qed.

Lemma clean_insert doc :
  status doc = Generating ->
  ensures runClean (lift (L:=Z * Z) (insert env doc)) (fun _ => runPending doc) runClean.
Proof.
  intros Hd [c w] [Ho Hg]. cbn in Ho, Hg.
  unfold lift, insert, dbOp, step, emit. munfold. cbn.
  destruct (dbError env (tick w)); cbn; [by split|].
  split; [done|]. split; [done|]. by exists (contents w).
Qed.

Lemma pending_save doc doc' :
  c_id doc' = c_id doc -> status doc' <> Generating ->
  ensures (runPending doc) (lift (L:=Z * Z) (save env doc')) (fun _ => runClean)
          (runPending doc).
Proof.
  intros Hid Hst [c w] (Ho & Hd & l & Hl & Hg). cbn in Ho, Hl.
  unfold lift, save, dbOp, step, emit. munfold. cbn -[updateById].
  destruct (dbError env (tick w)); cbn -[updateById].
  - split; [done|]. split; [done|]. by exists l.
  - split; [done|]. unfold noneGenerating. cbn -[updateById].
    rewrite Hl, updateById_app.
    apply Forall_app. split; [by apply Forall_updateById|].
    unfold updateById. cbn. rewrite <- Hid, Nat.eqb_refl. by repeat constructor.
Qed.

Lemma settle_updateOne pid msg doc :
  productId doc = pid ->
  ensures (fun s => runClean s \/ runPending doc s)
          (lift (L:=Z * Z) (updateOneGenerating env pid msg))
          (fun _ => runClean) (fun _ => False).
Proof.
  intros Hp [c w] Hs.
  unfold lift, updateOneGenerating, dbOp, step. munfold. cbn -[updateFirst].
  rewrite Hdb. cbn -[updateFirst].
  unfold runClean, runPending, noneGenerating, placeholderLast in *.
  cbn -[updateFirst] in *.
  destruct Hs as [[Ho Hg]|(Ho & Hd & l & Hl & Hg)]; (split; [done|]).
  - rewrite updateFirst_none; [done|].
    eapply Forall_impl; [exact Hg|]. cbn. intros x Hx.
    destruct (status x); try done; apply andb_false_r.
  - rewrite Hl, updateFirst_last.
    + apply Forall_app. split; [done|]. by repeat constructor.
    + eapply Forall_impl; [exact Hg|]. cbn. intros x Hx.
      destruct (status x); try done; apply andb_false_r.
    + rewrite Hp, Hd, Nat.eqb_refl. done.
Qed.

Lemma generateOne_clean products entry :
  ensures runClean (generateOne env products entry) (fun _ => runClean)
          (fun _ => False).
Proof.
  unfold generateOne.
  eapply ensures_tryCatch
    with (K' := fun s => runClean s
                         \/ exists id, runPending (newContent id (snd entry)) s).
  - (* try *)
    eapply ensures_bind.
    { eapply ensures_weaken; [apply clean_keep; keeps_tac|done|done|by left]. }
    intros [existing|].
    { eapply ensures_weaken; [apply clean_keep; keeps_tac|done|done|by left]. }
    eapply ensures_bind.
    { eapply ensures_weaken; [apply clean_keep; keeps_tac|done|done|by left]. }
    intros id.
    eapply ensures_bind.
    { eapply ensures_weaken;
        [apply (clean_insert (newContent id (snd entry))); reflexivity
        |done|done|by left]. }
    intros ?.
    eapply ensures_bind.
    { eapply ensures_weaken;
        [apply (pending_keep _ (newContent id (snd entry))); keeps_tac|done|done|].
      intros s Hs. right. by exists id. }
    intros ?.
    eapply ensures_bind.
    { eapply ensures_weaken;
        [apply (pending_keep _ (newContent id (snd entry))); keeps_tac|done|done|].
      intros s Hs. right. by exists id. }
    intros content.
    eapply ensures_bind.
    { eapply ensures_weaken;
        [apply (pending_save (newContent id (snd entry))); [reflexivity|done]
        |done|done|].
      intros s Hs. right. by exists id. }
    intros ?.
    eapply ensures_bind with (Q := fun _ => runClean).
    { intros [c w] Hs. exact Hs. }
    intros ?.
    eapply ensures_bind.
    { eapply ensures_weaken; [apply clean_keep; keeps_tac|done|done|by left]. }
    intros ?.
    eapply ensures_bind.
    { eapply ensures_weaken; [apply clean_keep; keeps_tac|done|done|by left]. }
    intros ?.
    eapply ensures_bind.
    { eapply ensures_weaken; [apply clean_keep; keeps_tac|done|done|by left]. }
    intros ?.
    destruct (_ <? _).
    + eapply ensures_weaken; [apply clean_keep; keeps_tac|done|done|by left].
    + by apply ensures_ret.
  - (* catch *)
    intros err.
    eapply ensures_bind
      with (Q := fun _ s => runClean s
                            \/ exists id, runPending (newContent id (snd entry)) s).
    { intros [c w] Hs. exact Hs. }
    intros ?.
    eapply ensures_bind
      with (Q := fun _ s => runClean s
                            \/ exists id, runPending (newContent id (snd entry)) s).
    { intros [c w] Hs. unfold lift. cbn [fst snd].
      rewrite oLog_logged; [exact Hs|]. by destruct Hs as [[Ho _]|[id [Ho _]]]. }
    intros ?.
    eapply ensures_tryCatch with (K' := fun _ => False); [|by intros ? ? []].
    intros s [Hs|[id Hs]].
    + exact (settle_updateOne (p_id (snd entry)) (message err)
               (newContent 0 (snd entry)) eq_refl s (or_introl Hs)).
    + exact (settle_updateOne (p_id (snd entry)) (message err)
               (newContent id (snd entry)) eq_refl s (or_intror Hs)).
Qed.

Lemma generateAll_clean products l :
  ensures runClean (forEach l (generateOne env products)) (fun _ => runClean)
          (fun _ => False).
Proof. apply ensures_forEach. intros x. apply generateOne_clean. Qed.

End PlaceholderFacts.

Section ContentRunProperties.
Import Marketing Orchestration.

Lemma withLocal_Ok {S L A} (m : M (L * S) A) (l : L) s a l' s' :
  m (l, s) = (Ok a, (l', s')) -> withLocal l m s = (Ok a, s').
Proof. intros E. unfold withLocal. by rewrite E. Qed.

(** The end of a content run: the summary line and the result. *)
Lemma runTail_Ok (products : list (nat * Product)) (c : Z * Z) (w : World) :
  o_logger (orchestrator w) = true ->
  exists msg,
    (let* c := getLocal in
     lift (oLog "info"
             ("Content pipeline: " ++ pretty (fst c) ++ " generated, "
              ++ pretty (snd c) ++ " failed, "
              ++ pretty (Z.of_nat (List.length products) - fst c - snd c)
              ++ " skipped")%string) ;;
     ret (Generated (fst c) (snd c) (Z.of_nat (List.length products)))) (c, w)
    = (Ok (Generated (fst c) (snd c) (Z.of_nat (List.length products))),
       (c, setTrace (trace w ++ [EvLog "info" msg]) w)).
Proof.
  intros Ho. eexists.
  rewrite (bind_Ok _ _ (c, w) c (c, w)) by reflexivity.
  erewrite (bind_Ok _ _ (c, w) tt);
    [|unfold lift; cbn [fst snd]; rewrite oLog_logged by done; reflexivity].
  reflexivity.
Qed.

(** X24.  A content run never throws once the orchestrator has its
    logger, whatever the database, the generator and the bridge do.  With
    the generator disabled it skips every product and writes nothing.
    Otherwise each product is counted at most once: generated and failed
    are non-negative and sum to at most the number of products,
    [stats.contentGenerated] grows by exactly [generated], no document is
    removed, and at most one document is added per product counted. *)
Theorem content_run_accounting (env : Env) (isEnabled : bool)
  (products : list (nat * Product)) (w : World) :
  o_logger (orchestrator w) = true ->
  exists r w',
    runContentPipeline env isEnabled products w = (Ok r, w') /\
    match r with
    | GeneratorDisabled generated skipped =>
        isEnabled = false /\ generated = 0 /\
        skipped = Z.of_nat (List.length products) /\
        contents w' = contents w /\ orchestrator w' = orchestrator w /\
        tick w' = tick w
    | Generated generated failed total =>
        isEnabled = true /\ total = Z.of_nat (List.length products) /\
        0 <= generated /\ 0 <= failed /\ generated + failed <= total /\
        contentGenerated (stats (orchestrator w'))
        = contentGenerated (stats (orchestrator w)) + generated /\
        (List.length (contents w) <= List.length (contents w'))%nat /\
        Z.of_nat (List.length (contents w'))
        <= Z.of_nat (List.length (contents w)) + generated + failed
    end.
Proof.
  intros Ho. unfold runContentPipeline. destruct isEnabled; cbn [negb].
  - destruct (generateAll_spec env products products (0, 0) w Ho)
      as (c & w1 & E & Ho1 & A & B & C & D & L & M).
    destruct (runTail_Ok products c w1 Ho1) as (msg & E2).
    exists (Generated (fst c) (snd c) (Z.of_nat (List.length products))),
      (setTrace (trace w1 ++ [EvLog "info" msg]) w1).
    split.
    { apply (withLocal_Ok _ _ _ _ c). by rewrite (bind_Ok _ _ _ _ _ E). }
    cbv beta iota. cbn [contents orchestrator setTrace].
    cbn [fst snd] in A, B, C, D, M.
    repeat split; try done; lia.
  - rewrite (bind_Ok _ _ _ _ _ (oLog_logged _ _ w Ho)).
    eexists _, _. split; [reflexivity|]. by repeat split.
Qed.

Lemma content_run_accounting_witness :
  exists w',
    runContentPipeline Samples.env true
      [(0%nat, Samples.product);
       (1%nat, Marketing.mkProduct 8 "Bamboo Organizer" "" [] 0 0 "home")]
      Samples.world
    = (Ok (Generated 1 0 2), w') /\
    List.length (contents w') = 4%nat.
Proof.
  destruct (content_run_accounting Samples.env true
              [(0%nat, Samples.product);
               (1%nat, Marketing.mkProduct 8 "Bamboo Organizer" "" [] 0 0 "home")]
              Samples.world eq_refl) as (r & w' & E & H).
  exists w'. vm_compute in E. injection E as <- <-. by vm_compute.
Defined.

(** X25.  With a database that answers, a content run leaves no
    placeholder behind: if no document was in status [generating] before
    the run, none is afterwards, whether the generator succeeded (the
    placeholder becomes [pending_approval]) or threw (it becomes
    [failed]). *)
Theorem content_run_leaves_no_placeholder (env : Env) (isEnabled : bool)
  (products : list (nat * Product)) (w : World) :
  (forall n, dbError env n = None) ->
  o_logger (orchestrator w) = true ->
  noneGenerating w ->
  noneGenerating (snd (runContentPipeline env isEnabled products w)).
Proof.
  intros Hdb Ho Hg. unfold runContentPipeline. destruct isEnabled; cbn [negb].
  - destruct (ensures_returns _ _ _ ((0, 0), w)
                (generateAll_clean env Hdb products products))
      as ([] & [c w1] & E & Ho1 & Hg1); [by split|]. cbn [snd] in Ho1, Hg1.
    destruct (runTail_Ok products c w1 Ho1) as (msg & E2).
    rewrite (withLocal_Ok _ _ _ _ c _ (eq_trans (bind_Ok _ _ _ _ _ E) E2)).
    exact Hg1.
  - by rewrite (bind_Ok _ _ _ _ _ (oLog_logged _ _ w Ho)).
Qed.

Lemma content_run_leaves_no_placeholder_witness :
  noneGenerating
    (snd (runContentPipeline Samples.envGeneratorDown true
            [(0%nat, Marketing.mkProduct 8 "Bamboo Organizer" "" [] 0 0 "home")]
            Samples.world)) /\
  map status
    (contents (snd (runContentPipeline Samples.envGeneratorDown true
                      [(0%nat, Marketing.mkProduct 8 "Bamboo Organizer" "" [] 0 0 "home")]
                      Samples.world)))
  = [PendingApproval; Posted; PendingApproval; Failed].
Proof.
  split; [|reflexivity].
  apply (content_run_leaves_no_placeholder Samples.envGeneratorDown true
           [(0%nat, Marketing.mkProduct 8 "Bamboo Organizer" "" [] 0 0 "home")]
           Samples.world); [reflexivity|reflexivity|].
  unfold noneGenerating. cbn. by repeat constructor.
Defined.

End ContentRunProperties.

Section SkipFacts.
Import Marketing Orchestration.
Variable env : Env.
Hypothesis Hdb : forall n, dbError env n = None.

Lemma findActiveContent_answer pid w :
  findActiveContent env pid w
  = (Ok (find (fun c => Nat.eqb (productId c) pid && isActiveContent (status c))
              (contents w)),
     setTick (Datatypes.S (tick w)) w).
Proof. unfold findActiveContent, dbOp, step. munfold. cbn. by rewrite Hdb. Qed.

(** A product that has active content costs one lookup and one log line. *)
Lemma generateOne_skip products entry c w x :
  o_logger (orchestrator w) = true ->
  find (fun c => Nat.eqb (productId c) (p_id (snd entry)) && isActiveContent (status c))
       (contents w) = Some x ->
  exists msg,
    generateOne env products entry (c, w)
    = (Ok tt, (c, setTrace (trace w ++ [EvLog "info" msg])
                    (setTick (Datatypes.S (tick w)) w))).
Proof.
  intros Ho Hx. eexists. unfold generateOne. apply tryCatch_Ok.
  erewrite (bind_Ok _ _ (c, w) (Some x));
    [|unfold lift; cbn [fst snd]; rewrite findActiveContent_answer, Hx; reflexivity].
  unfold lift. cbn [fst snd]. by rewrite oLog_logged.
Qed.

Lemma generateAll_skip prods l : forall c w,
  o_logger (orchestrator w) = true ->
  (forall e, e ∈ l ->
     exists x, x ∈ contents w /\ productId x = p_id (snd e)
               /\ isActiveContent (status x) = true) ->
  exists w',
    forEach l (generateOne env prods) (c, w) = (Ok tt, (c, w')) /\
    contents w' = contents w /\ orchestrator w' = orchestrator w /\
    products w' = products w /\
    List.filter isNetwork (trace w') = List.filter isNetwork (trace w).
Proof.
  induction l as [|e l IH]; intros c w Ho Hl.
  - exists w. by repeat split.
  - cbn [forEach].
    destruct (Hl e) as (x & Hx & Hp & Ha); [by left|].
    destruct (find (fun c => Nat.eqb (productId c) (p_id (snd e))
                             && isActiveContent (status c)) (contents w))
      as [y|] eqn:Ef.
    2:{ apply list_elem_of_In in Hx.
        pose proof (find_none _ _ Ef x Hx) as Hn. cbn in Hn.
        rewrite Hp, Nat.eqb_refl, Ha in Hn. discriminate. }
    destruct (generateOne_skip prods e c w y Ho Ef) as (msg & E).
    rewrite (bind_Ok _ _ _ _ _ E).
    destruct (IH c (setTrace (trace w ++ [EvLog "info" msg])
                      (setTick (Datatypes.S (tick w)) w)))
      as (w' & E' & Hc & Hor & Hpr & Ht).
    { exact Ho. }
    { intros e' He'. apply Hl. by right. }
    exists w'. split; [exact E'|]. repeat split; try done.
    rewrite Ht. cbn [trace setTrace setTick].
    rewrite List.filter_app. cbn. apply app_nil_r.
Qed.

End SkipFacts.

Section SkipProperties.
Import Marketing Orchestration.

(** X27.  A content run generates nothing for a product that already has
    content in status [generating], [pending_approval] or [approved]:
    with a database that answers, a run over such products counts nothing
    as generated or failed, never calls the generator or any other
    service, and leaves the collection, the catalogue and the counters as
    they were.  Running the content pipeline again is therefore harmless
    as long as the earlier content has not been posted, rejected or
    failed. *)
Theorem content_run_skips_active (env : Env) (products : list (nat * Product))
  (w : World) :
  (forall n, dbError env n = None) ->
  o_logger (orchestrator w) = true ->
  (forall e, e ∈ products ->
     exists x, x ∈ contents w /\ productId x = p_id (snd e)
               /\ isActiveContent (status x) = true) ->
  exists w',
    runContentPipeline env true products w
    = (Ok (Generated 0 0 (Z.of_nat (List.length products))), w') /\
    contents w' = contents w /\ orchestrator w' = orchestrator w /\
    Marketing.products w' = Marketing.products w /\
    List.filter isNetwork (trace w') = List.filter isNetwork (trace w).
Proof.
  intros Hdb Ho Hl. unfold runContentPipeline. cbn [negb].
  destruct (generateAll_skip env Hdb products products (0, 0) w Ho Hl)
    as (w1 & E & Hc & Hor & Hpr & Ht).
  assert (o_logger (orchestrator w1) = true) as Ho1 by (by rewrite Hor).
  destruct (runTail_Ok products (0, 0) w1 Ho1) as (msg & E2).
  exists (setTrace (trace w1 ++ [EvLog "info" msg]) w1). split.
  { apply (withLocal_Ok _ _ _ _ (0, 0)). by rewrite (bind_Ok _ _ _ _ _ E). }
  cbn [contents orchestrator Marketing.products trace setTrace].
  repeat split; try done.
  rewrite List.filter_app, Ht. cbn. apply app_nil_r.
Qed.

Lemma content_run_skips_active_witness :
  exists w',
    runContentPipeline Samples.env true [(0%nat, Samples.product)] Samples.world
    = (Ok (Generated 0 0 1), w') /\
    contents w' = contents Samples.world.
Proof.
  destruct (content_run_skips_active Samples.env [(0%nat, Samples.product)]
              Samples.world) as (w' & E & Hc & _).
  - reflexivity.
  - reflexivity.
  - intros e He. apply list_elem_of_singleton in He as ->.
    exists (Samples.content 1 7 PendingApproval).
    split; [by left|]. by split.
  - exists w'. by split.
Defined.

End SkipProperties.
